(* ===== verification/_CoqProject ===== *)
-Q . S2P
Prelude.v
Schema.v
Workflow.v
Cart.v
Auth.v
App.v
Safety.v
Reports.v
Progress.v
Types.v
