(* ===== verification/Prelude.v ===== *)
(** * Facility 365: a verification development of [src/Facility.py]

    The program is a Streamlit application backed by one SQLite
    database.  Staff put items in a per-session cart and submit them as
    requests.  A request is then routed through a chain of role-specific
    approvers by UPDATE statements that rewrite its [status] column:
    Dept HOD, Admin, SS HOD, SAC, ED and GMD.  When the GMD approves, a
    row is inserted into [payments], which Accounts later marks paid.  A
    superuser creates accounts with a temporary password, and a user whose
    [force_reset] flag is set must change the password before anything
    else is shown.

    ** How the program is modelled

    - Every Streamlit rerun of the script is one call of a handler in the
      state-and-exception monad [ST] below.  Its state is the shared
      database, the session state of the browser tab that reran, and the
      process-wide random-number generator.  Each [run_query] commits on
      its own, so a Python exception half-way through a handler keeps
      every write made before it: [st_bind] keeps the state on error.
    - SQLite tables with a TEXT primary key are stdpp [gmap string row].
      INSERT of a present key is an [IntegrityError], and UPDATE ... WHERE
      of an absent key does nothing ([alter]).  The AUTOINCREMENT audit
      table is a list with its [sqlite_sequence] counter.  TEXT columns
      are [string]s, so the status column is the string the code writes.
      REAL columns are exact rationals [Q]: the code only stores, compares
      and subtracts amounts, and float rounding is not modelled.
    - sha256, uuid4, the clock and PIL are library calls.  They are the
      fields of the class [Platform] (Schema.v): a hash function, the
      8-character prefix of the n-th uuid drawn, fixed date and
      timestamp strings, and [is_image], whether bytes decode as an
      image.  No theorem depends on the clock.
    - A widget that a rerun does not render cannot be clicked.  The event
      that names it is answered [Unavailable] and changes nothing.  Each
      handler re-runs the SELECT that renders its buttons, so the guard is
      the one the code evaluates.
    - The SS HOD, ED, GMD and SAC dashboards draw each listed request's
      invoice with [st.image] before that row's buttons (lines 269, 299).
      The SELECT scans the requests in rowid order ([req_order] of the
      database, [listed] in Workflow.v), and the handler of a button of
      row [rid] first draws the invoices of the rows up to [rid]
      ([render_invoices], [upto]); the first one PIL cannot decode raises
      [ImageError] and the click is lost.
    - Streamlit's [st.rerun()] raises an exception to stop the script.
      In [create_user] the bare [except] of line 355 catches it, so a
      successful Create shows "Created!" then "Username exists"
      ([InfoError]) and does not rerun.

    ** Files, and the code each one models

    - [Prelude]: this header, the monad [ST] and its laws, the
      invariant-preservation combinators ([preserves], [preserve_steps]),
      the hint databases [facility] and [facility_rw], and Python helpers
      ([truthy], [", ".join] as [join], slicing as [prefix]).
    - [Schema]: the class [Platform]; the rows of the four tables and
      [init_db] (lines 12-73); [run_query]'s INSERT and UPDATE
      ([insert_row], [sql_insert_*], [sql_update_*]); [make_hash],
      [check_hash], [log_action], [get_user] (lines 82-105); the
      session state (lines 107-112); the vocabulary of the status column.
    - [Workflow]: the buttons of [view_admin_dashboard],
      [view_approver_dashboard], [view_sac_dashboard], [view_hod_dashboard]
      and [view_accounts] (lines 224-376), one definition per button, each
      re-running the SELECT that lists its row.  The abstract workflow
      [route] / [spec_step] and one refinement lemma per handler.
    - [Cart]: [STATIONARY_ITEMS], [CATEGORY_OPTIONS], the Add button
      (lines 114-122, 207-214) and [process_cart_submission] (128-161).
    - [Auth]: [login_function], [change_password_flow], the Create form
      of [view_superuser] and the Logout button (lines 163-191, 339-355,
      397-398).
    - [App]: [main] (lines 381-409) as [main] and [role_view]; a [world]
      of one database, one uuid generator and one session state per
      browser tab; [step] is one rerun of one tab on one [event];
      [reachable] worlds are built from [start] by reruns and restarts.
    - [Safety]: the invariant [world_inv] of reachable worlds (well-formed
      rows, payments, the superuser row, the cached profile of every
      logged-in tab) and its consequences.
    - [Reports]: the read-only SELECTs (History, Analysis, Savings and
      its total, Spend, the user list, the Accounts list; lines 197-200,
      220-222, 252-254, 310-318, 335-337, 357-359, 363-368) as the lists
      of rows they return.
    - [Progress]: liveness (a pending request is moved on by a tab of
      the role that lists it, given, at Pending SS HOD, invoices that
      decode).
    - [Types]: the typing invariant of carts and of the category column
      that the widgets of the staff portal enforce.

    ** What the theorems show

    - Refinement (App): every rerun of every handler refines
      [spec_step] ([main_spec]); every reachable world refines the
      workflow ([world_refines_workflow]); a status only moves forward
      ([status_along_route]), is final once terminal ([terminal_final]),
      and changes at most [6 - rank] times ([status_changes_bounded]:
      [rank] numbers the six pending statuses along the chain, the bound
      that makes every request's life finite).
    - Invariants (Safety, by induction on [reachable]): payments belong
      to Approved requests with their amount and vendor, one per request;
      a request past the Admin carries the quote; stationary requests stay
      with the Admin; statuses are the ten of the workflow, never "Paid";
      every logged-in tab's user exists; the superuser row is fixed;
      every request is in the rowid order; a request past the SS HOD
      has an invoice that decodes, so the Accounts page's [st.image]
      never raises ([accounts_invoices_decode]).  [main] raises no
      TypeError or KeyError: only an INSERT's IntegrityError or PIL's
      ImageError escape.
    - Reports (Reports): in reachable worlds the Savings and Spend
      queries are equivalent to simpler WHERE clauses, because the
      statuses "Paid" and "Ready for Accounts" they filter on never
      occur; Total Savings is never negative; every payment Ready for
      Accounts is listed.  Examples show a negative payment is
      reachable.
    - Liveness and termination (Progress), and typing (Types): see
      above.
    - Handlers: the GMD approval's success and its uuid collision
      (Workflow); a non-image invoice blocking the Approve, Decline and
      Validate buttons of its row and of every row listed after it
      ([image_error_blocks]); the guards of the Admin quote, SAC
      validation and HOD buttons; the submission's success with fresh
      uuid draws, its routing, its partial failure and the double filing
      of the stationary items it causes (Cart); the login, password
      change round trip and user creation with its misleading message
      (Auth).  An example shows the cart surviving logout (Safety).

    ** Bounds, fuel and the concrete platform

    No definition uses fuel: every loop of the code is over a finite
    list ([st_iter]) and every handler is one pass of the script.  The
    examples use [demo_platform], whose uuid draws 0 and 1 share the
    prefix "0badcafe" and whose later draws are the hexadecimal draw
    number, so that collisions and fresh draws can both be exhibited.
    Each scenario is a list of [(tab, event)] run by [run_events] from
    [start empty_db 0]; its reachability is proved, not assumed.

    ** Not modelled

    Rendering (headers, tables, CSV download) is pure output; of the
    images, only the invoices drawn before a button are modelled, as
    above.  The Accounts page's [st.image] (line 372) is left out of
    [accounts_mark_paid]: in every reachable world it never raises.  An
    event whose widget is not on the page is answered [Unavailable]
    without drawing the page, so the error a bad invoice raises on such
    a rerun is not modelled.  The dashboards' SELECTs on requests scan
    in rowid order; the order of the read-only reports is not modelled,
    and their theorems are about membership and sums, which do not
    depend on it.  Float rounding of REAL
    columns is not modelled (amounts are [Q]).  Concurrent reruns are
    modelled as interleaved whole reruns: SQLite statements of two tabs
    interleaving inside one rerun are not. *)

From stdpp Require Export base gmap strings list pretty.
From Stdlib Require Export QArith.

Close Scope Q_scope.

Declare Scope facility_scope.
Delimit Scope facility_scope with fac.
Open Scope string_scope.

Create HintDb facility discriminated.
Create Rewrite HintDb facility_rw.

(** ** The state-and-exception monad of one script run *)

(** A computation reads and writes a state [S] and may raise an
    exception [E].  The state reached when the exception is raised is
    kept, as SQLite keeps the rows a failing Python handler already
    committed. *)
Definition ST (S E A : Type) : Type := S -> S * (E + A).

Section Monad.
Context {S E : Type}.

Definition st_ret {A} (a : A) : ST S E A := fun s => (s, inr a).

Definition st_bind {A B} (m : ST S E A) (k : A -> ST S E B) : ST S E B :=
  fun s => match m s with
           | (s', inl e) => (s', inl e)
           | (s', inr a) => k a s'
           end.

Definition st_get : ST S E S := fun s => (s, inr s).
Definition st_put (s : S) : ST S E unit := fun _ => (s, inr tt).
Definition st_modify (f : S -> S) : ST S E unit := fun s => (f s, inr tt).
Definition st_throw {A} (e : E) : ST S E A := fun s => (s, inl e).

(** [try: m except: h(e)]: the handler runs from the state the exception
    left. *)
Definition st_catch {A} (m : ST S E A) (h : E -> ST S E A) : ST S E A :=
  fun s => match m s with
           | (s', inl e) => h e s'
           | r => r
           end.

(** [for i in l: body(i)] *)
Fixpoint st_iter {A} (f : A -> ST S E unit) (l : list A) : ST S E unit :=
  match l with
  | [] => st_ret tt
  | x :: l' => st_bind (f x) (fun _ => st_iter f l')
  end.
End Monad.

Notation "'let*' x ':=' m 'in' k" := (st_bind m (fun x => k))
  (at level 10, x pattern, m at level 100, k at level 200) : facility_scope.
Notation "m ;;; k" := (st_bind m (fun _ => k))
  (at level 100, right associativity) : facility_scope.

Open Scope facility_scope.

Section MonadLaws.
Context {S E : Type}.

Lemma st_bind_ret_l {A B} (a : A) (k : A -> ST S E B) s :
  st_bind (st_ret a) k s = k a s.
Proof. reflexivity. Qed.

Lemma st_bind_assoc {A B C} (m : ST S E A) (k : A -> ST S E B)
      (h : B -> ST S E C) s :
  st_bind (st_bind m k) h s = st_bind m (fun a => st_bind (k a) h) s.
Proof. unfold st_bind. destruct (m s) as [s' [e|a]]; reflexivity. Qed.

Lemma st_bind_ok {A B} (m : ST S E A) (k : A -> ST S E B) s s' a :
  m s = (s', inr a) -> st_bind m k s = k a s'.
Proof. unfold st_bind. by intros ->. Qed.

Lemma st_bind_err {A B} (m : ST S E A) (k : A -> ST S E B) s s' e :
  m s = (s', inl e) -> st_bind m k s = (s', inl e).
Proof. unfold st_bind. by intros ->. Qed.

Lemma st_catch_ok {A} (m : ST S E A) h s s' a :
  m s = (s', inr a) -> st_catch m h s = (s', inr a).
Proof. unfold st_catch. by intros ->. Qed.

Lemma st_catch_err {A} (m : ST S E A) h s s' e :
  m s = (s', inl e) -> st_catch m h s = h e s'.
Proof. unfold st_catch. by intros ->. Qed.

(** ** Invariants preserved by every run, error or not *)

Definition preserves (I : S -> Prop) {A} (m : ST S E A) : Prop :=
  forall s, I s -> I (fst (m s)).

Lemma preserves_ret I {A} (a : A) : preserves I (st_ret a).
Proof. by intros s. Qed.

Lemma preserves_throw I {A} (e : E) : preserves I (@st_throw _ _ A e).
Proof. by intros s. Qed.

Lemma preserves_get I : preserves I st_get.
Proof. by intros s. Qed.

Lemma preserves_modify (I : S -> Prop) f :
  (forall s, I s -> I (f s)) -> preserves I (st_modify f).
Proof. intros Hf s. apply Hf. Qed.

Lemma preserves_bind I {A B} (m : ST S E A) (k : A -> ST S E B) :
  preserves I m -> (forall a, preserves I (k a)) -> preserves I (st_bind m k).
Proof.
  intros Hm Hk s Hs. unfold st_bind.
  specialize (Hm s Hs). destruct (m s) as [s' [e|a]]; [done|].
  by apply Hk.
Qed.

Lemma preserves_catch I {A} (m : ST S E A) (h : E -> ST S E A) :
  preserves I m -> (forall e, preserves I (h e)) -> preserves I (st_catch m h).
Proof.
  intros Hm Hh s Hs. unfold st_catch.
  specialize (Hm s Hs). destruct (m s) as [s' [e|a]]; [by apply Hh|done].
Qed.

Lemma preserves_iter I {A} (f : A -> ST S E unit) (l : list A) :
  (forall x, x ∈ l -> preserves I (f x)) -> preserves I (st_iter f l).
Proof.
  induction l as [|x l IH]; intros Hf; simpl.
  - apply preserves_ret.
  - apply preserves_bind; [apply Hf; set_solver|].
    intros _. apply IH. intros y Hy. apply Hf. set_solver.
Qed.
End MonadLaws.

#[export] Hint Resolve preserves_ret preserves_throw preserves_get : facility.

(** [preserves_bind] splits a run into its steps; what is left is one
    goal per primitive. *)
Ltac preserve_steps :=
  repeat match goal with
         | |- preserves _ (st_bind _ _) => apply preserves_bind; [|intros ?]
         | |- preserves _ (st_catch _ _) => apply preserves_catch; [|intros ?]
         | |- preserves _ (if _ then _ else _) => case_match
         | |- preserves _ (match _ with _ => _ end) => case_match
         end; eauto with facility.

(** ** Shared facts on strings, options and rationals *)

#[export] Instance Q_eq_dec : EqDecision Q.
Proof. solve_decision. Defined.

(** Python's truth value of a string: non-empty. *)
Definition truthy (s : string) : bool := negb (bool_decide (s = "")).

Lemma truthy_true s : truthy s = true <-> s <> "".
Proof. unfold truthy. destruct (bool_decide_reflect (s = "")); naive_solver. Qed.

(** Python's [", ".join(l)]. *)
Fixpoint join (sep : string) (l : list string) : string :=
  match l with
  | [] => ""
  | [x] => x
  | x :: l' => x +:+ sep +:+ join sep l'
  end.

(** Python's [s[:n]]. *)
Definition prefix (n : nat) (s : string) : string := String.substring 0 n s.

(** The [Ok] branch of a result mapped by [f]. *)
Definition res_map {E A B} (f : A -> B) (r : E + A) : E + B :=
  match r with inl e => inl e | inr a => inr (f a) end.

(** Python's float comparison [x < y], on the rationals that model REAL. *)
#[export] Instance Qlt_decision (x y : Q) : Decision (x < y)%Q.
Proof.
  destruct (Qlt_le_dec x y) as [Hlt|Hle]; [left; exact Hlt|right].
  by apply Qle_not_lt.
Defined.
