(* ===== verification/Schema.v ===== *)
(** * Schema: the database, the session state and their primitives

    The four tables that [init_db] creates (src/Facility.py, lines 12-73),
    the per-tab [st.session_state] (lines 107-112), the library calls
    collected in the class [Platform], and the helpers of lines 82-105
    ([make_hash], [check_hash], [run_query], [log_action], [get_user]) as
    primitives of the run monad [App]. *)

From S2P Require Import Prelude.

(** ** Library calls *)

(** sha256, uuid4, the clock and PIL.  [uuid4_str n] is
    [str(uuid.uuid4())] at the n-th draw of the process; [is_image b]
    says whether [st.image(BytesIO(b))] can decode the bytes [b] (PIL
    raises [UnidentifiedImageError] otherwise). *)
Class Platform := {
  sha256_hex : string -> string;
  uuid4_str : nat -> string;
  date_today : string;
  now_stamp : string;
  is_image : list Byte.byte -> bool
}.

(** ** Rows *)

Definition blob := list Byte.byte.

Record user_row := {
  u_username : string; u_password : string; u_role : string; u_name : string;
  u_email : string; u_dept : string; u_hod_email : string; u_force_reset : Z
}.

Record request_row := {
  r_id : string; r_user_key : string; r_requester_name : string;
  r_department : string; r_approver_email : string; r_category : string;
  r_item : string; r_status : string; r_amount : Q; r_initial_cost : Q;
  r_vendor : string; r_invoice_img : option blob; r_sac_note : string;
  r_date : string
}.

Record audit_row := {
  a_id : Z; a_timestamp : string; a_user : string; a_action : string;
  a_details : string
}.

Record payment_row := {
  p_payment_id : string; p_req_id : string; p_amount : Q; p_status : string;
  p_vendor : string
}.

(** The database file.  [audit_seq] is AUTOINCREMENT's counter;
    [req_order] lists the ids of [requests] in rowid order, the order a
    SELECT without ORDER BY scans them in. *)
Record db := {
  users : gmap string user_row;
  requests : gmap string request_row;
  req_order : list string;
  audit : list audit_row;
  audit_seq : Z;
  payments : gmap string payment_row
}.

Definition empty_db : db :=
  {| users := ∅; requests := ∅; req_order := []; audit := []; audit_seq := 0; payments := ∅ |}.

Definition set_users f (d : db) : db :=
  {| users := f (users d); requests := requests d; req_order := req_order d; audit := audit d;
     audit_seq := audit_seq d; payments := payments d |}.
Definition set_requests f (d : db) : db :=
  {| users := users d; requests := f (requests d); req_order := req_order d; audit := audit d;
     audit_seq := audit_seq d; payments := payments d |}.
Definition set_payments f (d : db) : db :=
  {| users := users d; requests := requests d; req_order := req_order d; audit := audit d;
     audit_seq := audit_seq d; payments := f (payments d) |}.

(** A new row gets the next rowid. *)
Definition append_order (k : string) (d : db) : db :=
  {| users := users d; requests := requests d; req_order := req_order d ++ [k]; audit := audit d;
     audit_seq := audit_seq d; payments := payments d |}.

(** ** SQL statements *)

Inductive exn :=
| IntegrityError (table key : string)
| TypeError (what : string)
| KeyError (key : string)
| ImageError (rid : string).   (** PIL's UnidentifiedImageError on the invoice of [rid] *)

(** [INSERT INTO t VALUES (...)]: the primary key must be free. *)
Definition insert_row {V} (table : string) (k : string) (v : V)
    (m : gmap string V) : exn + gmap string V :=
  match m !! k with
  | Some _ => inl (IntegrityError table k)
  | None => inr (<[k:=v]> m)
  end.

Definition sql_insert_user (u : user_row) (d : db) : exn + db :=
  res_map (fun m => set_users (fun _ => m) d) (insert_row "users" (u_username u) u (users d)).
Definition sql_insert_request (r : request_row) (d : db) : exn + db :=
  res_map (fun m => append_order (r_id r) (set_requests (fun _ => m) d))
          (insert_row "requests" (r_id r) r (requests d)).
Definition sql_insert_payment (p : payment_row) (d : db) : exn + db :=
  res_map (fun m => set_payments (fun _ => m) d) (insert_row "payments" (p_payment_id p) p (payments d)).

(** [INSERT INTO audit (timestamp, user, action, details) VALUES (?,?,?,?)] *)
Definition sql_insert_audit (ts user action details : string) (d : db) : db :=
  {| users := users d; requests := requests d; req_order := req_order d;
     audit := audit d ++ [{| a_id := audit_seq d + 1; a_timestamp := ts;
                              a_user := user; a_action := action;
                              a_details := details |}];
     audit_seq := audit_seq d + 1; payments := payments d |}.

(** [UPDATE t SET ... WHERE key = ?]: no row, no change. *)
Definition sql_update_request (rid : string) (f : request_row -> request_row) (d : db) : db :=
  set_requests (alter f rid) d.
Definition sql_update_user (k : string) (f : user_row -> user_row) (d : db) : db :=
  set_users (alter f k) d.
Definition sql_update_payment (pid : string) (f : payment_row -> payment_row) (d : db) : db :=
  set_payments (alter f pid) d.

(** ** The status vocabulary of the [requests.status] column *)

Inductive status :=
| PendingDeptHOD | PendingAdmin | PendingSSHOD | PendingSAC | PendingED
| PendingGMD | Approved | Declined | CompletedFulfilled | CompletedResolved.

#[export] Instance status_eq_dec : EqDecision status.
Proof. solve_decision. Defined.

Definition status_name (s : status) : string :=
  match s with
  | PendingDeptHOD => "Pending Dept HOD"
  | PendingAdmin => "Pending Admin"
  | PendingSSHOD => "Pending SS HOD"
  | PendingSAC => "Pending SAC"
  | PendingED => "Pending ED"
  | PendingGMD => "Pending GMD"
  | Approved => "Approved"
  | Declined => "Declined"
  | CompletedFulfilled => "Completed (Fulfilled)"
  | CompletedResolved => "Completed (Resolved)"
  end.

Definition all_statuses : list status :=
  [PendingDeptHOD; PendingAdmin; PendingSSHOD; PendingSAC; PendingED;
   PendingGMD; Approved; Declined; CompletedFulfilled; CompletedResolved].

Definition status_of_name (n : string) : option status :=
  List.find (fun s => bool_decide (status_name s = n)) all_statuses.

(** The two values of [payments.status]. *)
Definition ready_for_accounts : string := "Ready for Accounts".
Definition paid : string := "Paid".

(** ** Session state and the run monad *)

Record cart_item := { ci_type : string; ci_item : string; ci_qty : Z }.

Record session := {
  cart : list cart_item;
  logged_in : bool;
  user_role : string;
  current_user_key : string;
  user_data : option user_row;     (** [{}] is [None] *)
  user_name : option string;       (** not set before the first login *)
  user_email : option string
}.

Definition initial_session : session :=
  {| cart := []; logged_in := false; user_role := ""; current_user_key := "";
     user_data := None; user_name := None; user_email := None |}.

(** What one rerun of the script reads and writes. *)
Record run_state := { rs_db : db; rs_sess : session; rs_rng : nat }.

Definition App := ST run_state exn.

Section Primitives.
Context `{Platform}.

Definition read_db : App db := fun s => (s, inr (rs_db s)).
Definition read_sess : App session := fun s => (s, inr (rs_sess s)).

Definition modify_db (f : db -> db) : App unit :=
  st_modify (fun s => {| rs_db := f (rs_db s); rs_sess := rs_sess s; rs_rng := rs_rng s |}).
Definition modify_sess (f : session -> session) : App unit :=
  st_modify (fun s => {| rs_db := rs_db s; rs_sess := f (rs_sess s); rs_rng := rs_rng s |}).

(** [run_query] of a statement that may raise. *)
Definition run_db (f : db -> exn + db) : App unit :=
  fun s => match f (rs_db s) with
           | inl e => (s, inl e)
           | inr d => ({| rs_db := d; rs_sess := rs_sess s; rs_rng := rs_rng s |}, inr tt)
           end.

(** [str(uuid.uuid4())[:8]]: [peek_id s] is the id the next draw
    returns. *)
Definition peek_id (s : run_state) : string := prefix 8 (uuid4_str (rs_rng s)).

Definition new_id : App string :=
  fun s => ({| rs_db := rs_db s; rs_sess := rs_sess s; rs_rng := S (rs_rng s) |},
            inr (peek_id s)).

(** Lines 82-86. *)
Definition make_hash (password : string) : string := sha256_hex password.
Definition check_hash (password hashed_text : string) : bool :=
  bool_decide (make_hash password = hashed_text).

(** Lines 95-97. *)
Definition log_action (user action details : string) : App unit :=
  modify_db (sql_insert_audit now_stamp user action details).

(** Lines 99-105: the primary key selects at most one row. *)
Definition get_user (d : db) (username : string) : option user_row :=
  users d !! username.

(** Lines 12-73 on an existing or fresh file: the tables are created
    if missing and the superuser is inserted if absent. *)
Definition super_row : user_row :=
  {| u_username := "super"; u_password := make_hash "123"; u_role := "Superuser";
     u_name := "IT Admin"; u_email := "it@co.com"; u_dept := "IT";
     u_hod_email := ""; u_force_reset := 0 |}.

Definition init_db (d : db) : db :=
  match users d !! "super" with
  | Some _ => d
  | None => set_users (<[ "super" := super_row ]>) d
  end.
End Primitives.

(** What a rerun shows after the handler: nothing beyond the rerun
    ([Done]), [st.success] ([Info]), [st.error] ([UiError]), both in
    turn ([InfoError]), or nothing because the clicked widget is not
    rendered in this rerun ([Unavailable]). *)
Inductive reply :=
| Done                                  (** the handler ends in [st.rerun()] or draws nothing new *)
| Info (msg : string)                   (** [st.success(msg)], no rerun *)
| UiError (msg : string)                (** [st.error(msg)], no rerun *)
| InfoError (info err : string)         (** [st.success(info)] then [st.error(err)], no rerun *)
| Unavailable.                          (** the button is not on the page *)

(** A property of the requests table, read as a property of a run's state. *)
Definition on_requests (P : gmap string request_row -> Prop) (s : run_state) : Prop :=
  P (requests (rs_db s)).

(** ** A concrete platform for the examples *)

(** [n] as [width] lowercase hexadecimal digits. *)
Fixpoint hex_digits (width n : nat) : string :=
  match width with
  | O => ""
  | S w => hex_digits w (n / 16) +:+
             match String.get (n mod 16) "0123456789abcdef" with
             | Some c => String c EmptyString
             | None => ""
             end
  end.

(** A tagging "hash", and a uuid generator whose draws 0 and 1 share
    their 8-character prefix and whose later draws do not. *)
Definition demo_platform : Platform := {|
  sha256_hex := fun p => "sha256:" +:+ p;
  uuid4_str := fun n =>
    (if decide (n <= 1)%nat then "0badcafe" else hex_digits 8 n) +:+
    "-0000-4000-8000-" +:+ hex_digits 12 n;
  date_today := "2026-11-09";
  now_stamp := "2026-11-09 12:00:00";
  is_image := fun b => match b with Byte.x89 :: _ => true | _ => false end
|}.

(** A run of one tab on a database, at the n-th uuid draw. *)
Definition demo_run (d : db) (n : nat) : run_state :=
  {| rs_db := d; rs_sess := initial_session; rs_rng := n |}.

Definition demo_request (rid status : string) (amount : Q) : request_row :=
  {| r_id := rid; r_user_key := "ada"; r_requester_name := "Ada"; r_department := "Ops";
     r_approver_email := "hod@co.com"; r_category := "Facility"; r_item := "AC Repair";
     r_status := status; r_amount := amount; r_initial_cost := amount;
     r_vendor := "CoolAir"; r_invoice_img := Some [Byte.x89]; r_sac_note := "";
     r_date := "2026-11-09" |}.

(** ** Lemmas on the schema *)

(** Reduce the plumbing of a run, leaving table operations folded. *)
Ltac run_app :=
  cbn [st_bind st_ret read_db read_sess modify_db modify_sess st_modify run_db
       new_id fst snd rs_db rs_sess rs_rng set_users set_requests set_payments
       users requests payments] in *.


Lemma status_of_name_name s : status_of_name (status_name s) = Some s.
Proof. by destruct s. Qed.

Lemma status_of_name_Some n s : status_of_name n = Some s -> status_name s = n.
Proof.
  unfold status_of_name. intros Hf.
  apply List.find_some in Hf as [_ Hf]. by apply bool_decide_eq_true in Hf.
Qed.

Lemma status_name_inj s s' : status_name s = status_name s' -> s = s'.
Proof.
  intros Heq. apply (f_equal status_of_name) in Heq.
  rewrite !status_of_name_name in Heq. congruence.
Qed.

Lemma requests_update_eq rid f d :
  requests (sql_update_request rid f d) !! rid = f <$> requests d !! rid.
Proof. apply lookup_alter_eq. Qed.

Lemma requests_update_ne rid f d k :
  rid <> k -> requests (sql_update_request rid f d) !! k = requests d !! k.
Proof. apply lookup_alter_ne. Qed.

Lemma payments_update_eq pid f d :
  payments (sql_update_payment pid f d) !! pid = f <$> payments d !! pid.
Proof. apply lookup_alter_eq. Qed.

Lemma payments_update_ne pid f d k :
  pid <> k -> payments (sql_update_payment pid f d) !! k = payments d !! k.
Proof. apply lookup_alter_ne. Qed.

Lemma insert_row_ok {V} table k (v : V) m m' :
  insert_row table k v m = inr m' -> m !! k = None /\ m' = <[k:=v]> m.
Proof. unfold insert_row. destruct (m !! k); naive_solver. Qed.

Lemma insert_row_err {V} table k (v : V) m e :
  insert_row table k v m = inl e -> is_Some (m !! k) /\ e = IntegrityError table k.
Proof. unfold insert_row. destruct (m !! k); naive_solver. Qed.

#[export] Hint Rewrite requests_update_eq payments_update_eq : facility_rw.
#[export] Hint Rewrite requests_update_ne payments_update_ne using congruence : facility_rw.

Lemma sql_insert_payment_ok p d :
  payments d !! p_payment_id p = None ->
  sql_insert_payment p d = inr (set_payments (<[p_payment_id p := p]>) d).
Proof. intros Hn. unfold sql_insert_payment, insert_row. by rewrite Hn. Qed.

Lemma sql_insert_payment_err p d :
  is_Some (payments d !! p_payment_id p) ->
  sql_insert_payment p d = inl (IntegrityError "payments" (p_payment_id p)).
Proof. intros [x Hx]. unfold sql_insert_payment, insert_row. by rewrite Hx. Qed.

Lemma sql_insert_request_ok r d :
  requests d !! r_id r = None ->
  sql_insert_request r d = inr (append_order (r_id r) (set_requests (<[r_id r := r]>) d)).
Proof. intros Hn. unfold sql_insert_request, insert_row. by rewrite Hn. Qed.

Lemma sql_insert_request_err r d :
  is_Some (requests d !! r_id r) ->
  sql_insert_request r d = inl (IntegrityError "requests" (r_id r)).
Proof. intros [x Hx]. unfold sql_insert_request, insert_row. by rewrite Hx. Qed.

Lemma sql_insert_user_ok u d :
  users d !! u_username u = None ->
  sql_insert_user u d = inr (set_users (<[u_username u := u]>) d).
Proof. intros Hn. unfold sql_insert_user, insert_row. by rewrite Hn. Qed.

Lemma sql_insert_user_err u d :
  is_Some (users d !! u_username u) ->
  sql_insert_user u d = inl (IntegrityError "users" (u_username u)).
Proof. intros [x Hx]. unfold sql_insert_user, insert_row. by rewrite Hx. Qed.

Lemma run_db_inr `{Platform} f s d :
  f (rs_db s) = inr d ->
  run_db f s = ({| rs_db := d; rs_sess := rs_sess s; rs_rng := rs_rng s |}, inr tt).
Proof. unfold run_db. by intros ->. Qed.

Lemma run_db_inl `{Platform} f s e :
  f (rs_db s) = inl e -> run_db f s = (s, inl e).
Proof. unfold run_db. by intros ->. Qed.


(** ** Statements that leave the requests table alone *)

Section OnRequests.
Context `{Platform}.
Implicit Types (P : gmap string request_row -> Prop).

Lemma preserves_read_db P : preserves (on_requests P) read_db.
Proof. by intros s. Qed.

Lemma preserves_read_sess P : preserves (on_requests P) read_sess.
Proof. by intros s. Qed.

Lemma preserves_new_id P : preserves (on_requests P) new_id.
Proof. by intros s. Qed.

Lemma preserves_modify_sess P f : preserves (on_requests P) (modify_sess f).
Proof. by intros s. Qed.

Lemma preserves_log_action P user action details :
  preserves (on_requests P) (log_action user action details).
Proof. by intros s. Qed.

Lemma preserves_insert_request P r :
  (forall m, P m -> m !! r_id r = None -> P (<[r_id r := r]> m)) ->
  preserves (on_requests P) (run_db (sql_insert_request r)).
Proof.
  intros HP s Hs. unfold run_db, sql_insert_request, insert_row.
  destruct (requests (rs_db s) !! r_id r) eqn:E; [done|]. by apply HP.
Qed.

Lemma preserves_insert_payment P p : preserves (on_requests P) (run_db (sql_insert_payment p)).
Proof.
  intros s Hs. unfold run_db, sql_insert_payment, insert_row.
  by destruct (payments (rs_db s) !! p_payment_id p).
Qed.
Lemma preserves_insert_user P u : preserves (on_requests P) (run_db (sql_insert_user u)).
Proof.
  intros s Hs. unfold run_db, sql_insert_user, insert_row.
  by destruct (users (rs_db s) !! u_username u).
Qed.

Lemma preserves_update_user P k f : preserves (on_requests P) (modify_db (sql_update_user k f)).
Proof. by intros s. Qed.

Lemma preserves_update_payment P k f : preserves (on_requests P) (modify_db (sql_update_payment k f)).
Proof. by intros s. Qed.

Lemma preserves_update_request P k f :
  (forall m r, P m -> m !! k = Some r -> P (<[k := f r]> m)) ->
  preserves (on_requests P) (modify_db (sql_update_request k f)).
Proof.
  intros HP s Hs. unfold on_requests. cbn.
  destruct (requests (rs_db s) !! k) as [r|] eqn:Hr.
  - replace (alter f k (requests (rs_db s))) with (<[k := f r]> (requests (rs_db s))).
    + by apply HP.
    + apply map_eq. intros j. rewrite lookup_alter. destruct (decide (k = j)) as [<-|Hne].
      * by rewrite lookup_insert_eq, Hr.
      * by rewrite lookup_insert_ne.
  - by rewrite alter_id'.
Qed.
End OnRequests.

#[export] Hint Resolve preserves_read_db preserves_read_sess preserves_new_id
  preserves_modify_sess preserves_log_action preserves_insert_payment
  preserves_insert_user preserves_update_user preserves_update_payment : facility.
