(* ===== verification/Workflow.v ===== *)
(** * Workflow: the approval dashboards and the status machine

    The handlers of the buttons of [view_admin_dashboard],
    [view_approver_dashboard], [view_sac_dashboard], [view_hod_dashboard]
    and [view_accounts] (src/Facility.py, lines 224-376).  Each one
    re-runs the SELECT that renders its button and acts only on a row that
    SELECT returns; the SS HOD, ED, GMD and SAC handlers first draw the
    invoices of the rows listed up to theirs, and PIL's error on one
    that does not decode stops them.  The abstract specification is
    [route], the graph of statuses the workflow promises, with
    [spec_step] on the map from request id to status.  The refinement lemmas show that every handler
    moves the database along [spec_step]. *)

From S2P Require Import Prelude Schema.

(** ** Row updates: the SET clauses *)

Definition set_status (st : string) (r : request_row) : request_row :=
  {| r_id := r_id r; r_user_key := r_user_key r; r_requester_name := r_requester_name r;
     r_department := r_department r; r_approver_email := r_approver_email r;
     r_category := r_category r; r_item := r_item r; r_status := st;
     r_amount := r_amount r; r_initial_cost := r_initial_cost r; r_vendor := r_vendor r;
     r_invoice_img := r_invoice_img r; r_sac_note := r_sac_note r; r_date := r_date r |}.

(** [SET vendor=?, amount=?, initial_cost=?, invoice_img=?, status='Pending SS HOD'] *)
Definition set_quote (v : string) (c : Q) (ib : blob) (r : request_row) : request_row :=
  {| r_id := r_id r; r_user_key := r_user_key r; r_requester_name := r_requester_name r;
     r_department := r_department r; r_approver_email := r_approver_email r;
     r_category := r_category r; r_item := r_item r; r_status := "Pending SS HOD";
     r_amount := c; r_initial_cost := c; r_vendor := v;
     r_invoice_img := Some ib; r_sac_note := r_sac_note r; r_date := r_date r |}.

(** [SET amount=?, sac_note=?, status='Pending ED'] *)
Definition set_sac (cost : Q) (note : string) (r : request_row) : request_row :=
  {| r_id := r_id r; r_user_key := r_user_key r; r_requester_name := r_requester_name r;
     r_department := r_department r; r_approver_email := r_approver_email r;
     r_category := r_category r; r_item := r_item r; r_status := "Pending ED";
     r_amount := cost; r_initial_cost := r_initial_cost r; r_vendor := r_vendor r;
     r_invoice_img := r_invoice_img r; r_sac_note := note; r_date := r_date r |}.

Definition set_pay_status (st : string) (p : payment_row) : payment_row :=
  {| p_payment_id := p_payment_id p; p_req_id := p_req_id p; p_amount := p_amount p;
     p_status := st; p_vendor := p_vendor p |}.

(** ** The rows a dashboard renders *)

(** [SELECT ... FROM requests WHERE status = st], the row with id [rid]. *)
Definition pending_with (st : string) (d : db) (rid : string) : option request_row :=
  match requests d !! rid with
  | Some r => if bool_decide (r_status r = st) then Some r else None
  | None => None
  end.

(** [SELECT * FROM requests WHERE status = st]: the rows, in rowid
    order, that the loop of a dashboard draws. *)
Definition listed (st : string) (d : db) : list request_row :=
  omap (pending_with st d) (req_order d).

(** The rows the loop draws before it reaches the buttons of row [rid]:
    every row up to and including the first one with id [rid] (all of
    them when no row has that id). *)
Fixpoint upto (rid : string) (rows : list request_row) : list request_row :=
  match rows with
  | [] => []
  | r :: rows' => r :: (if bool_decide (r_id r = rid) then [] else upto rid rows')
  end.

Section Dashboards.
Context `{Platform}.

(** [if r['invoice_img']: st.image(BytesIO(r['invoice_img']))] (lines
    269 and 299): an empty or missing blob is skipped, any other one must
    decode. *)
Definition invoice_ok (b : option blob) : bool :=
  match b with
  | Some ((_ :: _) as bs) => is_image bs
  | _ => true
  end.

Definition show_invoice (r : request_row) : App unit :=
  if invoice_ok (r_invoice_img r) then st_ret tt else st_throw (ImageError (r_id r)).

(** The invoices a dashboard's loop draws, in order; the first one PIL
    cannot decode stops the script. *)
Definition render_invoices (rows : list request_row) : App unit := st_iter show_invoice rows.

(** Every invoice of [rows] decodes. *)
Definition images_ok (rows : list request_row) : bool :=
  forallb (fun r => invoice_ok (r_invoice_img r)) rows.

(** The id of the first row whose invoice does not decode. *)
Fixpoint first_bad (rows : list request_row) : option string :=
  match rows with
  | [] => None
  | r :: rows' => if invoice_ok (r_invoice_img r) then first_bad rows' else Some (r_id r)
  end.

(** Lines 235-237: [Issue] on a pending stationary request. *)
Definition admin_issue (rid : string) : App reply :=
  let* d := read_db in
  match pending_with "Pending Admin" d rid with
  | Some r =>
      if bool_decide (r_category r = "Stationary") then
        modify_db (sql_update_request (r_id r) (set_status "Completed (Fulfilled)")) ;;;
        st_ret Done
      else st_ret Unavailable
  | None => st_ret Unavailable
  end.

(** Lines 238-240: [Resolve (No Cost)], shown when the category is not
    Stationary and the item is "CUG Issue", whatever the category. *)
Definition admin_resolve (rid : string) : App reply :=
  let* d := read_db in
  match pending_with "Pending Admin" d rid with
  | Some r =>
      if bool_decide (r_category r = "Stationary") then st_ret Unavailable
      else if bool_decide (r_item r = "CUG Issue") then
        modify_db (sql_update_request (r_id r) (set_status "Completed (Resolved)")) ;;;
        st_ret Done
      else st_ret Unavailable
  | None => st_ret Unavailable
  end.

(** Lines 242-251: the quote form of a non-stationary request.  The
    UPDATE runs only when [v and c > 0 and img]. *)
Definition admin_quote (rid v : string) (c : Q) (img : option blob) : App reply :=
  let* d := read_db in
  match pending_with "Pending Admin" d rid with
  | Some r =>
      if bool_decide (r_category r = "Stationary") then st_ret Unavailable
      else match img with
           | Some ib =>
               if truthy v && bool_decide (0 < c)%Q then
                 modify_db (sql_update_request (r_id r) (set_quote v c ib)) ;;; st_ret Done
               else st_ret Done
           | None => st_ret Done
           end
  | None => st_ret Unavailable
  end.

(** Lines 258-282: [Approve] on the dashboard of [role], which lists
    the requests in [status_trigger].  The loop draws each row's invoice
    (line 269) before its buttons, so the click on row [rid] is seen only
    when the invoices up to that row decode.  The GMD's approval is two
    statements: the UPDATE, then the INSERT of a payment under a fresh
    uuid prefix. *)
Definition approver_approve (role status_trigger next_status rid : string) : App reply :=
  let* d := read_db in
  render_invoices (upto rid (listed status_trigger d)) ;;;
  match pending_with status_trigger d rid with
  | Some r =>
      if bool_decide (role = "GMD") then
        modify_db (sql_update_request (r_id r) (set_status "Approved")) ;;;
        let* pid := new_id in
        run_db (sql_insert_payment
                  {| p_payment_id := pid; p_req_id := r_id r; p_amount := r_amount r;
                     p_status := ready_for_accounts; p_vendor := r_vendor r |}) ;;;
        st_ret Done
      else
        modify_db (sql_update_request (r_id r) (set_status next_status)) ;;;
        st_ret Done
  | None => st_ret Unavailable
  end.

(** Lines 283-284: [Decline] on the same dashboard, drawn after the
    same invoices. *)
Definition approver_decline (status_trigger rid : string) : App reply :=
  let* d := read_db in
  render_invoices (upto rid (listed status_trigger d)) ;;;
  match pending_with status_trigger d rid with
  | Some r =>
      modify_db (sql_update_request (r_id r) (set_status "Declined")) ;;; st_ret Done
  | None => st_ret Unavailable
  end.

(** Lines 291-309: [Validate] with the negotiated cost and the note,
    drawn after the invoices of the rows up to this one (line 299). *)
Definition sac_validate (rid : string) (new_cost : Q) (note : string) : App reply :=
  let* d := read_db in
  render_invoices (upto rid (listed "Pending SAC" d)) ;;;
  match pending_with "Pending SAC" d rid with
  | Some r =>
      modify_db (sql_update_request (r_id r) (set_sac new_cost note)) ;;; st_ret Done
  | None => st_ret Unavailable
  end.

(** Lines 326-334: the HOD sees the pending requests whose approver
    e-mail is the HOD's own. *)
Definition hod_row (email : string) (d : db) (rid : string) : option request_row :=
  match pending_with "Pending Dept HOD" d rid with
  | Some r => if bool_decide (r_approver_email r = email) then Some r else None
  | None => None
  end.

Definition hod_approve (email rid : string) : App reply :=
  let* d := read_db in
  match hod_row email d rid with
  | Some r => modify_db (sql_update_request (r_id r) (set_status "Pending Admin")) ;;; st_ret Done
  | None => st_ret Unavailable
  end.

Definition hod_decline (email rid : string) : App reply :=
  let* d := read_db in
  match hod_row email d rid with
  | Some r => modify_db (sql_update_request (r_id r) (set_status "Declined")) ;;; st_ret Done
  | None => st_ret Unavailable
  end.

(** Lines 365-376: a payment is listed when it is ready for accounts
    and the JOIN finds its request. *)
Definition accounts_row (d : db) (pid : string) : option payment_row :=
  match payments d !! pid with
  | Some p =>
      if bool_decide (p_status p = ready_for_accounts) then
        match requests d !! p_req_id p with Some _ => Some p | None => None end
      else None
  | None => None
  end.

(** [Mark Paid] (lines 375-376).  The [st.image] of line 372 is not drawn
    here: in every reachable world each invoice this page lists decodes
    (the invariant [images_inv] of Safety.v), so it never raises. *)
Definition accounts_mark_paid (pid : string) : App reply :=
  let* d := read_db in
  match accounts_row d pid with
  | Some p => modify_db (sql_update_payment (p_payment_id p) (set_pay_status paid)) ;;; st_ret Done
  | None => st_ret Unavailable
  end.
End Dashboards.

(** ** The abstract workflow *)

(** The status graph: one edge per button of the dashboards. *)
Inductive route : status -> status -> Prop :=
| route_hod_approve : route PendingDeptHOD PendingAdmin
| route_hod_decline : route PendingDeptHOD Declined
| route_admin_issue : route PendingAdmin CompletedFulfilled
| route_admin_resolve : route PendingAdmin CompletedResolved
| route_admin_quote : route PendingAdmin PendingSSHOD
| route_sshod_approve : route PendingSSHOD PendingSAC
| route_sshod_decline : route PendingSSHOD Declined
| route_sac_validate : route PendingSAC PendingED
| route_ed_approve : route PendingED PendingGMD
| route_ed_decline : route PendingED Declined
| route_gmd_approve : route PendingGMD Approved
| route_gmd_decline : route PendingGMD Declined.

(** A submission opens a request at one of these. *)
Definition initial_status (s : status) : Prop := s = PendingDeptHOD \/ s = PendingAdmin.

(** The abstract state: each request id with its status. *)
Definition abs_status (d : db) : gmap string string := r_status <$> requests d.

Inductive spec_step : gmap string string -> gmap string string -> Prop :=
| spec_move m rid s s' :
    m !! rid = Some (status_name s) -> route s s' ->
    spec_step m (<[rid := status_name s']> m)
| spec_create m rid s :
    m !! rid = None -> initial_status s ->
    spec_step m (<[rid := status_name s]> m).

(** Position of a status along the chain of approvals. *)
Definition rank (s : status) : nat :=
  match s with
  | PendingDeptHOD => 0 | PendingAdmin => 1 | PendingSSHOD => 2 | PendingSAC => 3
  | PendingED => 4 | PendingGMD => 5 | Approved | Declined
  | CompletedFulfilled | CompletedResolved => 6
  end.

Definition terminal (s : status) : bool :=
  match s with
  | Approved | Declined | CompletedFulfilled | CompletedResolved => true
  | _ => false
  end.

(** The three dashboards [main] opens with [view_approver_dashboard]
    (lines 404, 406, 407): the role, the status it lists and the status
    its [Approve] writes. *)
Definition approver_config (role : string) : option (status * status) :=
  if bool_decide (role = "SS HOD") then Some (PendingSSHOD, PendingSAC)
  else if bool_decide (role = "ED") then Some (PendingED, PendingGMD)
  else if bool_decide (role = "GMD") then Some (PendingGMD, Approved)
  else None.

(** The primary-key column of each row is its key. *)
Definition req_keys_ok (d : db) : Prop := map_Forall (fun k r => r_id r = k) (requests d).

(** A run refines the workflow when it moves the abstract state along
    [spec_step], whatever its outcome. *)
Definition refines {A} (m : App A) : Prop :=
  forall s, req_keys_ok (rs_db s) ->
  rtc spec_step (abs_status (rs_db s)) (abs_status (rs_db (fst (m s)))).

(** The same judgement as an invariant, so that it composes through
    binds: the keys are intact and the abstract state is reachable from
    [a0]. *)
Definition keys_ok (m : gmap string request_row) : Prop := map_Forall (fun k r => r_id r = k) m.

Definition spec_inv (a0 : gmap string string) : run_state -> Prop :=
  on_requests (fun m => keys_ok m /\ rtc spec_step a0 (r_status <$> m)).

Definition refines_spec {A} (m : App A) : Prop := forall a0, preserves (spec_inv a0) m.

(** ** Lemmas *)

(** Drawing the invoices changes no state: it either gets through every
    row or stops at the first one that does not decode. *)
Section Render.
Context `{Platform}.

Lemma render_invoices_eq rows s :
  render_invoices rows s =
  (s, match first_bad rows with Some rid => inl (ImageError rid) | None => inr tt end).
Proof.
  induction rows as [|r rows IH]; [done|]. unfold render_invoices in *. cbn [st_iter first_bad].
  unfold st_bind, show_invoice. destruct (invoice_ok _); cbn; [exact IH|done].
Qed.

Lemma images_ok_first_bad rows : images_ok rows = true <-> first_bad rows = None.
Proof. induction rows as [|r rows IH]; cbn; [done|]. by destruct (invoice_ok _). Qed.

Lemma render_ok rows s : images_ok rows = true -> render_invoices rows s = (s, inr tt).
Proof. intros Hi. rewrite render_invoices_eq. apply images_ok_first_bad in Hi. by rewrite Hi. Qed.

Lemma preserves_render I rows : preserves I (render_invoices rows).
Proof. intros s Hs. by rewrite render_invoices_eq. Qed.

Lemma st_bind_render {A} rows (k : unit -> App A) s :
  st_bind (render_invoices rows) k s =
  match first_bad rows with Some rid => (s, inl (ImageError rid)) | None => k tt s end.
Proof. unfold st_bind. rewrite render_invoices_eq. by destruct (first_bad rows). Qed.

Lemma st_bind_render_ok {A} rows (k : unit -> App A) s :
  images_ok rows = true -> st_bind (render_invoices rows) k s = k tt s.
Proof. intros Hi. rewrite st_bind_render. apply images_ok_first_bad in Hi. by rewrite Hi. Qed.

Lemma elem_of_upto rid l r : r ∈ upto rid l -> r ∈ l.
Proof.
  induction l as [|x l IH]; cbn [upto]; [done|].
  intros [->|Hr]%elem_of_cons; [by left|right].
  case_bool_decide; [by apply elem_of_nil in Hr|by apply IH].
Qed.

Lemma first_bad_elem rows r :
  r ∈ rows -> invoice_ok (r_invoice_img r) = false -> exists bad, first_bad rows = Some bad.
Proof.
  intros Hr Hbad. destruct (first_bad rows) as [bad|] eqn:Hf; [by exists bad|].
  apply images_ok_first_bad in Hf. unfold images_ok in Hf. rewrite forallb_forall in Hf.
  rewrite (Hf r) in Hbad; [discriminate|by apply list_elem_of_In].
Qed.

Lemma images_ok_elem rows r :
  images_ok rows = true -> r ∈ rows -> invoice_ok (r_invoice_img r) = true.
Proof.
  intros Hi Hr. unfold images_ok in Hi. rewrite forallb_forall in Hi.
  apply Hi. by apply list_elem_of_In.
Qed.
End Render.

#[export] Hint Resolve preserves_render : facility.



(** The two outcomes of the drawing step of a handler. *)
Ltac render_case :=
  rewrite st_bind_render; destruct (first_bad _) eqn:Hrender; run_app.

(** The drawing step of a handler whose invoices decode. *)
Ltac render_pass H := rewrite (st_bind_render_ok _ _ _ H); run_app.


Lemma pending_with_Some st d rid r :
  pending_with st d rid = Some r <-> requests d !! rid = Some r /\ r_status r = st.
Proof.
  unfold pending_with. destruct (requests d !! rid) as [r'|]; [|by split; [|intros []]].
  case_bool_decide as Hs; split.
  - by intros [= <-].
  - by intros [[= <-] _].
  - done.
  - by intros [[= <-] ?].
Qed.

Lemma pending_row_key st d rid r :
  req_keys_ok d -> pending_with st d rid = Some r ->
  requests d !! r_id r = Some r /\ r_status r = st.
Proof.
  intros Hk [Hr Hs]%pending_with_Some. split; [|done].
  by rewrite (map_Forall_lookup_1 _ _ _ _ Hk Hr).
Qed.

(** The loop reaches the row it lists under [rid] before it stops. *)
Lemma upto_omap st d rid r l :
  map_Forall (fun k r => r_id r = k) (requests d) -> rid ∈ l -> pending_with st d rid = Some r ->
  r ∈ upto rid (omap (pending_with st d) l).
Proof.
  intros Hk Hin Hp. induction l as [|k l IH]; [by apply elem_of_nil in Hin|].
  cbn [omap list_omap]. destruct (decide (k = rid)) as [->|Hne].
  - rewrite Hp. cbn [upto]. by left.
  - apply elem_of_cons in Hin as [->|Hin]; [done|].
    destruct (pending_with st d k) as [r'|] eqn:Hr'; [|by apply IH].
    apply pending_with_Some in Hr' as [Hr' _].
    cbn [upto]. rewrite bool_decide_eq_false_2; [by right; apply IH|].
    by rewrite (map_Forall_lookup_1 _ _ _ _ Hk Hr').
Qed.

Lemma abs_status_update rid f d r :
  requests d !! rid = Some r ->
  abs_status (sql_update_request rid f d) = <[rid := r_status (f r)]> (abs_status d).
Proof.
  intros Hr. apply map_eq. intros k. unfold abs_status. cbn.
  rewrite lookup_fmap, lookup_alter.
  destruct (decide (rid = k)) as [<-|Hne].
  - by rewrite lookup_insert_eq, Hr.
  - by rewrite lookup_insert_ne, lookup_fmap.
Qed.

(** One UPDATE of a listed row along an edge of [route] is one step of
    the specification. *)
Lemma row_update_refines s s' f d rid r :
  req_keys_ok d -> pending_with (status_name s) d rid = Some r ->
  r_status (f r) = status_name s' -> route s s' ->
  rtc spec_step (abs_status d) (abs_status (sql_update_request (r_id r) f d)).
Proof.
  intros Hk Hp Hf Hroute. apply pending_row_key in Hp as [Hr Hs]; [|done].
  apply rtc_once. rewrite (abs_status_update _ _ _ _ Hr), Hf.
  apply (spec_move _ _ s); [|done]. unfold abs_status. rewrite lookup_fmap, Hr. cbn. by rewrite Hs.
Qed.

Lemma admin_issue_refines `{Platform} rid : refines (admin_issue rid).
Proof.
  intros s Hk. unfold admin_issue. run_app.
  destruct (pending_with _ _ rid) as [r|] eqn:Hp; [|done].
  case_bool_decide; [|done]. run_app.
  by apply (row_update_refines PendingAdmin CompletedFulfilled _ _ rid); [..|constructor].
Qed.

Lemma insert_payment_requests p d d' :
  sql_insert_payment p d = inr d' -> requests d' = requests d.
Proof.
  unfold sql_insert_payment. destruct (insert_row _ _ _ _) eqn:E; [done|].
  by intros [= <-].
Qed.

Lemma abs_status_same d d' : requests d' = requests d -> abs_status d' = abs_status d.
Proof. unfold abs_status. by intros ->. Qed.


Section Refinement.
Context `{Platform}.

Lemma admin_resolve_refines rid : refines (admin_resolve rid).
Proof.
  intros s Hk. unfold admin_resolve. run_app.
  destruct (pending_with _ _ rid) as [r|] eqn:Hp; [|done].
  case_bool_decide; [done|]. case_bool_decide; [|done]. run_app.
  by apply (row_update_refines PendingAdmin CompletedResolved _ _ rid); [..|constructor].
Qed.

Lemma admin_quote_refines rid v c img : refines (admin_quote rid v c img).
Proof.
  intros s Hk. unfold admin_quote. run_app.
  destruct (pending_with _ _ rid) as [r|] eqn:Hp; [|done].
  case_bool_decide; [done|]. destruct img as [ib|]; [|done].
  destruct (_ && _); run_app; [|done].
  by apply (row_update_refines PendingAdmin PendingSSHOD _ _ rid); [..|constructor].
Qed.

Lemma approver_approve_refines role t n rid :
  approver_config role = Some (t, n) ->
  refines (approver_approve role (status_name t) (status_name n) rid).
Proof.
  intros Hc s Hk. unfold approver_approve. run_app. render_case; [done|].
  destruct (pending_with _ _ rid) as [r|] eqn:Hp; [|done].
  unfold approver_config in Hc.
  repeat case_bool_decide; simplify_eq; run_app.
  all: try by eapply row_update_refines; [done|exact Hp|reflexivity|constructor].
  assert (rtc spec_step (abs_status (rs_db s))
            (abs_status (sql_update_request (r_id r) (set_status "Approved") (rs_db s))))
    as Hu.
  { apply (row_update_refines PendingGMD Approved _ _ rid); [done..|constructor]. }
  unfold st_bind, run_db. destruct (sql_insert_payment _ _) as [e|d'] eqn:Hi; cbn; [done|].
  by rewrite (abs_status_same _ _ (insert_payment_requests _ _ _ Hi)).
Qed.

Lemma approver_decline_refines role t n rid :
  approver_config role = Some (t, n) ->
  refines (approver_decline (status_name t) rid).
Proof.
  intros Hc s Hk. unfold approver_decline. run_app. try (render_case; [done|]).
  destruct (pending_with _ _ rid) as [r|] eqn:Hp; [|done]. run_app.
  unfold approver_config in Hc. repeat case_bool_decide; simplify_eq.
  all: by eapply (row_update_refines _ Declined); [done|exact Hp|reflexivity|constructor].
Qed.

Lemma sac_validate_refines rid cost note : refines (sac_validate rid cost note).
Proof.
  intros s Hk. unfold sac_validate. run_app. render_case; [done|].
  destruct (pending_with _ _ rid) as [r|] eqn:Hp; [|done]. run_app.
  by apply (row_update_refines PendingSAC PendingED _ _ rid); [done..|constructor].
Qed.

Lemma hod_row_Some email d rid r :
  hod_row email d rid = Some r <->
  pending_with "Pending Dept HOD" d rid = Some r /\ r_approver_email r = email.
Proof.
  unfold hod_row. destruct (pending_with _ _ _) as [r'|]; [|by split; [|intros []]].
  case_bool_decide; split; [by intros [= <-]|by intros [[= <-] _]|done|by intros [[= <-] ?]].
Qed.

Lemma hod_approve_refines email rid : refines (hod_approve email rid).
Proof.
  intros s Hk. unfold hod_approve. run_app.
  destruct (hod_row _ _ rid) as [r|] eqn:Hp; [|done]. run_app.
  apply hod_row_Some in Hp as [Hp _].
  by apply (row_update_refines PendingDeptHOD PendingAdmin _ _ rid); [done..|constructor].
Qed.

Lemma hod_decline_refines email rid : refines (hod_decline email rid).
Proof.
  intros s Hk. unfold hod_decline. run_app.
  destruct (hod_row _ _ rid) as [r|] eqn:Hp; [|done]. run_app.
  apply hod_row_Some in Hp as [Hp _].
  by apply (row_update_refines PendingDeptHOD Declined _ _ rid); [done..|constructor].
Qed.

Lemma accounts_mark_paid_refines pid : refines (accounts_mark_paid pid).
Proof.
  intros s Hk. unfold accounts_mark_paid. run_app.
  destruct (accounts_row _ pid); run_app; done.
Qed.
End Refinement.

Lemma refines_spec_intro {A} (m : App A) :
  refines m -> preserves (on_requests keys_ok) m -> refines_spec m.
Proof.
  intros Hr Hk a0 s [Hk0 Hs]. split; [by apply Hk|].
  etrans; [exact Hs|by apply Hr].
Qed.

Lemma preserves_update_keys k f :
  (forall r, r_id (f r) = r_id r) ->
  preserves (on_requests keys_ok) (modify_db (sql_update_request k f)).
Proof.
  intros Hf. apply preserves_update_request. intros m r Hm Hr.
  apply map_Forall_insert_2; [|done]. rewrite Hf. by apply (map_Forall_lookup_1 _ _ _ _ Hm Hr).
Qed.

(** Every UPDATE of the dashboards keeps the primary-key column. *)
Ltac keys_steps :=
  preserve_steps; try (apply preserves_update_keys; reflexivity).

Section RefinementSpec.
Context `{Platform}.

Lemma admin_issue_spec rid : refines_spec (admin_issue rid).
Proof. apply refines_spec_intro; [apply admin_issue_refines|unfold admin_issue; keys_steps]. Qed.

Lemma admin_resolve_spec rid : refines_spec (admin_resolve rid).
Proof. apply refines_spec_intro; [apply admin_resolve_refines|unfold admin_resolve; keys_steps]. Qed.

Lemma admin_quote_spec rid v c img : refines_spec (admin_quote rid v c img).
Proof. apply refines_spec_intro; [apply admin_quote_refines|unfold admin_quote; keys_steps]. Qed.

Lemma approver_approve_spec role t n rid :
  approver_config role = Some (t, n) ->
  refines_spec (approver_approve role (status_name t) (status_name n) rid).
Proof.
  intros Hc. apply refines_spec_intro; [by apply approver_approve_refines|].
  unfold approver_approve. keys_steps.
Qed.

Lemma approver_decline_spec role t n rid :
  approver_config role = Some (t, n) -> refines_spec (approver_decline (status_name t) rid).
Proof.
  intros Hc. apply refines_spec_intro; [by eapply approver_decline_refines|].
  unfold approver_decline. keys_steps.
Qed.

Lemma sac_validate_spec rid cost note : refines_spec (sac_validate rid cost note).
Proof. apply refines_spec_intro; [apply sac_validate_refines|unfold sac_validate; keys_steps]. Qed.

Lemma hod_approve_spec email rid : refines_spec (hod_approve email rid).
Proof. apply refines_spec_intro; [apply hod_approve_refines|unfold hod_approve; keys_steps]. Qed.

Lemma hod_decline_spec email rid : refines_spec (hod_decline email rid).
Proof. apply refines_spec_intro; [apply hod_decline_refines|unfold hod_decline; keys_steps]. Qed.

Lemma accounts_mark_paid_spec pid : refines_spec (accounts_mark_paid pid).
Proof. intros a0. unfold accounts_mark_paid. preserve_steps. Qed.
End RefinementSpec.

(** ** The abstract workflow *)

Lemma route_rank s s' : route s s' -> (rank s < rank s')%nat.
Proof. destruct 1; simpl; lia. Qed.

Lemma route_not_terminal s s' : route s s' -> terminal s = false.
Proof. by destruct 1. Qed.

Lemma rtc_route_rank s s' : rtc route s s' -> s = s' \/ (rank s < rank s')%nat.
Proof.
  induction 1 as [|x y z Hxy _ IH]; [by left|right].
  apply route_rank in Hxy. destruct IH; subst; lia.
Qed.

Lemma rank_le_6 s : (rank s <= 6)%nat.
Proof. destruct s; simpl; lia. Qed.

Lemma nsteps_route_rank n s s' : nsteps route n s s' -> (rank s + n <= rank s')%nat.
Proof.
  induction 1 as [|n x y z Hxy _ IH]; [lia|].
  apply route_rank in Hxy. lia.
Qed.

(** Along the specification, a request keeps its id and its status only
    moves forward along [route]. *)
Lemma spec_steps_route m m' rid s :
  rtc spec_step m m' -> m !! rid = Some (status_name s) ->
  exists s', m' !! rid = Some (status_name s') /\ rtc route s s'.
Proof.
  intros Hsteps. revert s. induction Hsteps as [m|m1 m2 m3 Hstep _ IH]; intros s Hs.
  - exists s. by split; [|apply rtc_refl].
  - destruct Hstep as [m1 rid' s1 s2 Hs1 Hroute|m1 rid' s1 Hnone Hinit].
    + destruct (decide (rid' = rid)) as [<-|Hne].
      * rewrite Hs in Hs1. apply (inj Some), status_name_inj in Hs1 as <-.
        destruct (IH s2) as (s' & Hs' & Hr'); [by rewrite lookup_insert_eq|].
        exists s'. split; [done|]. by eapply rtc_l.
      * apply IH. by rewrite lookup_insert_ne.
    + destruct (decide (rid' = rid)) as [<-|Hne]; [congruence|].
      apply IH. by rewrite lookup_insert_ne.
Qed.

Lemma pending_row_id st d rid r :
  req_keys_ok d -> pending_with st d rid = Some r -> r_id r = rid.
Proof.
  intros Hk [Hr _]%pending_with_Some. by rewrite (map_Forall_lookup_1 _ _ _ _ Hk Hr).
Qed.

Lemma update_status_lookup st st' f d rid r :
  pending_with st d rid = Some r -> r_status (f r) = st' ->
  r_status <$> requests (sql_update_request rid f d) !! rid = Some st'.
Proof. intros [Hr _]%pending_with_Some <-. by rewrite requests_update_eq, Hr. Qed.

(** ** The GMD's approval *)

Section GMD.
Context `{Platform}.

Definition gmd_approve (rid : string) : App reply :=
  approver_approve "GMD" "Pending GMD" "Approved" rid.

(** C11: when the GMD approves a request pending GMD
    approval, the invoices the dashboard draws up to that row decode and
    the drawn payment id is free, the request becomes
    Approved and a payment ready for accounts is inserted under that id,
    for the request's amount and vendor. *)
Theorem gmd_approve_pays s rid r :
  req_keys_ok (rs_db s) ->
  pending_with "Pending GMD" (rs_db s) rid = Some r ->
  images_ok (upto rid (listed "Pending GMD" (rs_db s))) = true ->
  payments (rs_db s) !! peek_id s = None ->
  snd (gmd_approve rid s) = inr Done /\
  r_status <$> requests (rs_db (fst (gmd_approve rid s))) !! rid = Some "Approved" /\
  payments (rs_db (fst (gmd_approve rid s))) !! peek_id s =
    Some {| p_payment_id := peek_id s; p_req_id := rid; p_amount := r_amount r;
            p_status := ready_for_accounts; p_vendor := r_vendor r |}.
Proof.
  intros Hk Hp Himg Hfree. pose proof (pending_row_id _ _ _ _ Hk Hp) as Hid.
  unfold gmd_approve, approver_approve. run_app. render_pass Himg. rewrite Hp.
  case_bool_decide; [|done]. run_app.
  erewrite st_bind_ok; [|apply run_db_inr, sql_insert_payment_ok; exact Hfree].
  run_app. rewrite Hid. split_and!; [done| |by rewrite lookup_insert_eq].
  by eapply update_status_lookup.
Qed.

(** C4: when the invoices up to the row decode and the
    drawn payment id is already a payment's key, the INSERT raises an IntegrityError after the UPDATE
    has committed: the request is Approved, so no dashboard lists it
    again, and no payment was added. *)
Theorem gmd_approve_collision s rid r :
  req_keys_ok (rs_db s) ->
  pending_with "Pending GMD" (rs_db s) rid = Some r ->
  images_ok (upto rid (listed "Pending GMD" (rs_db s))) = true ->
  is_Some (payments (rs_db s) !! peek_id s) ->
  snd (gmd_approve rid s) = inl (IntegrityError "payments" (peek_id s)) /\
  r_status <$> requests (rs_db (fst (gmd_approve rid s))) !! rid = Some "Approved" /\
  payments (rs_db (fst (gmd_approve rid s))) = payments (rs_db s).
Proof.
  intros Hk Hp Himg [p Hused]. pose proof (pending_row_id _ _ _ _ Hk Hp) as Hid.
  unfold gmd_approve, approver_approve. run_app. render_pass Himg. rewrite Hp.
  case_bool_decide; [|done]. run_app.
  erewrite st_bind_err; [|apply run_db_inl, sql_insert_payment_err; exact (mk_is_Some _ _ Hused)].
  run_app. rewrite Hid. split_and!; [done| |done].
  by eapply update_status_lookup.
Qed.
End GMD.

(** ** Admin, SAC and HOD decisions *)

Lemma pending_update_row st f d rid r :
  req_keys_ok d -> pending_with st d rid = Some r ->
  requests (sql_update_request (r_id r) f d) !! rid = Some (f r).
Proof.
  intros Hk Hp. rewrite (pending_row_id _ _ _ _ Hk Hp), requests_update_eq.
  apply pending_with_Some in Hp as [-> _]. done.
Qed.

Section Decisions.
Context `{Platform}.

(** C22: on a non-stationary request pending Admin, the
    quote form moves the request to Pending SS HOD exactly when the vendor
    is non-empty, the cost is positive and an invoice is uploaded; the
    request then carries that vendor and invoice, with amount and initial
    cost both equal to the quoted cost. *)
Theorem admin_quote_guard s rid r v c img :
  req_keys_ok (rs_db s) ->
  pending_with "Pending Admin" (rs_db s) rid = Some r -> r_category r <> "Stationary" ->
  snd (admin_quote rid v c img s) = inr Done /\
  exists r', requests (rs_db (fst (admin_quote rid v c img s))) !! rid = Some r' /\
    (r_status r' = "Pending SS HOD" <-> v <> "" /\ (0 < c)%Q /\ is_Some img) /\
    (r_status r' = "Pending SS HOD" ->
       r_vendor r' = v /\ r_amount r' = c /\ r_initial_cost r' = c /\ r_invoice_img r' = img).
Proof.
  intros Hk Hp Hcat. pose proof Hp as [Hr Hs]%pending_with_Some.
  unfold admin_quote. run_app. rewrite Hp. case_bool_decide; [done|].
  destruct img as [ib|]; run_app.
  - destruct (truthy v && _) eqn:Hg; run_app.
    + apply andb_true_iff in Hg as [Hv%truthy_true Hc%bool_decide_eq_true].
      split; [done|]. eexists. split; [by eapply pending_update_row|]. naive_solver.
    + split; [done|]. exists r. split; [done|]. rewrite Hs.
      split; [split; [intros [=]|]|intros [=]]. intros [Hv [Hc _]].
      apply truthy_true in Hv. rewrite Hv in Hg. by rewrite bool_decide_eq_true_2 in Hg.
  - split; [done|]. exists r. rewrite Hs. split; [done|].
    split; [split; [intros [=]|intros (_ & _ & [? [=]])]|intros [=]].
Qed.

(** C23: when the invoices the SAC dashboard draws up to
    the row decode, the SAC's validation of a request pending SAC
    records the negotiated cost as its amount and the note, keeps the
    Admin's initial cost and vendor, and moves it to Pending ED. *)
Theorem sac_validate_cost s rid r cost note :
  req_keys_ok (rs_db s) -> pending_with "Pending SAC" (rs_db s) rid = Some r ->
  images_ok (upto rid (listed "Pending SAC" (rs_db s))) = true ->
  snd (sac_validate rid cost note s) = inr Done /\
  exists r', requests (rs_db (fst (sac_validate rid cost note s))) !! rid = Some r' /\
    r_status r' = "Pending ED" /\ r_amount r' = cost /\ r_sac_note r' = note /\
    r_initial_cost r' = r_initial_cost r /\ r_vendor r' = r_vendor r.
Proof.
  intros Hk Hp Himg. unfold sac_validate. run_app. render_pass Himg. rewrite Hp. run_app.
  split; [done|]. eexists. split; [by eapply pending_update_row|]. done.
Qed.

(** C24: a Dept HOD's Approve and Decline buttons do nothing
    on a request whose approver e-mail is not the HOD's own. *)
Theorem hod_own_only s email rid r :
  requests (rs_db s) !! rid = Some r -> r_approver_email r <> email ->
  hod_approve email rid s = (s, inr Unavailable) /\
  hod_decline email rid s = (s, inr Unavailable).
Proof.
  intros Hr Hne.
  assert (hod_row email (rs_db s) rid = None) as Hnone.
  { destruct (hod_row _ _ _) as [r'|] eqn:Hh; [|done].
    apply hod_row_Some in Hh as [[Hr' _]%pending_with_Some He]. congruence. }
  unfold hod_approve, hod_decline. run_app. by rewrite Hnone.
Qed.

(** C8: the loop of an approver's dashboard draws each
    row's invoice (line 269) before the row's buttons.  When an invoice
    listed at or before row [rid] (that row's own included) does not
    decode, PIL raises before the buttons of [rid] exist: [Approve] and
    [Decline] of [rid] both raise an ImageError and change nothing, and
    so does the SAC's [Validate] (line 299) on the SAC dashboard. *)
Theorem image_error_blocks s role st n rid r0 :
  r0 ∈ upto rid (listed st (rs_db s)) -> invoice_ok (r_invoice_img r0) = false ->
  exists bad,
    approver_approve role st n rid s = (s, inl (ImageError bad)) /\
    approver_decline st rid s = (s, inl (ImageError bad)) /\
    (st = "Pending SAC" -> forall cost note, sac_validate rid cost note s = (s, inl (ImageError bad))).
Proof.
  intros Hr Hbad. destruct (first_bad_elem _ _ Hr Hbad) as [bad Hb]. exists bad.
  unfold approver_approve, approver_decline, sac_validate. run_app.
  split_and!; [by rewrite st_bind_render, Hb|by rewrite st_bind_render, Hb|].
  intros -> cost note. by rewrite st_bind_render, Hb.
Qed.
End Decisions.

(** ** Examples *)

Definition demo_payment (pid rid : string) (amount : Q) : payment_row :=
  {| p_payment_id := pid; p_req_id := rid; p_amount := amount;
     p_status := ready_for_accounts; p_vendor := "CoolAir" |}.

(** A request pending GMD approval, and one payment already filed under
    the prefix the next uuid draw repeats. *)
Definition demo_gmd_db : db :=
  {| users := ∅;
     requests := {[ "r1" := demo_request "r1" "Pending GMD" 5000 ]}; req_order := ["r1"];
     audit := []; audit_seq := 0;
     payments := {[ "0badcafe" := demo_payment "0badcafe" "r0" 900 ]} |}.

Lemma gmd_approve_pays_witness :
  req_keys_ok demo_gmd_db /\
  snd (@gmd_approve demo_platform "r1" (demo_run demo_gmd_db 2)) = inr Done /\
  payments (rs_db (fst (@gmd_approve demo_platform "r1" (demo_run demo_gmd_db 2)))) !! "00000002" =
    Some (demo_payment "00000002" "r1" 5000).
Proof.
  assert (Hk : req_keys_ok demo_gmd_db) by (apply map_Forall_singleton; reflexivity).
  destruct (gmd_approve_pays (H := demo_platform) (demo_run demo_gmd_db 2) "r1"
              (demo_request "r1" "Pending GMD" 5000) Hk) as (H1 & _ & H3);
    [reflexivity|vm_compute; reflexivity|reflexivity|].
  split; [exact Hk|]. split; [exact H1|exact H3].
Defined.

Lemma gmd_approve_collision_witness :
  req_keys_ok demo_gmd_db /\
  snd (@gmd_approve demo_platform "r1" (demo_run demo_gmd_db 1)) =
    inl (IntegrityError "payments" "0badcafe") /\
  r_status <$> requests (rs_db (fst (@gmd_approve demo_platform "r1" (demo_run demo_gmd_db 1)))) !! "r1" =
    Some "Approved" /\
  payments (rs_db (fst (@gmd_approve demo_platform "r1" (demo_run demo_gmd_db 1)))) =
    payments demo_gmd_db.
Proof.
  assert (Hk : req_keys_ok demo_gmd_db) by (apply map_Forall_singleton; reflexivity).
  destruct (gmd_approve_collision (H := demo_platform) (demo_run demo_gmd_db 1) "r1"
              (demo_request "r1" "Pending GMD" 5000) Hk) as (H1 & H2 & H3);
    [reflexivity|vm_compute; reflexivity|eexists; reflexivity|].
  split_and!; [exact Hk|exact H1|exact H2|exact H3].
Defined.

Definition demo_admin_db : db :=
  {| users := ∅;
     requests := {[ "r2" := demo_request "r2" "Pending Admin" 0 ]}; req_order := ["r2"];
     audit := []; audit_seq := 0; payments := ∅ |}.

Lemma admin_quote_guard_witness :
  let s := demo_run demo_admin_db 0 in
  snd (admin_quote "r2" "CoolAir" 75000 (Some [Byte.x01]) s) = inr Done /\
  exists r', requests (rs_db (fst (admin_quote "r2" "CoolAir" 75000 (Some [Byte.x01]) s))) !! "r2" = Some r' /\
    (r_status r' = "Pending SS HOD" <-> "CoolAir" <> "" /\ (0 < 75000)%Q /\ is_Some (Some [Byte.x01])) /\
    (r_status r' = "Pending SS HOD" ->
       r_vendor r' = "CoolAir" /\ r_amount r' = 75000%Q /\ r_initial_cost r' = 75000%Q /\
       r_invoice_img r' = Some [Byte.x01]).
Proof.
  apply (admin_quote_guard _ "r2" (demo_request "r2" "Pending Admin" 0)).
  - apply map_Forall_singleton. reflexivity.
  - reflexivity.
  - discriminate.
Defined.

Definition demo_sac_db : db :=
  {| users := ∅;
     requests := {[ "r3" := demo_request "r3" "Pending SAC" 75000 ]}; req_order := ["r3"];
     audit := []; audit_seq := 0; payments := ∅ |}.

Lemma sac_validate_cost_witness :
  let s := demo_run demo_sac_db 0 in
  snd (@sac_validate demo_platform "r3" 60000 "negotiated" s) = inr Done /\
  exists r', requests (rs_db (fst (@sac_validate demo_platform "r3" 60000 "negotiated" s))) !! "r3" = Some r' /\
    r_status r' = "Pending ED" /\ r_amount r' = 60000%Q /\ r_sac_note r' = "negotiated" /\
    r_initial_cost r' = 75000%Q /\ r_vendor r' = "CoolAir".
Proof.
  apply (sac_validate_cost (H := demo_platform) _ "r3" (demo_request "r3" "Pending SAC" 75000)).
  - apply map_Forall_singleton. reflexivity.
  - reflexivity.
  - vm_compute. reflexivity.
Defined.

Definition demo_hod_db : db :=
  {| users := ∅;
     requests := {[ "r4" := demo_request "r4" "Pending Dept HOD" 0 ]}; req_order := ["r4"];
     audit := []; audit_seq := 0; payments := ∅ |}.

Lemma hod_own_only_witness :
  hod_approve "other@co.com" "r4" (demo_run demo_hod_db 0) =
    (demo_run demo_hod_db 0, inr Unavailable) /\
  hod_decline "other@co.com" "r4" (demo_run demo_hod_db 0) =
    (demo_run demo_hod_db 0, inr Unavailable).
Proof.
  apply (hod_own_only _ _ _ (demo_request "r4" "Pending Dept HOD" 0)).
  - reflexivity.
  - discriminate.
Defined.

(** Two requests wait for the SS HOD: "r5", filed first, carries a PDF
    (its bytes do not start with the PNG signature) and "r6" a PNG. *)
Definition demo_pdf_db : db :=
  {| users := ∅;
     requests := {[ "r5" := set_quote "CoolAir" 900 [Byte.x25] (demo_request "r5" "Pending Admin" 0);
                    "r6" := demo_request "r6" "Pending SS HOD" 800 ]};
     req_order := ["r5"; "r6"]; audit := []; audit_seq := 0; payments := ∅ |}.

Lemma image_error_blocks_witness :
  exists bad,
    @approver_approve demo_platform "SS HOD" "Pending SS HOD" "Pending SAC" "r6" (demo_run demo_pdf_db 0) =
      (demo_run demo_pdf_db 0, inl (ImageError bad)) /\
    @approver_decline demo_platform "Pending SS HOD" "r6" (demo_run demo_pdf_db 0) =
      (demo_run demo_pdf_db 0, inl (ImageError bad)) /\
    ("Pending SS HOD" = "Pending SAC" -> forall cost note,
       @sac_validate demo_platform "r6" cost note (demo_run demo_pdf_db 0) =
         (demo_run demo_pdf_db 0, inl (ImageError bad))).
Proof.
  apply (image_error_blocks (H := demo_platform) (demo_run demo_pdf_db 0) "SS HOD" "Pending SS HOD"
           "Pending SAC" "r6" (set_quote "CoolAir" 900 [Byte.x25] (demo_request "r5" "Pending Admin" 0))).
  - vm_compute. left.
  - reflexivity.
Defined.
