(* ===== verification/Cart.v ===== *)
(** * Cart: the staff portal and the submission of a cart

    The constants [STATIONARY_ITEMS] and [CATEGORY_OPTIONS]
    (src/Facility.py, lines 114-122), the Add button of
    [view_staff_portal] (lines 207-214) and [process_cart_submission]
    (lines 128-161).  A submission files all stationary items of the cart
    as one request, then one request per other item, each under a fresh
    uuid prefix, and empties the cart.  Each INSERT commits on its own, so
    a key collision half-way leaves the earlier requests filed and the
    cart full. *)

From S2P Require Import Prelude Schema.

(** ** Constants *)

(** Python's [sorted] on strings: insertion by code point order. *)
Fixpoint insert_sorted (x : string) (l : list string) : list string :=
  match l with
  | [] => [x]
  | y :: l' => if String.leb x y then x :: y :: l' else y :: insert_sorted x l'
  end.

Definition sort_strings (l : list string) : list string := foldr insert_sorted [] l.

Definition STATIONARY_ITEMS : list string :=
  sort_strings ["05A Toner"; "A4 Paper"; "Biro"; "Staplers"; "Notepads"; "File Folders"].

(** The dict in its insertion order: [list(CATEGORY_OPTIONS.keys())] is
    the order of the Category selectbox. *)
Definition CATEGORY_OPTIONS : list (string * list string) :=
  [("Facility", ["Door Repair"; "AC Repair"; "Electrical"; "Plumbing"; "Generator"]);
   ("Furniture", ["Chair Repair"; "Table Repair"; "New Chair"]);
   ("Communication", ["CUG Issue"; "Airtime Request"; "Bulk SMS Recharge"; "Internet Issue"]);
   ("Stationary", STATIONARY_ITEMS);
   ("Others", [])].

Definition category_keys : list string := map fst CATEGORY_OPTIONS.

(** [CATEGORY_OPTIONS[cat]] for a key of the dict. *)
Definition options_of (cat : string) : list string :=
  default [] (snd <$> List.find (fun kv => bool_decide (fst kv = cat)) CATEGORY_OPTIONS).

(** ** The Add button *)

(** The values the widgets of lines 207-212 can hold: a key of the dict,
    an item of its selectbox (free text under Others), and a quantity of
    at least 1 for stationary (1 otherwise). *)
Definition widget_ok (cat sel : string) (qty : Z) : bool :=
  bool_decide (cat ∈ category_keys) &&
  if bool_decide (cat = "Stationary") then
    bool_decide (sel ∈ STATIONARY_ITEMS) && bool_decide (1 <= qty)%Z
  else if bool_decide (cat = "Others") then bool_decide (qty = 1)%Z
  else bool_decide (sel ∈ options_of cat) && bool_decide (qty = 1)%Z.

Definition set_cart (c : list cart_item) (ss : session) : session :=
  {| cart := c; logged_in := logged_in ss; user_role := user_role ss;
     current_user_key := current_user_key ss; user_data := user_data ss;
     user_name := user_name ss; user_email := user_email ss |}.

(** Line 213-214: [if st.button("Add") and sel: cart.append(...)]. *)
Definition staff_add (cat sel : string) (qty : Z) : App reply :=
  if widget_ok cat sel qty then
    if truthy sel then
      let* ss := read_sess in
      modify_sess (set_cart (cart ss ++ [{| ci_type := cat; ci_item := sel; ci_qty := qty |}])) ;;;
      st_ret (Info "Added")
    else st_ret Done
  else st_ret Unavailable.

(** ** Submission *)

(** [", ".join(f"{i['item']} ({i['qty']})" for i in stationary)] *)
Definition stationary_desc (items : list cart_item) : string :=
  join ", " (map (fun i => ci_item i +:+ " (" +:+ pretty (ci_qty i) +:+ ")") items).

(** Lines 151-153: the status a non-stationary item is filed under. *)
Definition route_status (i : cart_item) : string :=
  let status := "Pending Dept HOD" in
  let status := if bool_decide (ci_type i = "Communication") && bool_decide (ci_item i = "CUG Issue")
                then "Pending Admin" else status in
  if bool_decide (ci_type i = "Stationary") then "Pending Admin" else status.

Definition is_stationary (i : cart_item) : bool := bool_decide (ci_type i = "Stationary").

Section Submission.
Context `{Platform}.

Definition new_request (u : user_row) (rid category item status vendor : string) : request_row :=
  {| r_id := rid; r_user_key := u_username u; r_requester_name := u_name u;
     r_department := u_dept u; r_approver_email := u_hod_email u; r_category := category;
     r_item := item; r_status := status; r_amount := 0; r_initial_cost := 0;
     r_vendor := vendor; r_invoice_img := None; r_sac_note := ""; r_date := date_today |}.

(** Lines 132-142. *)
Definition submit_stationary (u : user_row) (stationary : list cart_item) : App unit :=
  if bool_decide (stationary = []) then st_ret tt else
  let* rid := new_id in
  run_db (sql_insert_request
            (new_request u rid "Stationary" (stationary_desc stationary) "Pending Admin" "Store")) ;;;
  log_action (u_name u) "Request" ("Stationary #" +:+ rid).

(** Lines 146-159, the body of the loop. *)
Definition submit_other (u : user_row) (i : cart_item) : App unit :=
  let* rid := new_id in
  run_db (sql_insert_request
            (new_request u rid (ci_type i) (ci_item i) (route_status i) "Pending")) ;;;
  log_action (u_name u) "Request" (ci_type i +:+ " #" +:+ rid).

(** Lines 128-161. *)
Definition process_cart_submission (u : user_row) : App unit :=
  let* ss := read_sess in
  if bool_decide (cart ss = []) then st_ret tt else
  submit_stationary u (filter is_stationary (cart ss)) ;;;
  st_iter (submit_other u) (filter (fun i => negb (is_stationary i)) (cart ss)) ;;;
  modify_sess (set_cart []).
End Submission.

(** What a request filed by [u]'s submission looks like: its owner and
    approver come from [u], it carries no cost or invoice yet, and it is
    routed by its category and item. *)
Definition filed_by (u : user_row) (r : request_row) : Prop :=
  r_user_key r = u_username u /\ r_approver_email r = u_hod_email u /\
  r_amount r = 0%Q /\ r_initial_cost r = 0%Q /\ r_invoice_img r = None /\
  ((r_category r = "Stationary" /\ r_status r = "Pending Admin" /\ r_vendor r = "Store") \/
   (r_category r <> "Stationary" /\ r_vendor r = "Pending" /\
    r_status r = if bool_decide (r_category r = "Communication") && bool_decide (r_item r = "CUG Issue")
                 then "Pending Admin" else "Pending Dept HOD")).

(** Every row of the table was there in [d0] or was filed by [u]. *)
Definition old_or_filed (u : user_row) (m0 : gmap string request_row) (m : gmap string request_row) : Prop :=
  forall k r, m !! k = Some r -> m0 !! k = Some r \/ filed_by u r.

(** The ids the next [n] uuid draws return, from the [rng]-th on. *)
Fixpoint draws_from `{Platform} (rng n : nat) : list string :=
  match n with
  | O => []
  | S n' => prefix 8 (uuid4_str rng) :: draws_from (S rng) n'
  end.

(** The next [n] draws are pairwise distinct and no request has them. *)
Definition fresh_draws `{Platform} (d : db) (rng n : nat) : Prop :=
  NoDup (draws_from rng n) /\ forall k, k ∈ draws_from rng n -> requests d !! k = None.

(** One request for all stationary items, one per other item. *)
Definition rows_needed (c : list cart_item) : nat :=
  (if bool_decide (filter is_stationary c = []) then 0 else 1) +
  length (filter (fun i => negb (is_stationary i)) c).

(** ** Lemmas *)

Lemma old_or_filed_refl u m : old_or_filed u m m.
Proof. intros k r Hr. by left. Qed.

Lemma old_or_filed_insert u m0 m r :
  filed_by u r -> old_or_filed u m0 m -> old_or_filed u m0 (<[r_id r := r]> m).
Proof.
  intros Hr Hm k r' Hk. destruct (decide (r_id r = k)) as [<-|Hne].
  - rewrite lookup_insert_eq in Hk. simplify_eq. by right.
  - rewrite lookup_insert_ne in Hk by done. by apply Hm.
Qed.

Lemma route_status_other i :
  is_stationary i = false ->
  route_status i = if bool_decide (ci_type i = "Communication") && bool_decide (ci_item i = "CUG Issue")
                   then "Pending Admin" else "Pending Dept HOD".
Proof. unfold route_status, is_stationary. by intros ->. Qed.

Section SubmissionLemmas.
Context `{Platform}.

Lemma filed_stationary u rid desc :
  filed_by u (new_request u rid "Stationary" desc "Pending Admin" "Store").
Proof. unfold filed_by. cbn. naive_solver. Qed.

Lemma filed_other u rid i :
  is_stationary i = false ->
  filed_by u (new_request u rid (ci_type i) (ci_item i) (route_status i) "Pending").
Proof.
  intros Hi. unfold filed_by. cbn. rewrite route_status_other by done.
  split_and!; try done. right. split_and!; [|done|done].
  unfold is_stationary in Hi. by apply bool_decide_eq_false in Hi.
Qed.

Lemma submit_other_preserves u m0 i :
  is_stationary i = false ->
  preserves (on_requests (old_or_filed u m0)) (submit_other u i).
Proof.
  intros Hi. unfold submit_other. preserve_steps.
  apply preserves_insert_request. intros m Hm _. by apply old_or_filed_insert; [apply filed_other|].
Qed.

(** C20: whatever a submission does, raising half-way
    included, every row of the requests table afterwards was there before
    or belongs to the submitting user, has no cost or invoice yet, and
    is routed by its category: stationary to Pending Admin with vendor
    Store; a Communication "CUG Issue" to Pending Admin; anything else
    to Pending Dept HOD. *)
Theorem submission_filed u s :
  old_or_filed u (requests (rs_db s)) (requests (rs_db (fst (process_cart_submission u s)))).
Proof.
  apply (preserves_bind (on_requests (old_or_filed u (requests (rs_db s))))); [|intros ss|];
    [auto with facility| |apply old_or_filed_refl].
  case_bool_decide; [auto with facility|].
  apply preserves_bind; [|intros _]; [unfold submit_stationary; preserve_steps|].
  - apply preserves_insert_request. intros m Hm _.
    by apply old_or_filed_insert; [apply filed_stationary|].
  - apply preserves_bind; [|intros _; auto with facility].
    apply preserves_iter. intros i Hi%list_elem_of_filter.
    apply submit_other_preserves. by destruct (is_stationary i), Hi.
Qed.
End SubmissionLemmas.

(** ** Submissions that draw fresh ids *)

Section Fresh.
Context `{Platform}.

Lemma draws_from_add rng a b :
  draws_from rng (a + b) = (draws_from rng a ++ draws_from (rng + a) b)%list.
Proof.
  revert rng. induction a as [|a IH]; intros rng; simpl.
  - by rewrite Nat.add_0_r.
  - by rewrite IH, Nat.add_succ_r.
Qed.

Lemma fresh_draws_cons d rng n :
  fresh_draws d rng (S n) ->
  requests d !! prefix 8 (uuid4_str rng) = None /\
  (prefix 8 (uuid4_str rng) ∉ draws_from (S rng) n) /\ fresh_draws d (S rng) n.
Proof.
  intros [Hnd Hf]. cbn in Hnd. apply NoDup_cons in Hnd as [Hnin Hnd].
  split_and!; [apply Hf; set_solver|done|split; [done|]].
  intros k Hk. apply Hf. cbn. set_solver.
Qed.

Definition submit_state (s : run_state) (d : db) : run_state :=
  {| rs_db := d; rs_sess := rs_sess s; rs_rng := S (rs_rng s) |}.

Lemma submit_other_ok u i s :
  requests (rs_db s) !! peek_id s = None ->
  exists d', submit_other u i s = (submit_state s d', inr tt) /\
    requests d' = <[peek_id s := new_request u (peek_id s) (ci_type i) (ci_item i) (route_status i) "Pending"]>
                    (requests (rs_db s)).
Proof.
  intros Hn. unfold submit_other. run_app.
  erewrite st_bind_ok; [|apply run_db_inr, sql_insert_request_ok; exact Hn].
  by eexists.
Qed.

Lemma fresh_draws_insert d d' rng n k r :
  requests d' = <[k:=r]> (requests d) -> k ∉ draws_from rng n ->
  fresh_draws d rng n -> fresh_draws d' rng n.
Proof.
  intros Hd Hk [Hnd Hf]. split; [done|]. intros k' Hk'.
  rewrite Hd, lookup_insert_ne by set_solver. by apply Hf.
Qed.

Lemma fresh_draws_app d rng a b :
  fresh_draws d rng (a + b) ->
  fresh_draws d rng a /\ fresh_draws d (rng + a) b /\
  (forall k, k ∈ draws_from rng a -> k ∉ draws_from (rng + a) b).
Proof.
  unfold fresh_draws. rewrite draws_from_add. intros [Hnd Hf].
  apply NoDup_app in Hnd as (Hnd1 & Hdisj & Hnd2).
  split; [split; [done|intros k Hk; apply Hf; set_solver]|].
  split; [split; [done|intros k Hk; apply Hf; set_solver]|].
  intros k Hk1 Hk2. by apply (Hdisj k).
Qed.

Lemma iter_submit_ok u l s :
  fresh_draws (rs_db s) (rs_rng s) (length l) ->
  exists d', st_iter (submit_other u) l s =
    ({| rs_db := d'; rs_sess := rs_sess s; rs_rng := rs_rng s + length l |}, inr tt) /\
    dom (requests d') = dom (requests (rs_db s)) ∪ list_to_set (draws_from (rs_rng s) (length l)).
Proof.
  revert s. induction l as [|i l IH]; intros s Hf; simpl.
  - exists (rs_db s). rewrite Nat.add_0_r. split; [by destruct s|set_solver].
  - apply fresh_draws_cons in Hf as (Hn & Hnin & Hf).
    destruct (submit_other_ok u i s Hn) as (d1 & Hrun & Hreq).
    rewrite (st_bind_ok _ _ _ _ _ Hrun).
    destruct (IH (submit_state s d1)) as (d2 & Hrun2 & Hdom2).
    { by eapply fresh_draws_insert. }
    exists d2. rewrite Hrun2. cbn. rewrite Nat.add_succ_r. split; [done|].
    rewrite Hdom2. cbn. rewrite Hreq, dom_insert_L. unfold peek_id. set_solver.
Qed.

Lemma submit_stationary_ok u l s :
  l <> [] -> requests (rs_db s) !! peek_id s = None ->
  exists d', submit_stationary u l s = (submit_state s d', inr tt) /\
    requests d' = <[peek_id s := new_request u (peek_id s) "Stationary" (stationary_desc l)
                                   "Pending Admin" "Store"]> (requests (rs_db s)).
Proof.
  intros Hl Hn. unfold submit_stationary. rewrite bool_decide_eq_false_2 by done. run_app.
  erewrite st_bind_ok; [|apply run_db_inr, sql_insert_request_ok; exact Hn].
  by eexists.
Qed.

(** The run after the stationary request, if any, has been filed. *)
Lemma submit_stationary_fresh u c s :
  fresh_draws (rs_db s) (rs_rng s) (rows_needed c) ->
  exists s1, submit_stationary u (filter is_stationary c) s = (s1, inr tt) /\
    rs_sess s1 = rs_sess s /\
    fresh_draws (rs_db s1) (rs_rng s1) (length (filter (fun i => negb (is_stationary i)) c)) /\
    dom (requests (rs_db s1)) ∪ list_to_set (draws_from (rs_rng s1) (length (filter (fun i => negb (is_stationary i)) c)))
      = dom (requests (rs_db s)) ∪ list_to_set (draws_from (rs_rng s) (rows_needed c)).
Proof.
  unfold rows_needed. case_bool_decide as Hst; intros Hf.
  - exists s. unfold submit_stationary. rewrite bool_decide_eq_true_2 by done. done.
  - apply fresh_draws_app in Hf as (Hf1 & Hf2 & Hdisj).
    rewrite Nat.add_1_r in Hf2, Hdisj.
    apply (fresh_draws_cons _ _ 0) in Hf1 as (Hn & _ & _).
    destruct (submit_stationary_ok u _ s Hst Hn) as (d1 & Hrun & Hreq).
    exists (submit_state s d1). split_and!; [done|done| |].
    + eapply fresh_draws_insert; [exact Hreq| |exact Hf2].
      apply Hdisj. cbn. set_solver.
    + cbn. rewrite Hreq, dom_insert_L. unfold peek_id. cbn. set_solver.
Qed.

(** C19: when the uuid prefixes the submission draws
    are distinct and unused, submitting a non-empty cart raises nothing,
    empties the cart and files exactly one request under each drawn id:
    one for all stationary items and one per other item. *)
Theorem submission_succeeds u s :
  cart (rs_sess s) <> [] ->
  fresh_draws (rs_db s) (rs_rng s) (rows_needed (cart (rs_sess s))) ->
  snd (process_cart_submission u s) = inr tt /\
  cart (rs_sess (fst (process_cart_submission u s))) = [] /\
  dom (requests (rs_db (fst (process_cart_submission u s)))) =
    dom (requests (rs_db s)) ∪ list_to_set (draws_from (rs_rng s) (rows_needed (cart (rs_sess s)))).
Proof.
  intros Hc Hf. unfold process_cart_submission. run_app.
  rewrite bool_decide_eq_false_2 by done.
  destruct (submit_stationary_fresh u _ s Hf) as (s1 & Hrun1 & Hss & Hf1 & Hdom1).
  rewrite (st_bind_ok _ _ _ _ _ Hrun1).
  destruct (iter_submit_ok u (filter (fun i => negb (is_stationary i)) (cart (rs_sess s))) s1 Hf1)
    as (d2 & Hrun2 & Hdom2).
  rewrite (st_bind_ok _ _ _ _ _ Hrun2). cbn. split_and!; [done|done|].
  by rewrite Hdom2, Hdom1.
Qed.
End Fresh.

(** ** A submission that raises keeps the cart *)

Section Errors.
Context `{Platform}.

Definition keeps_session {A} (m : App A) : Prop :=
  forall s, rs_sess (fst (m s)) = rs_sess s.

Lemma keeps_session_bind {A B} (m : App A) (k : A -> App B) :
  keeps_session m -> (forall a, keeps_session (k a)) -> keeps_session (st_bind m k).
Proof.
  intros Hm Hk s. unfold st_bind. specialize (Hm s).
  destruct (m s) as [s1 [e|a]]; [done|]. by rewrite Hk.
Qed.

Lemma keeps_session_run_db f : keeps_session (run_db f).
Proof. intros s. unfold run_db. by destruct (f (rs_db s)). Qed.

Lemma keeps_session_submit_other u i : keeps_session (submit_other u i).
Proof.
  unfold submit_other. repeat (apply keeps_session_bind; intros ?); try done.
  apply keeps_session_run_db.
Qed.

Lemma keeps_session_iter u l : keeps_session (st_iter (submit_other u) l).
Proof.
  induction l as [|i l IH]; [done|].
  apply keeps_session_bind; [apply keeps_session_submit_other|done].
Qed.

Lemma keeps_session_stationary u l : keeps_session (submit_stationary u l).
Proof.
  unfold submit_stationary. case_bool_decide; [done|].
  repeat (apply keeps_session_bind; intros ?); try done. apply keeps_session_run_db.
Qed.

Lemma bind_err_inv {A B} (m : App A) (k : A -> App B) s s' e :
  st_bind m k s = (s', inl e) ->
  m s = (s', inl e) \/ exists a s1, m s = (s1, inr a) /\ k a s1 = (s', inl e).
Proof. unfold st_bind. destruct (m s) as [s1 [e1|a]]; intros Hr; [left; congruence|right; eauto]. Qed.

(** C21: a submission that raises (a uuid
    prefix already used as a request id) leaves the cart as it was,
    although the requests filed before the failing INSERT stay in the
    database: the next Submit files them again. *)
Theorem submission_error_keeps_cart u s s' e :
  process_cart_submission u s = (s', inl e) -> cart (rs_sess s') = cart (rs_sess s).
Proof.
  unfold process_cart_submission. run_app. case_bool_decide; [done|].
  intros [Hr|(a & s1 & Hr1 & Hr)]%bind_err_inv.
  - pose proof (keeps_session_stationary u (filter is_stationary (cart (rs_sess s))) s) as Hk.
    by rewrite Hr in Hk; cbn in Hk; rewrite Hk.
  - pose proof (keeps_session_stationary u (filter is_stationary (cart (rs_sess s))) s) as Hk1.
    rewrite Hr1 in Hk1; cbn in Hk1.
    apply bind_err_inv in Hr as [Hr|(b & s2 & Hr2 & Hr)].
    + pose proof (keeps_session_iter u (filter (fun i => negb (is_stationary i)) (cart (rs_sess s))) s1) as Hk2.
      rewrite Hr in Hk2; cbn in Hk2. by rewrite Hk2, Hk1.
    + unfold modify_sess, st_modify in Hr. congruence.
Qed.
End Errors.

(** ** A collision half-way files the stationary items twice *)

Section Collision.
Context `{Platform}.

Lemma submit_other_collision u i s :
  is_Some (requests (rs_db s) !! peek_id s) ->
  submit_other u i s =
    ({| rs_db := rs_db s; rs_sess := rs_sess s; rs_rng := S (rs_rng s) |},
     inl (IntegrityError "requests" (peek_id s))).
Proof.
  intros Hused. unfold submit_other. run_app.
  by erewrite st_bind_err; [|apply run_db_inl, sql_insert_request_err; exact Hused].
Qed.

(** An INSERT adds a row and changes none. *)
Lemma keep_rows_insert m0 r : preserves (on_requests (fun m => m0 ⊆ m)) (run_db (sql_insert_request r)).
Proof.
  apply preserves_insert_request. intros m Hm Hn.
  apply insert_subseteq_r; [exact (lookup_weaken_None _ _ _ Hn Hm)|done].
Qed.

Lemma keep_rows_other u m0 i : preserves (on_requests (fun m => m0 ⊆ m)) (submit_other u i).
Proof. unfold submit_other. preserve_steps. apply keep_rows_insert. Qed.

(** A submission whose first draw is free files the stationary request
    under it, and keeps every row it found, whatever the later INSERTs
    do. *)
Lemma submission_files_stationary u s :
  filter is_stationary (cart (rs_sess s)) <> [] -> requests (rs_db s) !! peek_id s = None ->
  requests (rs_db s) ⊆ requests (rs_db (fst (process_cart_submission u s))) /\
  requests (rs_db (fst (process_cart_submission u s))) !! peek_id s =
    Some (new_request u (peek_id s) "Stationary" (stationary_desc (filter is_stationary (cart (rs_sess s))))
            "Pending Admin" "Store").
Proof.
  intros Hst Hfree.
  assert (Hc : bool_decide (cart (rs_sess s) = []) = false).
  { apply bool_decide_eq_false_2. intros Hc. apply Hst. by rewrite Hc. }
  destruct (submit_stationary_ok u _ s Hst Hfree) as (d1 & Hrun1 & Hreq1).
  unfold process_cart_submission. run_app. rewrite Hc, (st_bind_ok _ _ _ _ _ Hrun1).
  assert (Hm : on_requests (fun m => requests d1 ⊆ m)
                 (fst ((st_iter (submit_other u) (filter (fun i => negb (is_stationary i)) (cart (rs_sess s))) ;;;
                        modify_sess (set_cart [])) (submit_state s d1)))).
  { apply preserves_bind; [apply preserves_iter; intros i _; apply keep_rows_other|
                           intros _; apply preserves_modify_sess|].
    unfold on_requests. cbn. reflexivity. }
  unfold on_requests in Hm. split.
  - etrans; [|exact Hm]. rewrite Hreq1. by apply insert_subseteq.
  - eapply lookup_weaken; [|exact Hm]. rewrite Hreq1. apply lookup_insert_eq.
Qed.

(** C6: when the cart holds stationary items and other
    items, the first uuid draw is free and the second one is taken (it
    repeats the first, or a request already has it), a submission files
    the stationary request under the first draw, then raises an
    IntegrityError on the INSERT of the first other item and keeps the
    whole cart (lines 128-161 empty it only at the end).  The next Submit
    files the same stationary items again under its own first draw while
    the earlier request stays, so the stationary order is filed twice. *)
Theorem submission_collision_refiles u s :
  filter is_stationary (cart (rs_sess s)) <> [] ->
  filter (fun i => negb (is_stationary i)) (cart (rs_sess s)) <> [] ->
  requests (rs_db s) !! peek_id s = None ->
  (prefix 8 (uuid4_str (S (rs_rng s))) = peek_id s \/
   is_Some (requests (rs_db s) !! prefix 8 (uuid4_str (S (rs_rng s))))) ->
  snd (process_cart_submission u s) = inl (IntegrityError "requests" (prefix 8 (uuid4_str (S (rs_rng s))))) /\
  cart (rs_sess (fst (process_cart_submission u s))) = cart (rs_sess s) /\
  requests (rs_db (fst (process_cart_submission u s))) !! peek_id s =
    Some (new_request u (peek_id s) "Stationary" (stationary_desc (filter is_stationary (cart (rs_sess s))))
            "Pending Admin" "Store") /\
  (requests (rs_db (fst (process_cart_submission u s))) !! peek_id (fst (process_cart_submission u s)) = None ->
   requests (rs_db (fst (process_cart_submission u (fst (process_cart_submission u s))))) !!
       peek_id (fst (process_cart_submission u s)) =
     Some (new_request u (peek_id (fst (process_cart_submission u s))) "Stationary"
             (stationary_desc (filter is_stationary (cart (rs_sess s)))) "Pending Admin" "Store") /\
   requests (rs_db (fst (process_cart_submission u (fst (process_cart_submission u s))))) !! peek_id s =
     Some (new_request u (peek_id s) "Stationary" (stationary_desc (filter is_stationary (cart (rs_sess s))))
             "Pending Admin" "Store")).
Proof.
  intros Hst Hoth Hfree Hcoll.
  destruct (submission_files_stationary u s Hst Hfree) as [_ Hrow].
  destruct (submit_stationary_ok u _ s Hst Hfree) as (d1 & Hrun1 & Hreq1).
  destruct (filter (fun i => negb (is_stationary i)) (cart (rs_sess s))) as [|i rest] eqn:Ho; [done|].
  assert (Hused : is_Some (requests (rs_db (submit_state s d1)) !! peek_id (submit_state s d1))).
  { cbn. rewrite Hreq1. unfold peek_id at 1. cbn [rs_rng submit_state].
    destruct (decide (prefix 8 (uuid4_str (S (rs_rng s))) = peek_id s)) as [->|Hne].
    - rewrite lookup_insert_eq. by eexists.
    - rewrite lookup_insert_ne by done. by destruct Hcoll. }
  assert (Hrun : process_cart_submission u s =
    ({| rs_db := d1; rs_sess := rs_sess s; rs_rng := S (S (rs_rng s)) |},
     inl (IntegrityError "requests" (prefix 8 (uuid4_str (S (rs_rng s))))))).
  { unfold process_cart_submission. run_app.
    rewrite bool_decide_eq_false_2 by (intros Hc; apply Hst; by rewrite Hc).
    rewrite (st_bind_ok _ _ _ _ _ Hrun1), Ho. cbn [st_iter]. rewrite st_bind_assoc.
    erewrite st_bind_err; [reflexivity|apply submit_other_collision, Hused]. }
  rewrite Hrun in Hrow |- *. cbn [fst snd rs_sess rs_db].
  split_and!; [done|done|done|]. intros Hfree'.
  destruct (submission_files_stationary u {| rs_db := d1; rs_sess := rs_sess s; rs_rng := S (S (rs_rng s)) |}
              Hst Hfree') as [Hsub Hrow'].
  split; [exact Hrow'|]. by eapply lookup_weaken.
Qed.

End Collision.

(** ** Examples *)

Definition demo_staff : user_row :=
  {| u_username := "ada"; u_password := "sha256:pw"; u_role := "Staff"; u_name := "Ada";
     u_email := "ada@co.com"; u_dept := "Ops"; u_hod_email := "hod@co.com"; u_force_reset := 0 |}.

Definition demo_cart : list cart_item :=
  [{| ci_type := "Facility"; ci_item := "Door Repair"; ci_qty := 1 |};
   {| ci_type := "Stationary"; ci_item := "Biro"; ci_qty := 3 |};
   {| ci_type := "Furniture"; ci_item := "Chair Repair"; ci_qty := 1 |}].

Definition demo_cart_run (n : nat) : run_state :=
  {| rs_db := empty_db; rs_sess := set_cart demo_cart initial_session; rs_rng := n |}.

Example stationary_items_sorted :
  STATIONARY_ITEMS = ["05A Toner"; "A4 Paper"; "Biro"; "File Folders"; "Notepads"; "Staplers"].
Proof. reflexivity. Qed.

Lemma submission_succeeds_witness :
  snd (@process_cart_submission demo_platform demo_staff (demo_cart_run 2)) = inr tt /\
  cart (rs_sess (fst (@process_cart_submission demo_platform demo_staff (demo_cart_run 2)))) = [] /\
  dom (requests (rs_db (fst (@process_cart_submission demo_platform demo_staff (demo_cart_run 2))))) =
    dom (requests empty_db) ∪ list_to_set (@draws_from demo_platform 2 (rows_needed demo_cart)).
Proof.
  apply (submission_succeeds (H := demo_platform) demo_staff (demo_cart_run 2)).
  - discriminate.
  - split.
    + cbn. repeat constructor; set_solver.
    + intros k _. apply lookup_empty.
Defined.


Lemma submission_error_keeps_cart_witness :
  cart (rs_sess (fst (@process_cart_submission demo_platform demo_staff (demo_cart_run 0)))) =
    cart (rs_sess (demo_cart_run 0)).
Proof.
  apply (submission_error_keeps_cart (H := demo_platform) demo_staff (demo_cart_run 0) _
           (IntegrityError "requests" "0badcafe")).
  vm_compute. reflexivity.
Defined.

(** With the demo generator, whose first two draws share the prefix
    "0badcafe", the cart of a Facility, a Stationary and a Furniture item
    collides on its second INSERT; the resubmission draws "00000002". *)
Lemma submission_collision_refiles_witness :
  let s := demo_cart_run 0 in
  let P := @process_cart_submission demo_platform demo_staff in
  let desc := stationary_desc (filter is_stationary demo_cart) in
  snd (P s) = inl (IntegrityError "requests" "0badcafe") /\
  cart (rs_sess (fst (P s))) = demo_cart /\
  requests (rs_db (fst (P s))) !! "0badcafe" =
    Some (@new_request demo_platform demo_staff "0badcafe" "Stationary" desc "Pending Admin" "Store") /\
  (requests (rs_db (fst (P s))) !! "00000002" = None ->
   requests (rs_db (fst (P (fst (P s))))) !! "00000002" =
     Some (@new_request demo_platform demo_staff "00000002" "Stationary" desc "Pending Admin" "Store") /\
   requests (rs_db (fst (P (fst (P s))))) !! "0badcafe" =
     Some (@new_request demo_platform demo_staff "0badcafe" "Stationary" desc "Pending Admin" "Store")).
Proof.
  apply (submission_collision_refiles (H := demo_platform) demo_staff (demo_cart_run 0)).
  - vm_compute. discriminate.
  - vm_compute. discriminate.
  - vm_compute. reflexivity.
  - left. vm_compute. reflexivity.
Defined.
