(* ===== verification/Auth.v ===== *)
(** * Auth: logging in, changing the password, creating users

    [login_function] (src/Facility.py, lines 163-179),
    [change_password_flow] (lines 181-191), the superuser's Create form of
    [view_superuser] (lines 339-355) and the Logout button of [main]
    (lines 397-398).  Passwords are stored as [make_hash] of the password;
    user names are lowercased on login and on creation.  Python's
    [str.lower] is modelled on ASCII letters, the only ones a [string]
    holds.  The Create form's bare [except] also catches the exception of
    [st.rerun()], so a successful creation reports "Username exists" as
    well. *)

From S2P Require Import Prelude Schema.

(** ** Lowercasing *)

Definition lower_ascii (c : Ascii.ascii) : Ascii.ascii :=
  let n := Ascii.nat_of_ascii c in
  if (65 <=? n)%nat && (n <=? 90)%nat then Ascii.ascii_of_nat (n + 32) else c.

Fixpoint lower (s : string) : string :=
  match s with
  | EmptyString => EmptyString
  | String c s' => String (lower_ascii c) (lower s')
  end.

(** ** Row and session updates *)

(** [SET password = ?, force_reset = 0] *)
Definition set_password (h : string) (u : user_row) : user_row :=
  {| u_username := u_username u; u_password := h; u_role := u_role u; u_name := u_name u;
     u_email := u_email u; u_dept := u_dept u; u_hod_email := u_hod_email u;
     u_force_reset := 0 |}.

(** [st.session_state.user_data['force_reset'] = 0] *)
Definition clear_reset (u : user_row) : user_row :=
  {| u_username := u_username u; u_password := u_password u; u_role := u_role u;
     u_name := u_name u; u_email := u_email u; u_dept := u_dept u;
     u_hod_email := u_hod_email u; u_force_reset := 0 |}.

Definition set_user_data (f : user_row -> user_row) (ss : session) : session :=
  {| cart := cart ss; logged_in := logged_in ss; user_role := user_role ss;
     current_user_key := current_user_key ss; user_data := f <$> user_data ss;
     user_name := user_name ss; user_email := user_email ss |}.

(** Lines 171-176. *)
Definition log_in (key : string) (u : user_row) (ss : session) : session :=
  {| cart := cart ss; logged_in := true; user_role := u_role u;
     current_user_key := key; user_data := Some u;
     user_name := Some (u_name u); user_email := Some (u_email u) |}.

(** Line 398. *)
Definition log_out (ss : session) : session :=
  {| cart := cart ss; logged_in := false; user_role := user_role ss;
     current_user_key := current_user_key ss; user_data := user_data ss;
     user_name := user_name ss; user_email := user_email ss |}.

(** The Role selectbox of the Create form (line 347). *)
Definition ROLE_OPTIONS : list string :=
  ["Staff"; "Dept HOD"; "Admin"; "SS HOD"; "SAC"; "ED"; "GMD"; "Accounts"].

Section Handlers.
Context `{Platform}.

(** Lines 166-179. *)
Definition login (u_input p : string) : App reply :=
  let u := lower u_input in
  let* d := read_db in
  match get_user d u with
  | Some user =>
      if check_hash p (u_password user) then
        modify_sess (log_in u user) ;;;
        log_action (u_name user) "Login" "Success" ;;;
        st_ret Done
      else st_ret (UiError "Invalid Credentials")
  | None => st_ret (UiError "Invalid Credentials")
  end.

(** Lines 184-191. *)
Definition change_password (p1 p2 : string) : App reply :=
  if bool_decide (p1 = p2) && bool_decide (0 < String.length p1)%nat then
    let* ss := read_sess in
    modify_db (sql_update_user (current_user_key ss) (set_password (make_hash p1))) ;;;
    modify_sess (set_user_data clear_reset) ;;;
    st_ret (Info "Updated! Redirecting...")
  else st_ret (UiError "Passwords mismatch.").

Definition new_user (u ph r n e d h : string) : user_row :=
  {| u_username := u; u_password := ph; u_role := r; u_name := n; u_email := e;
     u_dept := d; u_hod_email := h; u_force_reset := 1 |}.

(** Lines 343-355: the bare [except] turns any failure of the INSERT
    into "Username exists".  When the INSERT succeeds, line 354 shows
    "Created!" and calls [st.rerun()], which raises Streamlit's
    RerunException inside the [try]; the bare [except] catches that too,
    so the page shows "Created!" and then "Username exists" and does not
    rerun.  [created] records whether the INSERT got through. *)
Definition create_user (u_input p n e r d h : string) : App reply :=
  if bool_decide (r ∈ ROLE_OPTIONS) then
    let u := lower u_input in
    if truthy u && truthy p then
      let ph := make_hash p in
      let* created := st_catch (run_db (sql_insert_user (new_user u ph r n e d h)) ;;; st_ret true)
                               (fun _ => st_ret false) in
      if created then st_ret (InfoError "Created!" "Username exists")
      else st_ret (UiError "Username exists")
    else st_ret Done
  else st_ret Unavailable.

(** Lines 397-398. *)
Definition logout : App reply := modify_sess log_out ;;; st_ret Done.
End Handlers.

(** ** Lemmas *)

Section AuthLemmas.
Context `{Platform}.

Lemma check_hash_iff p h : check_hash p h = true <-> make_hash p = h.
Proof. unfold check_hash. apply bool_decide_eq_true. Qed.

(** C25: a login with a user name whose lowercase form is a
    user with that password's hash logs the tab in as that user under
    the lowercase key; with no such user or another hash it changes
    nothing and shows "Invalid Credentials". *)
Theorem login_outcome s u p :
  (forall user, users (rs_db s) !! lower u = Some user -> u_password user = make_hash p ->
     snd (login u p s) = inr Done /\
     rs_sess (fst (login u p s)) = log_in (lower u) user (rs_sess s) /\
     users (rs_db (fst (login u p s))) = users (rs_db s)) /\
  ((forall user, users (rs_db s) !! lower u = Some user -> u_password user <> make_hash p) ->
     login u p s = (s, inr (UiError "Invalid Credentials"))).
Proof.
  unfold login, get_user. run_app. split.
  - intros user Hu Hp. rewrite Hu.
    rewrite (proj2 (check_hash_iff _ _) (eq_sym Hp)). by run_app.
  - intros Hno. destruct (users (rs_db s) !! lower u) as [user|] eqn:Hu; [|done].
    destruct (check_hash p (u_password user)) eqn:Hc; [|done].
    apply check_hash_iff in Hc. by destruct (Hno user eq_refl).
Qed.

Lemma users_update_eq k f d : users (sql_update_user k f d) !! k = f <$> users d !! k.
Proof. apply lookup_alter_eq. Qed.

Lemma change_password_run s p :
  p <> "" ->
  change_password p p s =
    ({| rs_db := sql_update_user (current_user_key (rs_sess s)) (set_password (make_hash p)) (rs_db s);
        rs_sess := set_user_data clear_reset (rs_sess s); rs_rng := rs_rng s |},
     inr (Info "Updated! Redirecting...")).
Proof.
  intros Hp. assert (Hlen : (0 < String.length p)%nat) by (destruct p; [done|cbn; lia]).
  unfold change_password. by rewrite bool_decide_eq_true_2, bool_decide_eq_true_2.
Qed.

(** C26: after a logged-in user sets a new
    non-empty password twice, their row has force_reset 0 and the new
    hash, a login with their key and the new password succeeds, and a
    login with any password of another hash is refused. *)
Theorem change_password_roundtrip s p user :
  users (rs_db s) !! current_user_key (rs_sess s) = Some user -> p <> "" ->
  lower (current_user_key (rs_sess s)) = current_user_key (rs_sess s) ->
  snd (change_password p p s) = inr (Info "Updated! Redirecting...") /\
  users (rs_db (fst (change_password p p s))) !! current_user_key (rs_sess s) =
    Some (set_password (make_hash p) user) /\
  snd (login (current_user_key (rs_sess s)) p (fst (change_password p p s))) = inr Done /\
  (forall q, make_hash q <> make_hash p ->
     snd (login (current_user_key (rs_sess s)) q (fst (change_password p p s))) =
       inr (UiError "Invalid Credentials")).
Proof.
  intros Hu Hp Hlow. rewrite change_password_run by done.
  set (s1 := {| rs_db := _; rs_sess := _; rs_rng := _ |}).
  assert (Hu1 : users (rs_db s1) !! lower (current_user_key (rs_sess s)) =
                Some (set_password (make_hash p) user)).
  { rewrite Hlow. unfold s1. cbn [rs_db]. by rewrite users_update_eq, Hu. }
  rewrite Hlow in Hu1. split_and!; [done|done| |].
  - edestruct (proj1 (login_outcome s1 (current_user_key (rs_sess s)) p)) as [Hd _];
      [rewrite Hlow; exact Hu1|reflexivity|exact Hd].
  - intros q Hq. cbn [fst]. rewrite (proj2 (login_outcome s1 _ q)); [done|].
    intros u' Hu' Hpw. rewrite Hlow, Hu1 in Hu'. injection Hu' as <-. cbn in Hpw. by apply Hq.
Qed.

(** C27: the superuser's Create form, for a role of
    the selectbox and a non-empty lowercase user name and password,
    inserts a user with the password's hash and force_reset 1 when the
    name is free, and then shows "Created!" followed by "Username exists"
    without a rerun (the bare [except] catches the rerun); when the name
    is taken it changes nothing and shows "Username exists". *)
Theorem create_user_outcome s u p n e r d h :
  r ∈ ROLE_OPTIONS -> lower u <> "" -> p <> "" ->
  (users (rs_db s) !! lower u = None ->
     snd (create_user u p n e r d h s) = inr (InfoError "Created!" "Username exists") /\
     users (rs_db (fst (create_user u p n e r d h s))) !! lower u =
       Some (new_user (lower u) (make_hash p) r n e d h)) /\
  (is_Some (users (rs_db s) !! lower u) ->
     create_user u p n e r d h s = (s, inr (UiError "Username exists"))).
Proof.
  intros Hr Hu Hp. unfold create_user. rewrite bool_decide_eq_true_2 by done.
  rewrite (proj2 (truthy_true _) Hu), (proj2 (truthy_true _) Hp). cbn [andb].
  split.
  - intros Hfree. erewrite st_bind_ok;
      [|apply st_catch_ok; erewrite st_bind_ok; [reflexivity|apply run_db_inr, sql_insert_user_ok; exact Hfree]].
    cbn. by rewrite lookup_insert_eq.
  - intros Hused. erewrite st_bind_ok;
      [|erewrite st_catch_err; [reflexivity|apply st_bind_err, run_db_inl, sql_insert_user_err; exact Hused]].
    done.
Qed.
End AuthLemmas.

(** ** Examples *)

Definition demo_ada : user_row :=
  {| u_username := "ada"; u_password := "sha256:pw"; u_role := "Staff"; u_name := "Ada";
     u_email := "ada@co.com"; u_dept := "Ops"; u_hod_email := "hod@co.com"; u_force_reset := 1 |}.

Definition demo_users_db : db :=
  {| users := {[ "ada" := demo_ada ]}; requests := ∅; req_order := []; audit := []; audit_seq := 0;
     payments := ∅ |}.

Definition demo_ada_run : run_state :=
  {| rs_db := demo_users_db; rs_sess := log_in "ada" demo_ada initial_session; rs_rng := 0 |}.

Lemma login_outcome_witness :
  snd (@login demo_platform "Ada" "pw" (demo_run demo_users_db 0)) = inr Done /\
  rs_sess (fst (@login demo_platform "Ada" "pw" (demo_run demo_users_db 0))) =
    log_in "ada" demo_ada initial_session /\
  @login demo_platform "Ada" "nope" (demo_run demo_users_db 0) =
    (demo_run demo_users_db 0, inr (UiError "Invalid Credentials")).
Proof.
  destruct (login_outcome (H := demo_platform) (demo_run demo_users_db 0) "Ada" "pw") as [Hok _].
  destruct (login_outcome (H := demo_platform) (demo_run demo_users_db 0) "Ada" "nope") as [_ Hbad].
  destruct (Hok demo_ada) as (H1 & H2 & _); [reflexivity|reflexivity|].
  split_and!; [exact H1|exact H2|].
  apply Hbad. intros user Hu. vm_compute in Hu. injection Hu as <-. discriminate.
Defined.

Lemma change_password_roundtrip_witness :
  snd (@change_password demo_platform "n3w" "n3w" demo_ada_run) = inr (Info "Updated! Redirecting...") /\
  users (rs_db (fst (@change_password demo_platform "n3w" "n3w" demo_ada_run))) !! "ada" =
    Some (set_password "sha256:n3w" demo_ada) /\
  snd (@login demo_platform "ada" "n3w" (fst (@change_password demo_platform "n3w" "n3w" demo_ada_run))) = inr Done /\
  (forall q, @make_hash demo_platform q <> @make_hash demo_platform "n3w" ->
     snd (@login demo_platform "ada" q (fst (@change_password demo_platform "n3w" "n3w" demo_ada_run))) =
       inr (UiError "Invalid Credentials")).
Proof.
  apply (change_password_roundtrip (H := demo_platform) demo_ada_run "n3w" demo_ada).
  - reflexivity.
  - discriminate.
  - reflexivity.
Defined.

Lemma create_user_outcome_witness :
  (users (rs_db (demo_run demo_users_db 0)) !! "bob" = None ->
     snd (@create_user demo_platform "Bob" "tmp" "Bob" "bob@co.com" "GMD" "Board" "" (demo_run demo_users_db 0)) =
       inr (InfoError "Created!" "Username exists") /\
     users (rs_db (fst (@create_user demo_platform "Bob" "tmp" "Bob" "bob@co.com" "GMD" "Board" "" (demo_run demo_users_db 0)))) !! "bob" =
       Some (new_user "bob" "sha256:tmp" "GMD" "Bob" "bob@co.com" "Board" "")) /\
  (is_Some (users (rs_db (demo_run demo_users_db 0)) !! "bob") ->
     @create_user demo_platform "Bob" "tmp" "Bob" "bob@co.com" "GMD" "Board" "" (demo_run demo_users_db 0) =
       (demo_run demo_users_db 0, inr (UiError "Username exists"))).
Proof.
  apply (create_user_outcome (H := demo_platform) (demo_run demo_users_db 0)
           "Bob" "tmp" "Bob" "bob@co.com" "GMD" "Board" "").
  - repeat constructor.
  - discriminate.
  - discriminate.
Defined.
