(* ===== verification/App.v ===== *)
(** * App: the router [main] and the multi-tab world

    [main] (src/Facility.py, lines 381-409) runs on every rerun of a
    browser tab: the login form when the tab is not logged in, the
    password change when the user's fresh row has [force_reset = 1], and
    otherwise the Logout button and the view of the role cached in the
    tab's [user_data].  A [world] holds the database and the random
    generator shared by every tab, and the session state of each tab; a
    [step] is one rerun of one tab on one event. *)

From S2P Require Import Prelude Schema Workflow Cart Auth.

(** A user's action in a rerun: which widget is clicked, with the
    values of the widgets it reads. *)
Inductive event :=
| ELogin (u p : string)
| EChangePassword (p1 p2 : string)
| ELogout
| EAdd (cat sel : string) (qty : Z)
| ESubmit
| EAdminIssue (rid : string)
| EAdminResolve (rid : string)
| EAdminQuote (rid v : string) (c : Q) (img : option blob)
| EApprove (rid : string)
| EDecline (rid : string)
| ESacValidate (rid : string) (cost : Q) (note : string)
| EHodApprove (rid : string)
| EHodDecline (rid : string)
| EMarkPaid (pid : string)
| ECreateUser (u p n e r d h : string).

Section Router.
Context `{Platform}.

(** Lines 216-218: the Submit button is shown when the cart is not
    empty. *)
Definition staff_submit (user : user_row) : App reply :=
  let* ss := read_sess in
  if bool_decide (cart ss = []) then st_ret Unavailable
  else process_cart_submission user ;;; st_ret (Info "Sent").

(** Lines 400-409: the view of the cached role, and the widgets it
    renders. *)
Definition role_view (user : user_row) (ev : event) : App reply :=
  let role := u_role user in
  if bool_decide (role = "Staff") then
    match ev with
    | EAdd cat sel qty => staff_add cat sel qty
    | ESubmit => staff_submit user
    | _ => st_ret Unavailable
    end
  else if bool_decide (role = "Dept HOD") then
    match ev with
    | EHodApprove rid => hod_approve (u_email user) rid
    | EHodDecline rid => hod_decline (u_email user) rid
    | _ => st_ret Unavailable
    end
  else if bool_decide (role = "Admin") then
    match ev with
    | EAdminIssue rid => admin_issue rid
    | EAdminResolve rid => admin_resolve rid
    | EAdminQuote rid v c img => admin_quote rid v c img
    | _ => st_ret Unavailable
    end
  else if bool_decide (role = "SS HOD") then
    match ev with
    | EApprove rid => approver_approve role "Pending SS HOD" "Pending SAC" rid
    | EDecline rid => approver_decline "Pending SS HOD" rid
    | _ => st_ret Unavailable
    end
  else if bool_decide (role = "SAC") then
    match ev with
    | ESacValidate rid cost note => sac_validate rid cost note
    | _ => st_ret Unavailable
    end
  else if bool_decide (role = "ED") then
    match ev with
    | EApprove rid => approver_approve role "Pending ED" "Pending GMD" rid
    | EDecline rid => approver_decline "Pending ED" rid
    | _ => st_ret Unavailable
    end
  else if bool_decide (role = "GMD") then
    match ev with
    | EApprove rid => approver_approve role "Pending GMD" "Approved" rid
    | EDecline rid => approver_decline "Pending GMD" rid
    | _ => st_ret Unavailable
    end
  else if bool_decide (role = "Accounts") then
    match ev with
    | EMarkPaid pid => accounts_mark_paid pid
    | _ => st_ret Unavailable
    end
  else if bool_decide (role = "Superuser") then
    match ev with
    | ECreateUser u p n e r d h => create_user u p n e r d h
    | _ => st_ret Unavailable
    end
  else st_ret Unavailable.

(** Lines 381-409.  [get_user] returning [None] makes the subscript
    [current_u_data['force_reset']] raise a TypeError; an empty
    [user_data] makes [user['name']] raise a KeyError. *)
Definition main (ev : event) : App reply :=
  let* ss := read_sess in
  if negb (logged_in ss) then
    match ev with
    | ELogin u p => login u p
    | _ => st_ret Unavailable
    end
  else
    let* d := read_db in
    match get_user d (current_user_key ss) with
    | None => st_throw (TypeError "'NoneType' object is not subscriptable")
    | Some cur =>
        if bool_decide (u_force_reset cur = 1%Z) then
          match ev with
          | EChangePassword p1 p2 => change_password p1 p2
          | _ => st_ret Unavailable
          end
        else
          match user_data ss with
          | None => st_throw (KeyError "name")
          | Some user =>
              match ev with
              | ELogout => logout
              | _ => role_view user ev
              end
          end
    end.
End Router.

(** ** The world: one database, many tabs *)

Record world := {
  w_db : db;
  w_sessions : gmap nat session;
  w_rng : nat
}.

(** A tab seen for the first time starts from the initial session state. *)
Definition session_of (w : world) (sid : nat) : session :=
  default initial_session (w_sessions w !! sid).

Section World.
Context `{Platform}.

(** One rerun of tab [sid] on [ev]. *)
Definition step (w : world) (sid : nat) (ev : event) : world * (exn + reply) :=
  let '(s', r) := main ev {| rs_db := w_db w; rs_sess := session_of w sid; rs_rng := w_rng w |} in
  ({| w_db := rs_db s'; w_sessions := <[sid := rs_sess s']> (w_sessions w); w_rng := rs_rng s' |}, r).

(** Line 75, at a start of the server: [init_db] on the file, and no tab. *)
Definition start (d : db) (rng : nat) : world :=
  {| w_db := init_db d; w_sessions := ∅; w_rng := rng |}.

Inductive reachable : world -> Prop :=
| reach_init : reachable (start empty_db 0)
| reach_step w sid ev : reachable w -> reachable (fst (step w sid ev))
| reach_restart w : reachable w -> reachable (start (w_db w) (w_rng w)).

(** A rerun of some tab, or a restart of the server. *)
Definition world_step (w w' : world) : Prop :=
  (exists sid ev, w' = fst (step w sid ev)) \/ w' = start (w_db w) (w_rng w).

(** A run of the system from [w] through the worlds [ws]. *)
Fixpoint trace_from (w : world) (ws : list world) : Prop :=
  match ws with
  | [] => True
  | w' :: ws' => world_step w w' /\ trace_from w' ws'
  end.
End World.

Definition status_at (rid : string) (w : world) : option string :=
  r_status <$> requests (w_db w) !! rid.

(** How many times the status of [rid] changes along a run. *)
Fixpoint status_changes (rid : string) (w : world) (ws : list world) : nat :=
  match ws with
  | [] => 0
  | w' :: ws' =>
      (if bool_decide (status_at rid w = status_at rid w') then 0 else 1) +
      status_changes rid w' ws'
  end.

(** ** Every rerun refines the workflow *)

Lemma route_status_initial i :
  exists st, route_status i = status_name st /\ initial_status st.
Proof.
  unfold route_status, initial_status.
  case_bool_decide; [by exists PendingAdmin; auto|].
  destruct (_ && _); [by exists PendingAdmin; auto|by exists PendingDeptHOD; auto].
Qed.

(** Filing a request at a free key under an initial status is one
    [spec_create] step. *)
Lemma insert_initial_spec a0 r st :
  r_status r = status_name st -> initial_status st ->
  forall m, keys_ok m /\ rtc spec_step a0 (r_status <$> m) -> m !! r_id r = None ->
  keys_ok (<[r_id r := r]> m) /\ rtc spec_step a0 (r_status <$> <[r_id r := r]> m).
Proof.
  intros Hst Hinit m [Hk Hs] Hfree. split.
  - by apply map_Forall_insert_2.
  - rewrite fmap_insert, Hst. eapply rtc_r; [exact Hs|].
    apply spec_create; [by rewrite lookup_fmap, Hfree|done].
Qed.

Section RouterSpec.
Context `{Platform}.

Lemma submit_other_spec u i : refines_spec (submit_other u i).
Proof.
  intros a0. unfold submit_other. preserve_steps.
  destruct (route_status_initial i) as (st & Hst & Hinit).
  apply preserves_insert_request. by apply (insert_initial_spec a0 _ st).
Qed.

Lemma submit_stationary_spec u l : refines_spec (submit_stationary u l).
Proof.
  intros a0. unfold submit_stationary. preserve_steps.
  apply preserves_insert_request. apply (insert_initial_spec a0 _ PendingAdmin); [done|by right].
Qed.

Lemma process_cart_submission_spec u : refines_spec (process_cart_submission u).
Proof.
  intros a0. unfold process_cart_submission. preserve_steps.
  - apply submit_stationary_spec.
  - apply preserves_iter. intros i _. apply submit_other_spec.
Qed.

Lemma keeps_requests_spec {A} (m : App A) :
  (forall P, preserves (on_requests P) m) -> refines_spec m.
Proof. intros Hm a0. apply Hm. Qed.

Lemma login_spec u p : refines_spec (login u p).
Proof. apply keeps_requests_spec. intros P. unfold login. preserve_steps. Qed.

Lemma change_password_spec p1 p2 : refines_spec (change_password p1 p2).
Proof. apply keeps_requests_spec. intros P. unfold change_password. preserve_steps. Qed.

Lemma create_user_spec u p n e r d h : refines_spec (create_user u p n e r d h).
Proof. apply keeps_requests_spec. intros P. unfold create_user. preserve_steps. Qed.

Lemma logout_spec : refines_spec logout.
Proof. apply keeps_requests_spec. intros P. unfold logout. preserve_steps. Qed.

Lemma staff_add_spec cat sel qty : refines_spec (staff_add cat sel qty).
Proof. apply keeps_requests_spec. intros P. unfold staff_add. preserve_steps. Qed.

Lemma staff_submit_spec user : refines_spec (staff_submit user).
Proof. intros a0. unfold staff_submit. preserve_steps. apply process_cart_submission_spec. Qed.

Lemma role_view_spec user ev : refines_spec (role_view user ev).
Proof.
  intros a0. unfold role_view.
  repeat case_bool_decide; destruct ev; try apply preserves_ret;
    try match goal with Hr : u_role user = _ |- _ => rewrite Hr end;
    first
      [ apply (approver_approve_spec _ PendingSSHOD PendingSAC); reflexivity
      | apply (approver_approve_spec _ PendingED PendingGMD); reflexivity
      | apply (approver_approve_spec _ PendingGMD Approved); reflexivity
      | apply (approver_decline_spec "SS HOD" PendingSSHOD PendingSAC); reflexivity
      | apply (approver_decline_spec "ED" PendingED PendingGMD); reflexivity
      | apply (approver_decline_spec "GMD" PendingGMD Approved); reflexivity
      | apply staff_add_spec | apply staff_submit_spec | apply create_user_spec
      | apply hod_approve_spec | apply hod_decline_spec | apply admin_issue_spec
      | apply admin_resolve_spec | apply admin_quote_spec | apply sac_validate_spec
      | apply accounts_mark_paid_spec ].
Qed.

Lemma main_spec ev : refines_spec (main ev).
Proof.
  intros a0. unfold main. preserve_steps.
  all: first [apply login_spec | apply change_password_spec | apply logout_spec | apply role_view_spec].
Qed.
End RouterSpec.


(** ** The world refines the workflow *)

Section WorldSpec.
Context `{Platform}.

Definition run_of (w : world) (sid : nat) : run_state :=
  {| rs_db := w_db w; rs_sess := session_of w sid; rs_rng := w_rng w |}.

Lemma step_db w sid ev : w_db (fst (step w sid ev)) = rs_db (fst (main ev (run_of w sid))).
Proof. unfold step. by destruct (main ev _). Qed.

Lemma step_sessions w sid ev :
  w_sessions (fst (step w sid ev)) = <[sid := rs_sess (fst (main ev (run_of w sid)))]> (w_sessions w).
Proof. unfold step. by destruct (main ev _). Qed.

Lemma init_db_requests d : requests (init_db d) = requests d.
Proof. unfold init_db. by destruct (users d !! "super"). Qed.

Lemma world_step_spec w w' :
  keys_ok (requests (w_db w)) -> world_step w w' ->
  keys_ok (requests (w_db w')) /\ rtc spec_step (abs_status (w_db w)) (abs_status (w_db w')).
Proof.
  intros Hk [(sid & ev & ->)| ->].
  - rewrite step_db. apply (main_spec ev (abs_status (w_db w)) (run_of w sid)).
    split; [done|apply rtc_refl].
  - unfold abs_status. cbn. rewrite init_db_requests. split; [done|apply rtc_refl].
Qed.

Lemma steps_spec w ws :
  keys_ok (requests (w_db w)) -> trace_from w ws ->
  forall w', w' ∈ ws -> rtc spec_step (abs_status (w_db w)) (abs_status (w_db w')).
Proof.
  revert w. induction ws as [|w1 ws IH]; intros w Hk Htr w' Hin; [set_solver|].
  destruct Htr as [Hs Htr]. destruct (world_step_spec _ _ Hk Hs) as [Hk1 Hr1].
  apply elem_of_cons in Hin as [->|Hin]; [done|].
  etrans; [exact Hr1|by apply (IH w1)].
Qed.

Lemma reachable_spec w :
  reachable w -> keys_ok (requests (w_db w)) /\ rtc spec_step ∅ (abs_status (w_db w)).
Proof.
  induction 1 as [|w sid ev _ IH|w _ IH].
  - split; [apply map_Forall_empty|apply rtc_refl].
  - destruct IH as [Hk Hs]. destruct (world_step_spec w (fst (step w sid ev))) as [Hk' Hs']; [done|by left; eauto|].
    split; [done|by etrans].
  - destruct IH as [Hk Hs]. destruct (world_step_spec w (start (w_db w) (w_rng w))) as [Hk' Hs']; [done|by right|].
    split; [done|by etrans].
Qed.

(** C1: every reachable world refines the abstract
    workflow: the map from request id to status is reached from the empty
    map by [spec_step], that is by filing requests at "Pending Dept HOD"
    or "Pending Admin" and moving them along the edges of [route]. *)
Theorem world_refines_workflow w :
  reachable w -> rtc spec_step ∅ (abs_status (w_db w)).
Proof. intros Hw. apply (reachable_spec w Hw). Qed.

(** C2: along any run from a reachable world, a filed
    request keeps its id and its status only moves forward along the
    workflow's routes: it is reached from the earlier status by Approve,
    Decline, Issue, Resolve, Quote or Validate steps, never backwards. *)
Theorem status_along_route w ws w' rid r st :
  reachable w -> trace_from w ws -> w' ∈ ws ->
  requests (w_db w) !! rid = Some r -> r_status r = status_name st ->
  exists r' st', requests (w_db w') !! rid = Some r' /\ r_status r' = status_name st' /\
    rtc route st st'.
Proof.
  intros Hr Htr Hin Hrid Hst.
  destruct (reachable_spec w Hr) as [Hk _].
  destruct (spec_steps_route _ _ rid st (steps_spec w ws Hk Htr w' Hin)) as (st' & Hst' & Hroute).
  { unfold abs_status. rewrite lookup_fmap, Hrid. cbn. by rewrite Hst. }
  unfold abs_status in Hst'. rewrite lookup_fmap in Hst'.
  destruct (requests (w_db w') !! rid) as [r'|] eqn:Hr'; [|done].
  injection Hst' as Hst'. by exists r', st'.
Qed.

(** C13: once a request is Approved, Declined or Completed,
    no rerun of any tab and no restart changes its status again. *)
Theorem terminal_final w ws w' rid r st :
  reachable w -> trace_from w ws -> w' ∈ ws ->
  requests (w_db w) !! rid = Some r -> r_status r = status_name st -> terminal st = true ->
  status_at rid w' = Some (r_status r).
Proof.
  intros Hr Htr Hin Hrid Hst Hterm.
  destruct (status_along_route w ws w' rid r st Hr Htr Hin Hrid Hst) as (r' & st' & Hr' & Hst' & Hroute).
  unfold status_at. rewrite Hr'. cbn. f_equal. rewrite Hst', Hst.
  destruct Hroute as [|x y z Hxy]; [done|]. by rewrite (route_not_terminal _ _ Hxy) in Hterm.
Qed.

Lemma world_step_reachable w w' : reachable w -> world_step w w' -> reachable w'.
Proof. intros Hr [(sid & ev & ->)| ->]; by constructor. Qed.

(** C14: along any run from a reachable world, a
    filed request whose status is [st] changes status at most
    [6 - rank st] more times, so at most six times in all: the
    workflow terminates for every request. *)
Theorem status_changes_bounded w ws rid r st :
  reachable w -> trace_from w ws ->
  requests (w_db w) !! rid = Some r -> r_status r = status_name st ->
  (status_changes rid w ws <= 6 - rank st)%nat.
Proof.
  revert w r st. induction ws as [|w1 ws IH]; intros w r st Hr Htr Hrid Hst; cbn; [lia|].
  destruct Htr as [Hs Htr].
  destruct (status_along_route w [w1] w1 rid r st Hr (conj Hs I)) as (r1 & st1 & Hr1 & Hst1 & Hroute);
    [set_solver|done|done|].
  specialize (IH w1 r1 st1 (world_step_reachable _ _ Hr Hs) Htr Hr1 Hst1).
  pose proof (rank_le_6 st1).
  unfold status_at. rewrite Hrid, Hr1. cbn.
  case_bool_decide as Heq.
  - destruct (rtc_route_rank _ _ Hroute) as [->|]; lia.
  - destruct (rtc_route_rank _ _ Hroute) as [->|]; [congruence|lia].
Qed.
End WorldSpec.

(** ** A run of the whole system *)

Section Scenario.
Context `{Platform}.

(** Rerun the tabs on the events in order. *)
Fixpoint run_events (w : world) (evs : list (nat * event)) : world :=
  match evs with
  | [] => w
  | (sid, ev) :: evs' => run_events (fst (step w sid ev)) evs'
  end.

(** The worlds a run of [evs] passes through. *)
Fixpoint trace_of (w : world) (evs : list (nat * event)) : list world :=
  match evs with
  | [] => []
  | (sid, ev) :: evs' => fst (step w sid ev) :: trace_of (fst (step w sid ev)) evs'
  end.

Lemma run_events_reachable w evs : reachable w -> reachable (run_events w evs).
Proof.
  revert w. induction evs as [|[sid ev] evs IH]; intros w Hr; [done|].
  apply IH. by constructor.
Qed.

Lemma trace_of_trace w evs : trace_from w (trace_of w evs).
Proof.
  revert w. induction evs as [|[sid ev] evs IH]; intros w; [done|].
  split; [left; eauto|apply IH].
Qed.

Lemma run_events_in_trace w evs : evs <> [] -> run_events w evs ∈ trace_of w evs.
Proof.
  revert w. induction evs as [|[sid ev] evs IH]; intros w Hne; [done|].
  destruct evs as [|e evs']; cbn; [set_solver|].
  apply elem_of_cons. right. by apply IH.
Qed.
End Scenario.

(** The superuser creates a staff member and an admin; the staff member
    changes the temporary password and orders three Biros. *)
Definition demo_submit : list (nat * event) :=
  [(0, ELogin "super" "123");
   (0, ECreateUser "Ada" "t1" "Ada" "ada@co.com" "Staff" "Ops" "hod@co.com");
   (0, ECreateUser "Adm" "t2" "Adm" "adm@co.com" "Admin" "Ops" "");
   (1, ELogin "ada" "t1"); (1, EChangePassword "pw" "pw");
   (1, EAdd "Stationary" "Biro" 3); (1, ESubmit)].

(** The admin logs in, changes the temporary password and issues it. *)
Definition demo_issue : list (nat * event) :=
  [(2, ELogin "adm" "t2"); (2, EChangePassword "pw2" "pw2"); (2, EAdminIssue "0badcafe")].

Definition demo_world_submitted : world :=
  @run_events demo_platform (@start demo_platform empty_db 0) demo_submit.

Definition demo_world_issued : world :=
  @run_events demo_platform demo_world_submitted demo_issue.

Lemma demo_submitted_reachable : @reachable demo_platform demo_world_submitted.
Proof. apply run_events_reachable, reach_init. Qed.

Lemma demo_issued_reachable : @reachable demo_platform demo_world_issued.
Proof. apply run_events_reachable, demo_submitted_reachable. Qed.

Example demo_request_filed :
  status_at "0badcafe" demo_world_submitted = Some "Pending Admin" /\
  status_at "0badcafe" demo_world_issued = Some "Completed (Fulfilled)".
Proof. split; vm_compute; reflexivity. Qed.

(** The staff member logs out and the admin clicks Issue once more. *)
Definition demo_after : list (nat * event) := [(1, ELogout); (2, EAdminIssue "0badcafe")].

Definition demo_row (w : world) (rid : string) : request_row :=
  default (demo_request "" "" 0) (requests (w_db w) !! rid).

Lemma status_along_route_witness :
  exists r' st', requests (w_db demo_world_issued) !! "0badcafe" = Some r' /\
    r_status r' = status_name st' /\ rtc route PendingAdmin st'.
Proof.
  apply (status_along_route (H := demo_platform) demo_world_submitted
           (@trace_of demo_platform demo_world_submitted demo_issue) demo_world_issued "0badcafe"
           (demo_row demo_world_submitted "0badcafe") PendingAdmin).
  - apply demo_submitted_reachable.
  - apply trace_of_trace.
  - by apply run_events_in_trace.
  - vm_compute. reflexivity.
  - vm_compute. reflexivity.
Defined.

Lemma terminal_final_witness :
  status_at "0badcafe" (@run_events demo_platform demo_world_issued demo_after) =
    Some (r_status (demo_row demo_world_issued "0badcafe")).
Proof.
  apply (terminal_final (H := demo_platform) demo_world_issued
           (@trace_of demo_platform demo_world_issued demo_after) _ "0badcafe"
           (demo_row demo_world_issued "0badcafe") CompletedFulfilled).
  - apply demo_issued_reachable.
  - apply trace_of_trace.
  - by apply run_events_in_trace.
  - vm_compute. reflexivity.
  - vm_compute. reflexivity.
  - reflexivity.
Defined.

Lemma status_changes_bounded_witness :
  (status_changes "0badcafe" demo_world_submitted
     (@trace_of demo_platform demo_world_submitted (demo_issue ++ demo_after)) <= 6 - rank PendingAdmin)%nat.
Proof.
  apply (status_changes_bounded (H := demo_platform) demo_world_submitted _ "0badcafe"
           (demo_row demo_world_submitted "0badcafe")).
  - apply demo_submitted_reachable.
  - apply trace_of_trace.
  - vm_compute. reflexivity.
  - vm_compute. reflexivity.
Defined.

Lemma world_refines_workflow_witness :
  rtc spec_step ∅ (abs_status (w_db demo_world_issued)).
Proof. apply (world_refines_workflow (H := demo_platform)), demo_issued_reachable. Defined.
