(* ===== verification/Safety.v ===== *)
(** * Safety: the invariant of every reachable world

    What holds of the database and of every tab after any sequence of
    reruns and restarts: primary keys match their rows; every request's
    status is one of the workflow's; stationary requests never leave the
    Admin's desk except as fulfilled; a request past the Admin's quote has
    a vendor, a positive initial cost and an invoice, and its amount is the
    initial cost until the SAC has reviewed it; every payment
    belongs to an Approved request with its amount and vendor, and no
    request has two; the superuser's row is the one [init_db] wrote;
    every request is in the rowid order the dashboards scan; a request
    past the SS HOD has an invoice that decodes; and a logged-in tab's
    user exists with the profile it cached.  The consequences: [main]
    never raises TypeError or KeyError, the superuser can always log in
    with the default password, the Accounts page never fails on an
    invoice, and Accounts is paid what the GMD approved. *)

From S2P Require Import Prelude Schema Workflow Cart Auth App.

(** ** The invariant *)

(** The statuses at which the Admin's quote has been recorded. *)
Definition quoted (st : string) : bool :=
  bool_decide (st ∈ ["Pending SS HOD"; "Pending SAC"; "Pending ED"; "Pending GMD"; "Approved"]).

(** The statuses reached once the SAC has reviewed the cost (or the
    request was declined): before them the amount is the initial cost. *)
Definition sac_done (st : string) : bool :=
  bool_decide (st ∈ ["Pending ED"; "Pending GMD"; "Approved"; "Declined"]).

Definition req_wf (r : request_row) : Prop :=
  is_Some (status_of_name (r_status r)) /\
  (r_category r = "Stationary" ->
     r_status r = "Pending Admin" \/ r_status r = "Completed (Fulfilled)") /\
  (quoted (r_status r) = true ->
     (0 < r_initial_cost r)%Q /\ r_vendor r <> "" /\ is_Some (r_invoice_img r)) /\
  (sac_done (r_status r) = false -> r_amount r = r_initial_cost r).

(** Every payment is owed for an Approved request, for its amount and
    to its vendor. *)
Definition payments_ok (d : db) : Prop :=
  forall pid p, payments d !! pid = Some p ->
    (p_status p = ready_for_accounts \/ p_status p = paid) /\
    exists r, requests d !! p_req_id p = Some r /\ r_status r = "Approved" /\
      p_amount p = r_amount r /\ p_vendor p = r_vendor r.

Definition payments_unique (d : db) : Prop :=
  forall k1 k2 p1 p2, payments d !! k1 = Some p1 -> payments d !! k2 = Some p2 ->
    p_req_id p1 = p_req_id p2 -> k1 = k2.

(** The statuses whose dashboard has drawn the request's invoice: the
    SS HOD's, the SAC's, the ED's and the GMD's. *)
Definition shown (st : string) : bool :=
  bool_decide (st ∈ ["Pending SAC"; "Pending ED"; "Pending GMD"; "Approved"]).

(** Every request is in the rowid order the SELECTs scan. *)
Definition order_ok (d : db) : Prop :=
  forall k, is_Some (requests d !! k) -> k ∈ req_order d.

(** A request a dashboard has moved past the SS HOD has an invoice PIL
    decodes. *)
Definition images_inv `{Platform} (d : db) : Prop :=
  map_Forall (fun _ r => shown (r_status r) = true -> invoice_ok (r_invoice_img r) = true) (requests d).

Definition db_inv `{Platform} (d : db) : Prop :=
  keys_ok (requests d) /\
  map_Forall (fun k p => p_payment_id p = k) (payments d) /\
  map_Forall (fun k u => u_username u = k) (users d) /\
  map_Forall (fun _ r => req_wf r) (requests d) /\
  payments_ok d /\ payments_unique d /\
  users d !! "super" = Some super_row /\
  order_ok d /\ images_inv d.

(** The fields of a user that no statement of the program changes. *)
Definition same_profile (u u' : user_row) : Prop :=
  u_username u = u_username u' /\ u_role u = u_role u' /\ u_name u = u_name u' /\
  u_email u = u_email u' /\ u_dept u = u_dept u' /\ u_hod_email u = u_hod_email u'.

(** A logged-in tab's user exists, with the profile the tab cached. *)
Definition sess_ok (d : db) (ss : session) : Prop :=
  logged_in ss = true ->
  exists u u', users d !! current_user_key ss = Some u /\ user_data ss = Some u' /\
    same_profile u u'.

Definition world_inv `{Platform} (w : world) : Prop :=
  db_inv (w_db w) /\ map_Forall (fun _ ss => sess_ok (w_db w) ss) (w_sessions w).

(** ** Lemmas on rows *)

Lemma req_wf_set_status st r :
  req_wf r -> is_Some (status_of_name st) ->
  (r_category r = "Stationary" -> st = "Pending Admin" \/ st = "Completed (Fulfilled)") ->
  (quoted st = true -> quoted (r_status r) = true) ->
  (sac_done st = false -> sac_done (r_status r) = false) ->
  req_wf (set_status st r).
Proof.
  intros (_ & _ & Hq & Ha) Hst Hcat Hquoted Hamt. unfold req_wf. cbn.
  split_and!; [done|done|intros ?; by apply Hq, Hquoted|intros ?; by apply Ha, Hamt].
Qed.

(** A pending request past the Admin is not a stationary one. *)
Lemma req_wf_not_stationary r :
  req_wf r -> r_status r <> "Pending Admin" -> r_status r <> "Completed (Fulfilled)" ->
  r_category r <> "Stationary".
Proof. intros (_ & Hs & _) H1 H2 Hc. destruct (Hs Hc); contradiction. Qed.

Section DbInv.
Context `{Platform}.

(** An UPDATE of a request that is not Approved keeps the invariant
    when the new row is well formed and keeps its id. *)
Lemma db_inv_update d k f r :
  db_inv d -> requests d !! k = Some r -> r_id (f r) = r_id r -> req_wf (f r) ->
  (shown (r_status (f r)) = true -> invoice_ok (r_invoice_img (f r)) = true) ->
  r_status r <> "Approved" -> db_inv (sql_update_request k f d).
Proof.
  intros (Hk & Hpk & Huk & Hwf & Hpay & Huniq & Hsuper & Hord & Himg) Hr Hid Hwf' Hsh Hna.
  assert (Hrk : r_id r = k) by apply (map_Forall_lookup_1 _ _ _ _ Hk Hr).
  assert (Halt : requests (sql_update_request k f d) = <[k := f r]> (requests d)).
  { cbn. apply map_eq. intros j. rewrite lookup_alter.
    destruct (decide (k = j)) as [<-|Hne]; [by rewrite lookup_insert_eq, Hr|by rewrite lookup_insert_ne]. }
  unfold db_inv, payments_ok, payments_unique, order_ok, images_inv. rewrite Halt.
  cbn [payments users req_order set_requests].
  split_and!; try done.
  - apply map_Forall_insert_2; [by rewrite Hid|done].
  - by apply map_Forall_insert_2.
  - intros pid p Hp. destruct (Hpay pid p Hp) as [Hst (r0 & Hr0 & Happ & Hamt & Hv)].
    split; [done|]. exists r0. rewrite lookup_insert_ne; [done|].
    intros Heq. subst k. congruence.
  - intros j Hj. apply Hord. destruct (decide (k = j)) as [<-|Hne]; [by rewrite Hr|].
    by rewrite lookup_insert_ne in Hj.
  - by apply map_Forall_insert_2.
Qed.

Lemma db_inv_req_wf d k r : db_inv d -> requests d !! k = Some r -> req_wf r.
Proof. intros (_ & _ & _ & Hwf & _). exact (map_Forall_lookup_1 _ _ _ _ Hwf). Qed.

(** A status UPDATE from [st0] to [st] keeps the invariant when the new
    status is a workflow status, keeps stationary requests at the Admin,
    is quoted only after a quote, and reaches the SS HOD or SAC only
    from there. *)
Lemma db_inv_set_status d r st0 st :
  db_inv d -> requests d !! r_id r = Some r -> r_status r = st0 -> st0 <> "Approved" ->
  is_Some (status_of_name st) ->
  (r_category r = "Stationary" -> st0 = "Pending Admin" \/ st0 = "Completed (Fulfilled)" ->
     st = "Pending Admin" \/ st = "Completed (Fulfilled)") ->
  (quoted st = true -> quoted st0 = true) ->
  (sac_done st = false -> sac_done st0 = false) ->
  (shown st = true -> invoice_ok (r_invoice_img r) = true) ->
  db_inv (sql_update_request (r_id r) (set_status st) d).
Proof.
  intros Hd Hr <- Hna Hst Hcat Hq Ha Hsh.
  pose proof (db_inv_req_wf _ _ _ Hd Hr) as Hwf.
  apply (db_inv_update _ _ _ r); [done..| |done|done].
  apply req_wf_set_status; [done|done| |done|done].
  intros Hc. apply Hcat; [done|]. by apply Hwf.
Qed.

(** A new row, at a status no dashboard past the Admin lists, gets the
    next rowid. *)
Lemma db_inv_insert_request d r :
  db_inv d -> requests d !! r_id r = None -> req_wf r -> shown (r_status r) = false ->
  db_inv (append_order (r_id r) (set_requests (<[r_id r := r]>) d)).
Proof.
  intros (Hk & Hpk & Huk & Hwf & Hpay & Huniq & Hsuper & Hord & Himg) Hfree Hwf' Hsh.
  unfold db_inv, payments_ok, payments_unique, order_ok, images_inv.
  cbn [payments users requests req_order set_requests append_order].
  split_and!; try done.
  - by apply map_Forall_insert_2.
  - by apply map_Forall_insert_2.
  - intros pid p Hp. destruct (Hpay pid p Hp) as [Hst (r0 & Hr0 & Hrest)].
    split; [done|]. exists r0. rewrite lookup_insert_ne; [done|].
    intros Heq. rewrite Heq in Hfree. congruence.
  - intros j Hj. apply elem_of_app. destruct (decide (r_id r = j)) as [<-|Hne]; [by right; left|].
    left. apply Hord. by rewrite lookup_insert_ne in Hj.
  - apply map_Forall_insert_2; [|done]. by rewrite Hsh.
Qed.

(** The GMD's INSERT: a payment for the request just approved, which
    had none while it was pending. *)
Lemma db_inv_insert_payment d r pid :
  db_inv d -> requests d !! r_id r = Some r -> r_status r = "Approved" ->
  (forall k p, payments d !! k = Some p -> p_req_id p <> r_id r) ->
  payments d !! pid = None ->
  db_inv (set_payments (<[pid := {| p_payment_id := pid; p_req_id := r_id r; p_amount := r_amount r;
                                    p_status := ready_for_accounts; p_vendor := r_vendor r |}]>) d).
Proof.
  intros (Hk & Hpk & Huk & Hwf & Hpay & Huniq & Hsuper & Hord & Himg) Hr Happ Hnone Hfree.
  unfold db_inv, payments_ok, payments_unique. cbn [payments users requests set_payments].
  split_and!; try done.
  - by apply map_Forall_insert_2.
  - intros k p. rewrite lookup_insert_Some. intros [[<- <-]|[_ Hp]]; [|exact (Hpay k p Hp)].
    split; [by left|]. by exists r.
  - intros k1 k2 p1 p2. rewrite !lookup_insert_Some.
    intros [[<- <-]|[Hne1 Hp1]] [[<- <-]|[Hne2 Hp2]]; cbn; intros Heq.
    + done.
    + by destruct (Hnone _ _ Hp2).
    + by destruct (Hnone _ _ Hp1).
    + by apply (Huniq _ _ _ _ Hp1 Hp2).
Qed.

(** A pending request has no payment yet. *)
Lemma db_inv_no_payment d r :
  db_inv d -> requests d !! r_id r = Some r -> r_status r <> "Approved" ->
  forall k p, payments d !! k = Some p -> p_req_id p <> r_id r.
Proof.
  intros (_ & _ & _ & _ & Hpay & _) Hr Hna k p Hp Heq.
  destruct (Hpay k p Hp) as [_ (r0 & Hr0 & Happ & _)]. rewrite Heq in Hr0. congruence.
Qed.

(** When the invoices drawn up to row [rid] decode, so does the one of
    the request listed under [rid]. *)
Lemma rendered_row d st rid r :
  db_inv d -> pending_with st d rid = Some r -> first_bad (upto rid (listed st d)) = None ->
  invoice_ok (r_invoice_img r) = true.
Proof.
  intros (Hk & _ & _ & _ & _ & _ & _ & Hord & _) Hp Hb.
  apply (images_ok_elem (upto rid (listed st d))); [by apply images_ok_first_bad|].
  apply upto_omap; [done| |done]. apply Hord. apply pending_with_Some in Hp as [Hr _]. by eexists.
Qed.

Lemma payments_mark_paid_lookup d pid k p :
  payments (sql_update_payment pid (set_pay_status paid) d) !! k = Some p ->
  exists p0, payments d !! k = Some p0 /\ (p = p0 \/ p = set_pay_status paid p0).
Proof.
  cbn. rewrite lookup_alter_Some.
  intros [[_ (p0 & Hp0 & ->)]|[_ Hp]]; [exists p0; by auto|exists p; by auto].
Qed.

(** [Mark Paid]: only the payment's status changes. *)
Lemma db_inv_mark_paid d pid :
  db_inv d -> db_inv (sql_update_payment pid (set_pay_status paid) d).
Proof.
  intros (Hk & Hpk & Huk & Hwf & Hpay & Huniq & Hsuper & Hord & Himg).
  unfold db_inv, payments_ok, payments_unique.
  split_and!; try done.
  - intros k p (p0 & Hp0 & [->| ->])%payments_mark_paid_lookup; exact (Hpk k p0 Hp0).
  - intros k p (p0 & Hp0 & Hp)%payments_mark_paid_lookup.
    destruct (Hpay k p0 Hp0) as [Hst Hr]. destruct Hp as [->| ->]; [done|by split; [right|]].
  - intros k1 k2 p1 p2 (q1 & Hq1 & Hp1)%payments_mark_paid_lookup
      (q2 & Hq2 & Hp2)%payments_mark_paid_lookup Heq.
    apply (Huniq _ _ _ _ Hq1 Hq2). by destruct Hp1 as [->| ->], Hp2 as [->| ->].
Qed.
End DbInv.

(** ** The invariant of one run *)

#[export] Instance same_profile_equiv : Equivalence same_profile.
Proof. unfold same_profile. split; red; intros; intuition congruence. Qed.

(** Every user of [d] is still a user of [d'], with the same profile:
    rows are never deleted and only their password and flag change. *)
Definition users_ext (d d' : db) : Prop :=
  forall k u, users d !! k = Some u -> exists u', users d' !! k = Some u' /\ same_profile u u'.

(** The state of a run started on [d0]. *)
Definition rinv `{Platform} (d0 : db) (s : run_state) : Prop :=
  db_inv (rs_db s) /\ sess_ok (rs_db s) (rs_sess s) /\ users_ext d0 (rs_db s).

Definition safe `{Platform} {A} (m : App A) : Prop := forall d0, preserves (rinv d0) m.

Create HintDb safety discriminated.

Lemma users_ext_refl d : users_ext d d.
Proof. intros k u Hu. exists u. split; [done|reflexivity]. Qed.

Lemma users_ext_same d d' : users d' = users d -> users_ext d d'.
Proof. intros Hu k u Hk. exists u. rewrite Hu. split; [done|reflexivity]. Qed.

Lemma users_ext_trans d1 d2 d3 : users_ext d1 d2 -> users_ext d2 d3 -> users_ext d1 d3.
Proof.
  intros H12 H23 k u Hu. destruct (H12 k u Hu) as (u2 & Hu2 & Hp2).
  destruct (H23 k u2 Hu2) as (u3 & Hu3 & Hp3). exists u3. split; [done|by etrans].
Qed.

(** A tab logged in on [d] is still good on a [d'] that keeps its users. *)
Lemma sess_ok_ext d d' ss : users_ext d d' -> sess_ok d ss -> sess_ok d' ss.
Proof.
  intros Hext Hs Hl. destruct (Hs Hl) as (u & u' & Hu & Hu' & Hp).
  destruct (Hext _ _ Hu) as (u2 & Hu2 & Hp2). exists u2, u'. split_and!; [done|done|].
  by rewrite <-Hp2.
Qed.

Section RunInv.
Context `{Platform}.
Implicit Types (s : run_state).

Lemma rinv_keys d0 s : rinv d0 s -> req_keys_ok (rs_db s).
Proof. intros ((Hk & _) & _). exact Hk. Qed.

(** A statement that keeps every user, with its profile, and leaves the
    tab logged in on a user it has. *)
Lemma rinv_intro d0 s d' ss n :
  rinv d0 s -> db_inv d' -> users_ext (rs_db s) d' -> sess_ok d' ss ->
  rinv d0 {| rs_db := d'; rs_sess := ss; rs_rng := n |}.
Proof. intros (_ & _ & Hext) Hd Hext' Hss. split_and!; [done|done|by eapply users_ext_trans]. Qed.

(** A statement that leaves the users alone keeps the tab and the users. *)
Lemma rinv_same_users d0 s d' ss n :
  rinv d0 s -> db_inv d' -> users d' = users (rs_db s) -> ss = rs_sess s ->
  rinv d0 {| rs_db := d'; rs_sess := ss; rs_rng := n |}.
Proof.
  intros (_ & Hs & Hext) Hd Hu ->. unfold rinv, sess_ok, users_ext in *. cbn. by rewrite Hu.
Qed.

Lemma rinv_sess d0 s ss' n :
  rinv d0 s -> sess_ok (rs_db s) ss' -> rinv d0 {| rs_db := rs_db s; rs_sess := ss'; rs_rng := n |}.
Proof. by intros (Hd & _ & Hext) Hs. Qed.

Lemma safe_read_db d0 : preserves (rinv d0) read_db.
Proof. by intros s. Qed.

Lemma safe_read_sess d0 : preserves (rinv d0) read_sess.
Proof. by intros s. Qed.

Lemma safe_new_id d0 : preserves (rinv d0) new_id.
Proof. by intros s. Qed.

Lemma safe_log_action d0 user action details : preserves (rinv d0) (log_action user action details).
Proof. intros s Hs. by apply (rinv_same_users _ s); [|apply Hs|..]. Qed.

(** [set_cart], [log_out] and [clear_reset]: the tab keeps or drops its
    login and keeps its user's profile. *)
Lemma safe_modify_sess d0 f :
  (forall d ss, sess_ok d ss -> sess_ok d (f ss)) -> preserves (rinv d0) (modify_sess f).
Proof. intros Hf s Hs. apply (rinv_sess _ s); [done|]. apply Hf, Hs. Qed.

Lemma safe_insert_request d0 r :
  req_wf r -> shown (r_status r) = false -> preserves (rinv d0) (run_db (sql_insert_request r)).
Proof.
  intros Hwf Hsh s Hs. unfold run_db, sql_insert_request, insert_row.
  destruct (requests (rs_db s) !! r_id r) eqn:Hfree; [done|]. cbn.
  apply (rinv_same_users _ s); [done| |done|done].
  by apply db_inv_insert_request; [apply Hs|..].
Qed.

Lemma safe_update_payment_paid d0 pid :
  preserves (rinv d0) (modify_db (sql_update_payment pid (set_pay_status paid))).
Proof.
  intros s Hs. apply (rinv_same_users _ s); [done| |done|done]. apply db_inv_mark_paid, Hs.
Qed.
End RunInv.

#[export] Hint Resolve safe_read_db safe_read_sess safe_new_id safe_log_action
  safe_update_payment_paid : safety.

(** Closes the side conditions of [db_inv_set_status] on literal
    statuses. *)
Ltac status_obligation :=
  first
    [ done
    | by eexists
    | (intros ?; vm_compute; reflexivity)
    | (let Hq := fresh in intros Hq; vm_compute in Hq; discriminate Hq)
    | (intros _ _; by (left + right))
    | (intros ? ?; contradiction)
    | (let Hq := fresh in intros _ [Hq|Hq]; discriminate Hq)
    | (let Hq := fresh in intros [Hq|Hq]; discriminate Hq)
    | (intros _; by (left + right))
    | (intros _; assumption) ].

Lemma sql_insert_payment_inr p d d' :
  sql_insert_payment p d = inr d' ->
  payments d !! p_payment_id p = None /\ d' = set_payments (<[p_payment_id p := p]>) d.
Proof. unfold sql_insert_payment, insert_row. destruct (payments d !! _); naive_solver. Qed.

Section Dashboards.
Context `{Platform}.

(** A status UPDATE of a listed row, as [db_inv_set_status] on a run. *)
Lemma rinv_set_status d0 s r st0 st :
  rinv d0 s -> requests (rs_db s) !! r_id r = Some r -> r_status r = st0 -> st0 <> "Approved" ->
  is_Some (status_of_name st) ->
  (r_category r = "Stationary" -> st0 = "Pending Admin" \/ st0 = "Completed (Fulfilled)" ->
     st = "Pending Admin" \/ st = "Completed (Fulfilled)") ->
  (quoted st = true -> quoted st0 = true) ->
  (sac_done st = false -> sac_done st0 = false) ->
  (shown st = true -> invoice_ok (r_invoice_img r) = true) ->
  rinv d0 {| rs_db := sql_update_request (r_id r) (set_status st) (rs_db s);
             rs_sess := rs_sess s; rs_rng := rs_rng s |}.
Proof.
  intros Hs Hr Hst0 Hna Hst Hcat Hq Ha Hsh. apply (rinv_same_users _ s); [done| |done|done].
  by apply (db_inv_set_status _ r st0); [apply Hs|..].
Qed.

Lemma admin_issue_safe rid : safe (admin_issue rid).
Proof.
  intros d0 s Hs. unfold admin_issue. run_app.
  destruct (pending_with _ _ rid) as [r|] eqn:Hp; [|done].
  case_bool_decide; [|done]. run_app.
  apply pending_row_key in Hp as [Hr Hst]; [|by eapply rinv_keys].
  apply (rinv_set_status _ _ r "Pending Admin"); try done; status_obligation.
Qed.

Lemma admin_resolve_safe rid : safe (admin_resolve rid).
Proof.
  intros d0 s Hs. unfold admin_resolve. run_app.
  destruct (pending_with _ _ rid) as [r|] eqn:Hp; [|done].
  case_bool_decide; [done|]. case_bool_decide; [|done]. run_app.
  apply pending_row_key in Hp as [Hr Hst]; [|by eapply rinv_keys].
  apply (rinv_set_status _ _ r "Pending Admin"); try done; status_obligation.
Qed.

Lemma admin_quote_safe rid v c img : safe (admin_quote rid v c img).
Proof.
  intros d0 s Hs. unfold admin_quote. run_app.
  destruct (pending_with _ _ rid) as [r|] eqn:Hp; [|done].
  case_bool_decide as Hc; [done|]. destruct img as [ib|]; [|done].
  destruct (truthy v && _) eqn:Hvc; run_app; [|done].
  apply andb_true_iff in Hvc as [Hv%truthy_true Hpos%bool_decide_eq_true].
  apply pending_row_key in Hp as [Hr Hst]; [|by eapply rinv_keys].
  apply (rinv_same_users _ s); [done| |done|done].
  apply (db_inv_update _ _ _ r); [apply Hs|done|done| |status_obligation|by rewrite Hst].
  split_and!; cbn; [by eexists|by intros ?|intros _; split_and!; [done|done|by eexists]|by intros _].
Qed.

Lemma approver_approve_safe role t n rid :
  approver_config role = Some (t, n) -> safe (approver_approve role (status_name t) (status_name n) rid).
Proof.
  intros Hc d0 s Hs. unfold approver_approve. run_app. render_case; [done|].
  destruct (pending_with _ _ rid) as [r|] eqn:Hp; [|done].
  pose proof (rendered_row _ _ _ _ (proj1 Hs) Hp Hrender) as Hinv.
  apply pending_row_key in Hp as [Hr Hst]; [|by eapply rinv_keys].
  unfold approver_config in Hc. repeat case_bool_decide; simplify_eq; run_app.
  1,2: by eapply (rinv_set_status _ _ r); [done|done|exact Hst|..]; status_obligation.
  assert (Hu : rinv d0 {| rs_db := sql_update_request (r_id r) (set_status "Approved") (rs_db s);
                          rs_sess := rs_sess s; rs_rng := rs_rng s |})
    by (apply (rinv_set_status _ _ r "Pending GMD"); try done; status_obligation).
  unfold st_bind, run_db. destruct (sql_insert_payment _ _) as [e|d'] eqn:Hi; cbn; [done|].
  apply sql_insert_payment_inr in Hi as [Hfree ->]. cbn in Hfree.
  apply (rinv_same_users _ s); [done| |done|done].
  apply (db_inv_insert_payment _ (set_status "Approved" r)); [exact (proj1 Hu)| |done| |exact Hfree].
  - cbn. by rewrite lookup_alter_eq, Hr.
  - apply (db_inv_no_payment (rs_db s) r); [exact (proj1 Hs)|done|by rewrite Hst].
Qed.

Lemma approver_decline_safe role t n rid :
  approver_config role = Some (t, n) -> safe (approver_decline (status_name t) rid).
Proof.
  intros Hc d0 s Hs. unfold approver_decline. run_app. try (render_case; [done|]).
  destruct (pending_with _ _ rid) as [r|] eqn:Hp; [|done]. run_app.
  apply pending_row_key in Hp as [Hr Hst]; [|by eapply rinv_keys].
  unfold approver_config in Hc. repeat case_bool_decide; simplify_eq.
  all: by eapply (rinv_set_status _ _ r); [done|done|exact Hst|..]; status_obligation.
Qed.

Lemma sac_validate_safe rid cost note : safe (sac_validate rid cost note).
Proof.
  intros d0 s Hs. unfold sac_validate. run_app. render_case; [done|].
  destruct (pending_with _ _ rid) as [r|] eqn:Hp; [|done]. run_app.
  pose proof (rendered_row _ _ _ _ (proj1 Hs) Hp Hrender) as Hinv.
  apply pending_row_key in Hp as [Hr Hst]; [|by eapply rinv_keys].
  pose proof (db_inv_req_wf _ _ _ (proj1 Hs) Hr) as (_ & Hcat & Hq & _).
  apply (rinv_same_users _ s); [done| |done|done].
  apply (db_inv_update _ _ _ r); [apply Hs|done|done| |intros _; exact Hinv|by rewrite Hst].
  split_and!; cbn; [by eexists| |intros _; apply Hq; by rewrite Hst|status_obligation].
  intros Hs'. destruct (Hcat Hs'); congruence.
Qed.

Lemma hod_approve_safe email rid : safe (hod_approve email rid).
Proof.
  intros d0 s Hs. unfold hod_approve. run_app.
  destruct (hod_row _ _ rid) as [r|] eqn:Hp; [|done]. run_app.
  apply hod_row_Some in Hp as [Hp _].
  apply pending_row_key in Hp as [Hr Hst]; [|by eapply rinv_keys].
  by apply (rinv_set_status _ _ r "Pending Dept HOD"); try done; status_obligation.
Qed.

Lemma hod_decline_safe email rid : safe (hod_decline email rid).
Proof.
  intros d0 s Hs. unfold hod_decline. run_app.
  destruct (hod_row _ _ rid) as [r|] eqn:Hp; [|done]. run_app.
  apply hod_row_Some in Hp as [Hp _].
  apply pending_row_key in Hp as [Hr Hst]; [|by eapply rinv_keys].
  by apply (rinv_set_status _ _ r "Pending Dept HOD"); try done; status_obligation.
Qed.

Lemma accounts_mark_paid_safe pid : safe (accounts_mark_paid pid).
Proof. intros d0. unfold accounts_mark_paid. preserve_steps; eauto with safety. Qed.
End Dashboards.

(** ** The handlers of the staff portal, the login and the superuser *)

Lemma same_profile_set_password h u : same_profile u (set_password h u).
Proof. by repeat split. Qed.

Lemma same_profile_clear_reset u : same_profile u (clear_reset u).
Proof. by repeat split. Qed.

Lemma users_ext_insert d u :
  users d !! u_username u = None -> users_ext d (set_users (<[u_username u := u]>) d).
Proof.
  intros Hfree k u0 Hu0. exists u0. split; [|reflexivity]. cbn.
  rewrite lookup_insert_ne; [done|]. intros Heq. subst k. congruence.
Qed.

Lemma users_ext_update d k f : (forall u, same_profile u (f u)) -> users_ext d (sql_update_user k f d).
Proof.
  intros Hf k' u Hu. cbn. destruct (decide (k = k')) as [<-|Hne].
  - exists (f u). by rewrite lookup_alter_eq, Hu.
  - exists u. split; [by rewrite lookup_alter_ne|reflexivity].
Qed.

Lemma db_inv_insert_user `{Platform} d u :
  db_inv d -> users d !! u_username u = None -> db_inv (set_users (<[u_username u := u]>) d).
Proof.
  intros (Hk & Hpk & Huk & Hwf & Hpay & Huniq & Hsuper & Hord & Himg) Hfree.
  unfold db_inv. cbn [users requests payments set_users]. split_and!; try done.
  - by apply map_Forall_insert_2.
  - rewrite lookup_insert_ne; [done|]. intros Heq. rewrite Heq in Hfree. congruence.
Qed.

(** The password UPDATE of any user but the superuser. *)
Lemma db_inv_update_user `{Platform} d k f :
  db_inv d -> k <> "super" -> (forall u, u_username (f u) = u_username u) ->
  db_inv (sql_update_user k f d).
Proof.
  intros (Hk & Hpk & Huk & Hwf & Hpay & Huniq & Hsuper & Hord & Himg) Hns Hf.
  unfold db_inv. cbn [users requests payments set_users sql_update_user]. split_and!; try done.
  - intros k' u. rewrite lookup_alter_Some. intros [[<- (u0 & Hu0 & ->)]|[_ Hu]].
    + rewrite Hf. exact (Huk k u0 Hu0).
    + exact (Huk k' u Hu).
  - by rewrite lookup_alter_ne.
Qed.

Lemma req_wf_new_request `{Platform} u rid cat item st v :
  st = "Pending Admin" \/ (st = "Pending Dept HOD" /\ cat <> "Stationary") ->
  req_wf (new_request u rid cat item st v).
Proof.
  intros [->|[-> Hc]]; unfold req_wf; cbn; split_and!; status_obligation.
Qed.

Lemma sess_ok_set_cart d c ss : sess_ok d ss -> sess_ok d (set_cart c ss).
Proof. done. Qed.

Lemma sess_ok_log_out d ss : sess_ok d (log_out ss).
Proof. by intros Hl. Qed.

Section Handlers.
Context `{Platform}.

Lemma safe_insert_user d0 u : preserves (rinv d0) (run_db (sql_insert_user u)).
Proof.
  intros s Hs. unfold run_db, sql_insert_user, insert_row.
  destruct (users (rs_db s) !! u_username u) eqn:Hfree; [done|]. cbn.
  pose proof (users_ext_insert _ _ Hfree) as Hext.
  apply (rinv_intro _ s); [done| |done|].
  - apply db_inv_insert_user; [apply Hs|done].
  - apply (sess_ok_ext (rs_db s)); [done|apply Hs].
Qed.

(** A submission files its row at Pending Admin or Pending Dept HOD. *)
Lemma safe_insert_new_request d0 u rid cat item st v :
  st = "Pending Admin" \/ (st = "Pending Dept HOD" /\ cat <> "Stationary") ->
  preserves (rinv d0) (run_db (sql_insert_request (new_request u rid cat item st v))).
Proof.
  intros Hst. apply safe_insert_request; [by apply req_wf_new_request|].
  by destruct Hst as [->|[-> _]].
Qed.

Lemma submit_stationary_safe u l : safe (submit_stationary u l).
Proof.
  intros d0. unfold submit_stationary. preserve_steps; eauto with safety.
  apply safe_insert_new_request. by left.
Qed.

Lemma submit_other_safe u i : safe (submit_other u i).
Proof.
  intros d0. unfold submit_other. preserve_steps; eauto with safety.
  apply safe_insert_new_request. unfold route_status.
  case_bool_decide; [by left|]. destruct (_ && _); [by left|by right].
Qed.

Lemma process_cart_submission_safe u : safe (process_cart_submission u).
Proof.
  intros d0. unfold process_cart_submission. preserve_steps; eauto with safety.
  all: first [ apply submit_stationary_safe | apply safe_modify_sess, sess_ok_set_cart
             | apply preserves_iter; intros i _; apply submit_other_safe ].
Qed.

Lemma staff_add_safe cat sel qty : safe (staff_add cat sel qty).
Proof.
  intros d0. unfold staff_add. preserve_steps; eauto with safety.
  all: apply safe_modify_sess, sess_ok_set_cart.
Qed.

Lemma staff_submit_safe user : safe (staff_submit user).
Proof.
  intros d0. unfold staff_submit. preserve_steps; eauto with safety.
  apply process_cart_submission_safe.
Qed.

Lemma logout_safe : safe logout.
Proof.
  intros d0. unfold logout. preserve_steps. apply safe_modify_sess. intros. apply sess_ok_log_out.
Qed.

Lemma create_user_safe u p n e r d h : safe (create_user u p n e r d h).
Proof. intros d0. unfold create_user. preserve_steps. apply safe_insert_user. Qed.

Lemma login_safe u p : safe (login u p).
Proof.
  intros d0 s Hs. unfold login, get_user, log_action. run_app.
  destruct (users (rs_db s) !! lower u) as [user|] eqn:Hu; [|done].
  destruct (check_hash _ _); [|done]. run_app.
  apply (rinv_intro _ s); [done|apply Hs|by apply users_ext_same|].
  intros _. exists user, user. split_and!; [done|done|reflexivity].
Qed.

(** The password change of any user but the superuser. *)
Lemma change_password_safe p1 p2 d0 s :
  rinv d0 s -> current_user_key (rs_sess s) <> "super" ->
  rinv d0 (fst (change_password p1 p2 s)).
Proof.
  intros Hs Hns. unfold change_password. destruct (_ && _); [|done]. run_app.
  apply (rinv_intro _ s); [done| |apply users_ext_update, same_profile_set_password|].
  - apply db_inv_update_user; [apply Hs|done|done].
  - intros Hl. destruct (proj1 (proj2 Hs) Hl) as (u & u' & Hu & Hu' & Hp).
    exists (set_password (make_hash p1) u), (clear_reset u'). cbn.
    rewrite lookup_alter_eq, Hu, Hu'. split_and!; [done|done|].
    etrans; [symmetry; apply same_profile_set_password|].
    etrans; [exact Hp|apply same_profile_clear_reset].
Qed.
End Handlers.

(** ** The router keeps the invariant *)

Section Router.
Context `{Platform}.

Lemma role_view_safe user ev : safe (role_view user ev).
Proof.
  intros d0. unfold role_view.
  repeat case_bool_decide; destruct ev; try apply preserves_ret;
    try match goal with Hr : u_role user = _ |- _ => rewrite Hr end;
    first
      [ apply (approver_approve_safe _ PendingSSHOD PendingSAC); reflexivity
      | apply (approver_approve_safe _ PendingED PendingGMD); reflexivity
      | apply (approver_approve_safe _ PendingGMD Approved); reflexivity
      | apply (approver_decline_safe "SS HOD" PendingSSHOD PendingSAC); reflexivity
      | apply (approver_decline_safe "ED" PendingED PendingGMD); reflexivity
      | apply (approver_decline_safe "GMD" PendingGMD Approved); reflexivity
      | apply staff_add_safe | apply staff_submit_safe | apply create_user_safe
      | apply hod_approve_safe | apply hod_decline_safe | apply admin_issue_safe
      | apply admin_resolve_safe | apply admin_quote_safe | apply sac_validate_safe
      | apply accounts_mark_paid_safe ].
Qed.

(** The superuser's flag is 0, so the password change is never shown
    to it. *)
Lemma force_reset_not_super d0 s cur :
  rinv d0 s -> get_user (rs_db s) (current_user_key (rs_sess s)) = Some cur ->
  u_force_reset cur = 1%Z -> current_user_key (rs_sess s) <> "super".
Proof.
  intros ((_ & _ & _ & _ & _ & _ & Hsuper & _) & _) Hcur Hf Hk.
  unfold get_user in Hcur. rewrite Hk, Hsuper in Hcur. simplify_eq.
Qed.

Lemma main_safe ev : safe (main ev).
Proof.
  intros d0 s Hs. unfold main. run_app.
  destruct (logged_in (rs_sess s)); cbn [negb]; run_app.
  - destruct (get_user (rs_db s) (current_user_key (rs_sess s))) as [cur|] eqn:Hcur; [|exact Hs].
    case_bool_decide as Hf.
    + destruct ev; try done. apply change_password_safe; [done|].
      by apply (force_reset_not_super d0 s cur).
    + destruct (user_data _) as [user|]; [|exact Hs].
      destruct ev; first [by apply logout_safe | by apply role_view_safe].
  - destruct ev; try done. by apply login_safe.
Qed.
End Router.

(** ** Every reachable world satisfies the invariant *)

Section WorldInv.
Context `{Platform}.

Lemma world_inv_run w sid : world_inv w -> rinv (w_db w) (run_of w sid).
Proof.
  intros [Hd Hss]. split_and!; [done| |apply users_ext_refl].
  unfold run_of, session_of. cbn. destruct (w_sessions w !! sid) as [ss|] eqn:Hs; cbn.
  - exact (map_Forall_lookup_1 _ _ _ _ Hss Hs).
  - by intros Hl.
Qed.

Lemma world_inv_step w sid ev : world_inv w -> world_inv (fst (step w sid ev)).
Proof.
  intros Hw. destruct (main_safe ev (w_db w) (run_of w sid) (world_inv_run w sid Hw)) as (Hd & Hs & Hext).
  unfold world_inv. rewrite step_db, step_sessions. split; [done|].
  apply map_Forall_insert_2; [done|].
  apply (map_Forall_impl _ _ _ (proj2 Hw)). intros k ss Hss. by apply (sess_ok_ext (w_db w)).
Qed.

Lemma world_inv_restart w : world_inv w -> world_inv (start (w_db w) (w_rng w)).
Proof.
  intros [Hd _]. unfold start, init_db, world_inv. cbn.
  destruct Hd as (Hk & Hpk & Huk & Hwf & Hpay & Huniq & Hsuper & Hord & Himg) eqn:Hd'.
  rewrite Hsuper. split; [done|apply map_Forall_empty].
Qed.

Lemma world_inv_init : world_inv (start empty_db 0).
Proof.
  split; [|apply map_Forall_empty]. unfold start, init_db, db_inv, payments_ok, payments_unique.
  cbn. rewrite lookup_empty. cbn.
  split_and!; try apply map_Forall_empty.
  - apply map_Forall_insert_2; [done|apply map_Forall_empty].
  - by intros k1 k2 p1 p2 Hp1.
  - by rewrite lookup_insert_eq.
  - intros k [r Hr]. cbn in Hr. by rewrite lookup_empty in Hr.
Qed.

Lemma reachable_inv w : reachable w -> world_inv w.
Proof.
  induction 1.
  - apply world_inv_init.
  - by apply world_inv_step.
  - by apply world_inv_restart.
Qed.
End WorldInv.

(** ** The exceptions of a rerun *)

(** The exceptions a rerun lets escape from [main]: the IntegrityError
    of an INSERT, and PIL's error on an invoice that does not decode. *)
Definition expected_error (e : exn) : Prop :=
  match e with IntegrityError _ _ | ImageError _ => True | TypeError _ | KeyError _ => False end.

(** Every exception [m] raises is one of those. *)
Definition raises_expected {A} (m : App A) : Prop :=
  forall s e, snd (m s) = inl e -> expected_error e.

Section Raises.
Context `{Platform}.

Lemma io_ret {A} (a : A) : raises_expected (st_ret a).
Proof. by intros s e. Qed.

Lemma io_modify f : raises_expected (st_modify f).
Proof. by intros s e. Qed.

Lemma io_read_db : raises_expected read_db.
Proof. by intros s e. Qed.

Lemma io_read_sess : raises_expected read_sess.
Proof. by intros s e. Qed.

Lemma io_new_id : raises_expected new_id.
Proof. by intros s e. Qed.

Lemma io_log_action u a det : raises_expected (log_action u a det).
Proof. by intros s e. Qed.

Lemma io_bind {A B} (m : App A) (k : A -> App B) :
  raises_expected m -> (forall a, raises_expected (k a)) -> raises_expected (st_bind m k).
Proof.
  intros Hm Hk s e. unfold st_bind. destruct (m s) as [s' [e'|a]] eqn:E; cbn.
  - intros [= <-]. apply (Hm s). by rewrite E.
  - apply Hk.
Qed.

Lemma io_catch {A} (m : App A) (h : exn -> App A) :
  (forall e, raises_expected (h e)) -> raises_expected (st_catch m h).
Proof.
  intros Hh s e. unfold st_catch. destruct (m s) as [s' [e'|a]] eqn:E; [apply Hh|done].
Qed.

Lemma io_iter {A} (f : A -> App unit) l :
  (forall x, raises_expected (f x)) -> raises_expected (st_iter f l).
Proof. intros Hf. induction l; cbn; [apply io_ret|by apply io_bind]. Qed.

Lemma io_render rows : raises_expected (render_invoices rows).
Proof. intros s e. rewrite render_invoices_eq. cbn. by destruct (first_bad rows); intros [= <-]. Qed.

Lemma io_insert_row {V} f table k (v : V) (m : db -> gmap string V) :
  raises_expected (run_db (fun d => res_map (f d) (insert_row table k v (m d)))).
Proof.
  intros s e. unfold run_db, insert_row. destruct (m (rs_db s) !! k); cbn; [by intros [= <-]|done].
Qed.
End Raises.

#[export] Hint Resolve io_ret io_modify io_read_db io_read_sess io_new_id io_log_action io_render : safety.

Ltac io_steps :=
  repeat match goal with
         | |- raises_expected (st_bind _ _) => apply io_bind; [|intros ?]
         | |- raises_expected (st_catch _ _) => apply io_catch; intros ?
         | |- raises_expected (st_iter _ _) => apply io_iter; intros ?
         | |- raises_expected (run_db (sql_insert_request _)) => apply io_insert_row
         | |- raises_expected (run_db (sql_insert_payment _)) => apply io_insert_row
         | |- raises_expected (run_db (sql_insert_user _)) => apply io_insert_row
         | |- raises_expected (if _ then _ else _) => case_match
         | |- raises_expected (match _ with _ => _ end) => case_match
         end; eauto with safety.

Section RaisesRouter.
Context `{Platform}.

Lemma role_view_io user ev : raises_expected (role_view user ev).
Proof.
  unfold role_view, staff_add, staff_submit, process_cart_submission, submit_stationary,
    submit_other, hod_approve, hod_decline, admin_issue, admin_resolve, admin_quote,
    approver_approve, approver_decline, sac_validate, accounts_mark_paid, create_user.
  io_steps.
Qed.

Lemma login_io u p : raises_expected (login u p).
Proof. unfold login. io_steps. Qed.

Lemma change_password_io p1 p2 : raises_expected (change_password p1 p2).
Proof. unfold change_password. io_steps. Qed.

Lemma logout_io : raises_expected logout.
Proof. unfold logout. io_steps. Qed.

(** On a state of the invariant, [main] raises no TypeError and no
    KeyError: a logged-in tab's user exists and its [user_data] is set. *)
Lemma main_io ev d0 s e :
  rinv d0 s -> snd (main ev s) = inl e -> expected_error e.
Proof.
  intros (_ & Hss & _). unfold main. run_app.
  destruct (logged_in (rs_sess s)) eqn:Hl; cbn [negb]; run_app.
  - destruct (Hss Hl) as (u & u' & Hu & Hu' & _). unfold get_user. rewrite Hu.
    case_bool_decide.
    + destruct ev; try (cbn; by intros [=]). apply change_password_io.
    + rewrite Hu'. destruct ev; first [apply logout_io | apply role_view_io].
  - destruct ev; try (cbn; by intros [=]). apply login_io.
Qed.
End RaisesRouter.

(** ** Properties of every reachable world *)

Section Claims.
Context `{Platform}.

Lemma step_snd w sid ev : snd (step w sid ev) = snd (main ev (run_of w sid)).
Proof. unfold step. by destruct (main ev _). Qed.

Lemma session_of_step w sid ev :
  session_of (fst (step w sid ev)) sid = rs_sess (fst (main ev (run_of w sid))).
Proof. unfold session_of. by rewrite step_sessions, lookup_insert_eq. Qed.

Lemma main_logged_out ev s :
  logged_in (rs_sess s) = false ->
  main ev s = match ev with ELogin u p => login u p s | _ => st_ret Unavailable s end.
Proof. intros Hl. unfold main. run_app. rewrite Hl. by destruct ev. Qed.

Lemma reachable_db_inv w : reachable w -> db_inv (w_db w).
Proof. intros Hw. apply (reachable_inv w Hw). Qed.

(** C5: in a reachable world, a rerun of any
    tab on any event raises no TypeError and no KeyError (lines 389 and
    395 always find the user and its cached profile): the exceptions
    that escape [main] are the IntegrityError of an INSERT whose uuid
    prefix is taken and PIL's error on an invoice that does not
    decode. *)
Theorem step_no_type_or_key_error w sid ev :
  reachable w ->
  match snd (step w sid ev) with
  | inl e => expected_error e
  | inr _ => True
  end.
Proof.
  intros Hw. rewrite step_snd. destruct (snd (main ev (run_of w sid))) as [e|] eqn:He; [|done].
  by apply (main_io ev (w_db w)) in He; [|apply world_inv_run, reachable_inv].
Qed.

(** C15: in every reachable world the superuser's row is the
    one [init_db] wrote, with the hash of "123" and force_reset 0, so
    from any logged-out tab the login super / 123 succeeds and the tab
    holds that row. *)
Theorem super_login w sid :
  reachable w -> logged_in (session_of w sid) = false ->
  users (w_db w) !! "super" = Some super_row /\
  snd (step w sid (ELogin "super" "123")) = inr Done /\
  user_data (session_of (fst (step w sid (ELogin "super" "123"))) sid) = Some super_row.
Proof.
  intros Hw Hl. pose proof (reachable_db_inv w Hw) as (_ & _ & _ & _ & _ & _ & Hsuper & _).
  destruct (proj1 (login_outcome (run_of w sid) "super" "123") super_row) as (Hd & Hs & _);
    [exact Hsuper|reflexivity|].
  rewrite step_snd, session_of_step, main_logged_out by done.
  split_and!; [done|done|]. by rewrite Hs.
Qed.

(** C3: in every reachable world each payment
    belongs to a request that is Approved, for the request's amount and
    to its vendor, and no other payment belongs to that request. *)
Theorem payments_match_approved w pid p :
  reachable w -> payments (w_db w) !! pid = Some p ->
  exists r, requests (w_db w) !! p_req_id p = Some r /\ r_status r = "Approved" /\
    p_amount p = r_amount r /\ p_vendor p = r_vendor r /\
    (forall pid' p', payments (w_db w) !! pid' = Some p' -> p_req_id p' = p_req_id p -> pid' = pid).
Proof.
  intros Hw Hp. destruct (reachable_db_inv w Hw) as (_ & _ & _ & _ & Hpay & Huniq & _).
  destruct (Hpay pid p Hp) as [_ (r & Hr & Happ & Hamt & Hv)].
  exists r. split_and!; [done..|]. intros pid' p' Hp' Heq. exact (Huniq _ _ _ _ Hp' Hp Heq).
Qed.

(** C12: in every reachable world a request at SS
    HOD, SAC, ED, GMD or Approved carries the Admin's quote: a positive
    initial cost, a vendor and an invoice. *)
Theorem quote_before_approval w k r :
  reachable w -> requests (w_db w) !! k = Some r -> quoted (r_status r) = true ->
  (0 < r_initial_cost r)%Q /\ r_vendor r <> "" /\ is_Some (r_invoice_img r).
Proof.
  intros Hw Hr Hq. apply (db_inv_req_wf _ _ _ (reachable_db_inv w Hw) Hr), Hq.
Qed.

(** C17: in every reachable world a
    stationary request is pending with the Admin or fulfilled: it never
    enters the approval chain. *)
Theorem stationary_stays_with_admin w k r :
  reachable w -> requests (w_db w) !! k = Some r -> r_category r = "Stationary" ->
  r_status r = "Pending Admin" \/ r_status r = "Completed (Fulfilled)".
Proof. intros Hw Hr. apply (db_inv_req_wf _ _ _ (reachable_db_inv w Hw) Hr). Qed.

(** C16: in every reachable world each request's
    status is one of the ten statuses of the workflow; in particular no
    request is ever "Paid" or "Ready for Accounts", the values the
    reports of lines 312 and 336 filter on. *)
Theorem status_in_vocabulary w k r :
  reachable w -> requests (w_db w) !! k = Some r ->
  is_Some (status_of_name (r_status r)) /\ r_status r <> "Paid" /\ r_status r <> "Ready for Accounts".
Proof.
  intros Hw Hr. destruct (db_inv_req_wf _ _ _ (reachable_db_inv w Hw) Hr) as ([st Hst] & _).
  apply status_of_name_Some in Hst as <-. split; [rewrite status_of_name_name; by eexists|destruct st; split; discriminate].
Qed.

(** C10: in every reachable world a request the SS HOD
    has passed on (Pending SAC, ED, GMD or Approved) carries an invoice
    that PIL decodes or none at all, since its dashboard drew it before
    its button acted; and so does the request of every payment the
    Accounts page lists, so the [st.image] of that page (line 372) never
    raises. *)
Theorem accounts_invoices_decode w :
  reachable w ->
  map_Forall (fun _ r => shown (r_status r) = true -> invoice_ok (r_invoice_img r) = true)
    (requests (w_db w)) /\
  (forall pid p, accounts_row (w_db w) pid = Some p ->
     exists r, requests (w_db w) !! p_req_id p = Some r /\ invoice_ok (r_invoice_img r) = true).
Proof.
  intros Hw. destruct (reachable_db_inv w Hw) as (_ & _ & _ & _ & Hpay & _ & _ & _ & Himg).
  split; [exact Himg|]. intros pid p Hp. unfold accounts_row in Hp.
  destruct (payments (w_db w) !! pid) as [p0|] eqn:Hp0; [|done].
  case_bool_decide; [|done]. destruct (requests _ !! p_req_id p0); [|done]. injection Hp as <-.
  destruct (Hpay pid p0 Hp0) as [_ (r0 & Hr0 & Happ & _)].
  exists r0. split; [done|]. apply (map_Forall_lookup_1 _ _ _ _ Himg Hr0). by rewrite Happ.
Qed.

(** C18: in every reachable world a logged-in tab's
    user key names a user whose name, role, e-mail, department and HOD
    e-mail are those the tab cached at login. *)
Theorem logged_in_user_exists w sid ss :
  reachable w -> w_sessions w !! sid = Some ss -> logged_in ss = true ->
  exists u u', users (w_db w) !! current_user_key ss = Some u /\ user_data ss = Some u' /\
    same_profile u u'.
Proof.
  intros Hw Hs. exact (map_Forall_lookup_1 _ _ _ _ (proj2 (reachable_inv w Hw)) Hs).
Qed.
End Claims.

(** ** A run through the whole workflow *)

(** The superuser creates the approvers; the staff member puts a door
    repair in the cart and submits twice: the first submission draws the
    taken prefix "0badcafe" and fails, the second files "00000002". *)
Definition demo_new_users : list (nat * event) :=
  [(0, ECreateUser "Hod" "t3" "Hod" "hod@co.com" "Dept HOD" "Ops" "");
   (0, ECreateUser "Ss" "t4" "Ss" "ss@co.com" "SS HOD" "Ops" "");
   (0, ECreateUser "Sac" "t5" "Sac" "sac@co.com" "SAC" "Ops" "");
   (0, ECreateUser "Ed" "t6" "Ed" "ed@co.com" "ED" "Ops" "");
   (0, ECreateUser "Gmd" "t7" "Gmd" "gmd@co.com" "GMD" "Ops" "");
   (0, ECreateUser "Acc" "t8" "Acc" "acc@co.com" "Accounts" "Ops" "");
   (1, EAdd "Facility" "Door Repair" 1)].

(** Every approver logs in, changes the temporary password and acts on
    "00000002"; the GMD's approval files payment "00000003", which
    Accounts marks paid. *)
Definition demo_approvals : list (nat * event) :=
  [(1, ESubmit); (1, ESubmit);
   (3, ELogin "hod" "t3"); (3, EChangePassword "p3" "p3"); (3, EHodApprove "00000002");
   (2, EAdminQuote "00000002" "FixIt" (inject_Z 50000) (Some [Byte.x89]));
   (4, ELogin "ss" "t4"); (4, EChangePassword "p4" "p4"); (4, EApprove "00000002");
   (5, ELogin "sac" "t5"); (5, EChangePassword "p5" "p5");
   (5, ESacValidate "00000002" (inject_Z 45000) "Negotiated");
   (6, ELogin "ed" "t6"); (6, EChangePassword "p6" "p6"); (6, EApprove "00000002");
   (7, ELogin "gmd" "t7"); (7, EChangePassword "p7" "p7"); (7, EApprove "00000002");
   (8, ELogin "acc" "t8"); (8, EChangePassword "p8" "p8"); (8, EMarkPaid "00000003")].

Definition demo_world_filled : world :=
  @run_events demo_platform demo_world_issued demo_new_users.

Definition demo_world_full : world :=
  @run_events demo_platform demo_world_filled demo_approvals.

Lemma demo_filled_reachable : @reachable demo_platform demo_world_filled.
Proof. apply run_events_reachable, demo_issued_reachable. Qed.

Lemma demo_full_reachable : @reachable demo_platform demo_world_full.
Proof. apply run_events_reachable, demo_filled_reachable. Qed.

Definition demo_payment_row (w : world) (pid : string) : payment_row :=
  default (demo_payment "" "" 0) (payments (w_db w) !! pid).

Example demo_full_outcome :
  status_at "00000002" demo_world_full = Some "Approved" /\
  p_status (demo_payment_row demo_world_full "00000003") = "Paid" /\
  p_amount (demo_payment_row demo_world_full "00000003") = inject_Z 45000 /\
  snd (@step demo_platform demo_world_filled 1 ESubmit) = inl (IntegrityError "requests" "0badcafe").
Proof. vm_compute. split_and!; reflexivity. Qed.

(** ** The cart outlives the login *)

(** The staff member puts paper in the cart and logs out; a second staff
    member logs in on the same tab and submits. *)
Definition demo_leak : list (nat * event) :=
  [(0, ECreateUser "Bob" "t9" "Bob" "bob@co.com" "Staff" "Ops" "hod@co.com");
   (1, EAdd "Stationary" "A4 Paper" 2); (1, ELogout);
   (1, ELogin "bob" "t9"); (1, EChangePassword "p9" "p9"); (1, ESubmit)].

(** [log_out] (line 398) and [log_in] (lines 171-176) leave
    [st.session_state.cart] as it is, so the paper the first user put in
    the cart is filed as a request of the second user who logs in on the
    tab. *)
Example demo_cart_survives_logout :
  exists r, requests (w_db (@run_events demo_platform demo_world_full demo_leak)) !! "00000004" = Some r /\
    r_user_key r = "bob" /\ r_category r = "Stationary" /\ r_item r = "A4 Paper (2)" /\
    cart (session_of demo_world_full 1) = [] /\
    cart (session_of (@run_events demo_platform demo_world_full (take 3 demo_leak)) 1) =
      [{| ci_type := "Stationary"; ci_item := "A4 Paper"; ci_qty := 2 |}] /\
    user_data (session_of (@run_events demo_platform demo_world_full (take 3 demo_leak)) 1) =
      user_data (session_of demo_world_full 1).
Proof. eexists. vm_compute. split_and!; reflexivity. Qed.

(** ** Witnesses *)

Lemma step_no_type_or_key_error_witness :
  match snd (@step demo_platform demo_world_filled 1 ESubmit) with
  | inl e => expected_error e
  | inr _ => True
  end.
Proof. apply (step_no_type_or_key_error (H := demo_platform)), demo_filled_reachable. Defined.

Lemma super_login_witness :
  users (w_db demo_world_full) !! "super" = Some (@super_row demo_platform) /\
  snd (@step demo_platform demo_world_full 9 (ELogin "super" "123")) = inr Done /\
  user_data (session_of (fst (@step demo_platform demo_world_full 9 (ELogin "super" "123"))) 9) =
    Some (@super_row demo_platform).
Proof.
  apply (super_login (H := demo_platform)); [apply demo_full_reachable|vm_compute; reflexivity].
Defined.

Lemma payments_match_approved_witness :
  exists r, requests (w_db demo_world_full) !! p_req_id (demo_payment_row demo_world_full "00000003") = Some r /\
    r_status r = "Approved" /\
    p_amount (demo_payment_row demo_world_full "00000003") = r_amount r /\
    p_vendor (demo_payment_row demo_world_full "00000003") = r_vendor r /\
    (forall pid' p', payments (w_db demo_world_full) !! pid' = Some p' ->
       p_req_id p' = p_req_id (demo_payment_row demo_world_full "00000003") -> pid' = "00000003").
Proof.
  apply (payments_match_approved (H := demo_platform)); [apply demo_full_reachable|vm_compute; reflexivity].
Defined.

Lemma quote_before_approval_witness :
  (0 < r_initial_cost (demo_row demo_world_full "00000002"))%Q /\
  r_vendor (demo_row demo_world_full "00000002") <> "" /\
  is_Some (r_invoice_img (demo_row demo_world_full "00000002")).
Proof.
  apply (quote_before_approval (H := demo_platform) demo_world_full "00000002");
    [apply demo_full_reachable|vm_compute; reflexivity|vm_compute; reflexivity].
Defined.

Lemma stationary_stays_with_admin_witness :
  r_status (demo_row demo_world_full "0badcafe") = "Pending Admin" \/
  r_status (demo_row demo_world_full "0badcafe") = "Completed (Fulfilled)".
Proof.
  apply (stationary_stays_with_admin (H := demo_platform) demo_world_full "0badcafe");
    [apply demo_full_reachable|vm_compute; reflexivity|vm_compute; reflexivity].
Defined.

Lemma status_in_vocabulary_witness :
  is_Some (status_of_name (r_status (demo_row demo_world_full "00000002"))) /\
  r_status (demo_row demo_world_full "00000002") <> "Paid" /\
  r_status (demo_row demo_world_full "00000002") <> "Ready for Accounts".
Proof.
  apply (status_in_vocabulary (H := demo_platform) demo_world_full "00000002");
    [apply demo_full_reachable|vm_compute; reflexivity].
Defined.

Lemma logged_in_user_exists_witness :
  exists u u', users (w_db demo_world_full) !! current_user_key (session_of demo_world_full 7) = Some u /\
    user_data (session_of demo_world_full 7) = Some u' /\ same_profile u u'.
Proof.
  apply (logged_in_user_exists (H := demo_platform) demo_world_full 7);
    [apply demo_full_reachable|vm_compute; reflexivity|vm_compute; reflexivity].
Defined.

Lemma accounts_invoices_decode_witness :
  map_Forall (fun _ r => @shown (r_status r) = true -> @invoice_ok demo_platform (r_invoice_img r) = true)
    (requests (w_db demo_world_full)) /\
  (forall pid p, accounts_row (w_db demo_world_full) pid = Some p ->
     exists r, requests (w_db demo_world_full) !! p_req_id p = Some r /\
       @invoice_ok demo_platform (r_invoice_img r) = true).
Proof. apply (accounts_invoices_decode (H := demo_platform)), demo_full_reachable. Defined.
