(* ===== verification/Reports.v ===== *)
(** * Reports: the read-only SELECTs of the dashboards

    The History table of [view_staff_portal] (src/Facility.py, lines
    220-222), [get_db_df] and the Analysis tab of the Admin (197-200,
    252-254), the Savings report of the SAC (310-318), the Spend tab of
    the Dept HOD (335-337), the user list of the superuser (357-359) and
    the payments listed to Accounts (365).  A SELECT without ORDER BY is
    the list of the rows it keeps; the order SQLite returns them in is
    not modelled, so the theorems are about membership and sums, which do
    not depend on it.  The reachability theorems show that the status
    filter of the Savings report reduces to a simpler one (the statuses
    "Paid" and "Ready for Accounts" it names never occur), and that every
    payment ready for Accounts is listed. *)

From S2P Require Import Prelude Schema Workflow Cart Auth App Safety.

(** ** Queries *)

(** [SELECT f(r) FROM requests WHERE P(r)]. *)
Definition select_requests {A} (P : request_row -> bool) (f : request_row -> A) (d : db) : list A :=
  f <$> List.filter P ((map_to_list (requests d)).*2).

(** Lines 221-222: [SELECT date, category, item, status FROM requests
    WHERE user_key = ?]. *)
Definition history_rows (user : user_row) (d : db) : list (string * string * string * string) :=
  select_requests (fun r => bool_decide (r_user_key r = u_username user))
    (fun r => (r_date r, r_category r, r_item r, r_status r)) d.

(** Lines 253-254: [get_db_df()] with the columns the Analysis tab shows. *)
Definition analysis_rows (d : db) : list (string * string * string * string * string * Q * string) :=
  select_requests (fun _ => true)
    (fun r => (r_date r, r_category r, r_item r, r_requester_name r, r_vendor r, r_amount r, r_status r)) d.

(** One row of the Savings DataFrame (line 314). *)
Record savings_row := {
  sv_date : string; sv_item : string; sv_vendor : string;
  sv_initial : Q; sv_final : Q; sv_note : string
}.

(** Line 315: [df['Savings'] = df['Initial'] - df['Final']]. *)
Definition sv_savings (x : savings_row) : Q := (sv_initial x - sv_final x)%Q.

(** The statuses of the IN list of line 312. *)
Definition SAVINGS_STATUSES : list string :=
  ["Approved"; "Paid"; "Ready for Accounts"; "Pending ED"; "Pending GMD"].

Definition savings_where (r : request_row) : bool :=
  bool_decide (r_amount r < r_initial_cost r)%Q && bool_decide (r_status r ∈ SAVINGS_STATUSES).

Definition savings_of (r : request_row) : savings_row :=
  {| sv_date := r_date r; sv_item := r_item r; sv_vendor := r_vendor r;
     sv_initial := r_initial_cost r; sv_final := r_amount r; sv_note := r_sac_note r |}.

(** Line 312. *)
Definition savings_rows (d : db) : list savings_row := select_requests savings_where savings_of d.

(** Line 316: [df['Savings'].sum()]. *)
Definition total_savings (d : db) : Q := foldr Qplus 0%Q (sv_savings <$> savings_rows d).

(** Line 336: [SELECT date, item, vendor, amount FROM requests WHERE
    department=? AND status IN ('Approved','Paid')]. *)
Definition spend_where (dept : string) (r : request_row) : bool :=
  bool_decide (r_department r = dept) && bool_decide (r_status r ∈ ["Approved"; "Paid"]).

Definition spend_rows (dept : string) (d : db) : list (string * string * string * Q) :=
  select_requests (spend_where dept) (fun r => (r_date r, r_item r, r_vendor r, r_amount r)) d.

(** Line 358: [SELECT username, role, name, dept FROM users]. *)
Definition user_rows (d : db) : list (string * string * string * string) :=
  (fun u => (u_username u, u_role u, u_name u, u_dept u)) <$> (map_to_list (users d)).*2.

(** Line 365: the payments Ready for Accounts joined with their request. *)
Definition accounts_rows (d : db) : list (string * Q * string * string * option blob) :=
  omap (fun p => if bool_decide (p_status p = ready_for_accounts) then
                   (fun r => (p_payment_id p, p_amount p, p_vendor p, r_item r, r_invoice_img r))
                     <$> requests d !! p_req_id p
                 else None)
       ((map_to_list (payments d)).*2).

(** ** Lemmas on queries *)

Lemma elem_of_rows {V} (m : gmap string V) v : v ∈ (map_to_list m).*2 <-> exists k, m !! k = Some v.
Proof.
  rewrite list_elem_of_fmap. split.
  - intros ([k v'] & -> & Hkv). exists k. by apply elem_of_map_to_list.
  - intros (k & Hk). exists (k, v). split; [done|by apply elem_of_map_to_list].
Qed.

Lemma elem_of_select {A} (P : request_row -> bool) (f : request_row -> A) d x :
  x ∈ select_requests P f d <-> exists k r, requests d !! k = Some r /\ P r = true /\ x = f r.
Proof.
  unfold select_requests. rewrite list_elem_of_fmap. split.
  - intros (r & -> & Hr). apply list_elem_of_In, filter_In in Hr as [Hr HP].
    apply list_elem_of_In, elem_of_rows in Hr as (k & Hk). by exists k, r.
  - intros (k & r & Hk & HP & ->). exists r. split; [done|].
    apply list_elem_of_In, filter_In. split; [|done].
    apply list_elem_of_In, elem_of_rows. by exists k.
Qed.

(** Two WHERE clauses that agree on every row of the table select the
    same rows. *)
Lemma select_ext {A} (P Q : request_row -> bool) (f : request_row -> A) d :
  (forall k r, requests d !! k = Some r -> P r = Q r) ->
  select_requests P f d = select_requests Q f d.
Proof.
  intros Hpq. unfold select_requests. f_equal. apply filter_ext_in.
  intros r Hr. apply list_elem_of_In, elem_of_rows in Hr as (k & Hk). by apply (Hpq k).
Qed.

(** A sum of positive terms is non-negative, and positive when there is
    a term. *)
Lemma foldr_Qplus_pos (l : list Q) :
  Forall (fun q => 0 < q)%Q l -> (0 <= foldr Qplus 0 l)%Q /\ (l = [] \/ 0 < foldr Qplus 0 l)%Q.
Proof.
  induction 1 as [|q l Hq _ [IH1 _]]; cbn; [split; [apply Qle_refl|by left]|].
  assert (0 < q + foldr Qplus 0 l)%Q.
  { apply (Qlt_le_trans _ (q + 0)); [by rewrite Qplus_0_r|by apply Qplus_le_r]. }
  split; [by apply Qlt_le_weak|by right].
Qed.

Lemma savings_row_pos d x : x ∈ savings_rows d -> (0 < sv_savings x)%Q.
Proof.
  intros (k & r & _ & Hw & ->)%elem_of_select. apply andb_true_iff in Hw as [Hlt _].
  apply bool_decide_eq_true in Hlt. unfold sv_savings. cbn. exact (proj1 (Qlt_minus_iff _ _) Hlt).
Qed.

(** The WHERE clause of the Savings report on a well-formed row: a
    reduced amount occurs only once the SAC has reviewed the cost, so the
    status list only excludes declined requests. *)
Lemma savings_where_wf r :
  req_wf r ->
  savings_where r = bool_decide (r_amount r < r_initial_cost r)%Q && negb (bool_decide (r_status r = "Declined")).
Proof.
  intros (_ & _ & _ & Hsac). unfold savings_where.
  destruct (bool_decide_reflect (r_amount r < r_initial_cost r)%Q) as [Hlt|]; [cbn|done].
  destruct (sac_done (r_status r)) eqn:Hs.
  - unfold sac_done in Hs. apply bool_decide_eq_true in Hs.
    repeat (apply elem_of_cons in Hs as [Hs|Hs]; [rewrite Hs; reflexivity|]).
    by apply elem_of_nil in Hs.
  - rewrite (Hsac eq_refl) in Hlt. by destruct (Qlt_irrefl _ Hlt).
Qed.

Section Claims.
Context `{Platform}.

(** C30: every row of the Savings report has a
    positive saving, so the Total Savings metric is never negative, and
    it is positive as soon as the report has a row. *)
Theorem total_savings_bounds d :
  (0 <= total_savings d)%Q /\ (savings_rows d = [] \/ 0 < total_savings d)%Q.
Proof.
  destruct (foldr_Qplus_pos (sv_savings <$> savings_rows d)) as [H0 [Hnil|Hpos]].
  - apply Forall_fmap, Forall_forall. intros x Hx. by apply (savings_row_pos d).
  - split; [done|left]. by apply fmap_nil_inv in Hnil.
  - split; [done|by right].
Qed.

(** C9: in every reachable world the Savings report
    of line 312 lists exactly the requests whose amount is below the
    initial cost and that are not declined: its status list is
    equivalent to "not Declined", and its values 'Paid' and 'Ready for
    Accounts' select nothing. *)
Theorem savings_report_live w :
  reachable w ->
  savings_rows (w_db w) =
    select_requests (fun r => bool_decide (r_amount r < r_initial_cost r)%Q &&
                              negb (bool_decide (r_status r = "Declined"))) savings_of (w_db w).
Proof.
  intros Hw. apply select_ext. intros k r Hr.
  apply savings_where_wf, (db_inv_req_wf _ _ _ (reachable_db_inv w Hw) Hr).
Qed.

(** C28: in every reachable world each payment Ready
    for Accounts is listed on the Accounts dashboard with its amount,
    vendor, and its request's item and invoice, and its Mark Paid button
    acts on it: the JOIN of line 365 drops no payment. *)
Theorem accounts_lists_ready w pid p :
  reachable w -> payments (w_db w) !! pid = Some p -> p_status p = ready_for_accounts ->
  exists r, requests (w_db w) !! p_req_id p = Some r /\
    (pid, p_amount p, p_vendor p, r_item r, r_invoice_img r) ∈ accounts_rows (w_db w) /\
    accounts_row (w_db w) pid = Some p.
Proof.
  intros Hw Hp Hst. destruct (reachable_db_inv w Hw) as (_ & Hpk & _ & _ & Hpay & _).
  destruct (Hpay pid p Hp) as [_ (r & Hr & _)].
  pose proof (map_Forall_lookup_1 _ _ _ _ Hpk Hp) as Hid. cbn in Hid.
  exists r. split_and!; [done| |].
  - apply list_elem_of_omap. exists p. split; [apply elem_of_rows; by exists pid|].
    rewrite bool_decide_eq_true_2, Hr by done. cbn. by rewrite Hid.
  - unfold accounts_row. by rewrite Hp, bool_decide_eq_true_2, Hr.
Qed.
End Claims.

(** ** Examples *)

(** The world just before Accounts marks the payment paid. *)
Definition demo_world_gmd_approved : world :=
  @run_events demo_platform demo_world_filled (take 20 demo_approvals).

Lemma demo_gmd_approved_reachable : @reachable demo_platform demo_world_gmd_approved.
Proof. apply run_events_reachable, demo_filled_reachable. Qed.

Example demo_reports :
  (sv_savings <$> savings_rows (w_db demo_world_full)) = [inject_Z 5000] /\
  total_savings (w_db demo_world_full) = inject_Z 5000 /\
  spend_rows "Ops" (w_db demo_world_full) = [("2026-11-09", "Door Repair", "FixIt", inject_Z 45000)] /\
  length (accounts_rows (w_db demo_world_gmd_approved)) = 1%nat /\
  accounts_rows (w_db demo_world_full) = [].
Proof. vm_compute. split_and!; reflexivity. Qed.

Lemma savings_report_live_witness :
  savings_rows (w_db demo_world_full) =
    select_requests (fun r => bool_decide (r_amount r < r_initial_cost r)%Q &&
                              negb (bool_decide (r_status r = "Declined"))) savings_of (w_db demo_world_full).
Proof. apply (savings_report_live (H := demo_platform)), demo_full_reachable. Defined.

Lemma accounts_lists_ready_witness :
  exists r, requests (w_db demo_world_gmd_approved) !! "00000002" = Some r /\
    ("00000003", inject_Z 45000, "FixIt", r_item r, r_invoice_img r) ∈ accounts_rows (w_db demo_world_gmd_approved) /\
    accounts_row (w_db demo_world_gmd_approved) "00000003" =
      Some (demo_payment_row demo_world_gmd_approved "00000003").
Proof.
  apply (accounts_lists_ready (H := demo_platform) demo_world_gmd_approved "00000003"
           (demo_payment_row demo_world_gmd_approved "00000003"));
    [apply demo_gmd_approved_reachable|vm_compute; reflexivity|vm_compute; reflexivity].
Defined.

(** The SAC types a negative negotiated cost; the ED and the GMD approve. *)
Definition demo_negative : list (nat * event) :=
  [(5, ESacValidate "00000002" (inject_Z (-1000)) "Refund");
   (6, ELogin "ed" "t6"); (6, EChangePassword "p6" "p6"); (6, EApprove "00000002");
   (7, ELogin "gmd" "t7"); (7, EChangePassword "p7" "p7"); (7, EApprove "00000002")].

Definition demo_world_negative : world :=
  @run_events demo_platform demo_world_filled (take 11 demo_approvals ++ demo_negative).

(** Nothing bounds the SAC's negotiated cost (the number_input of line
    304 has no minimum and line 308 stores it as is), so a reachable
    world lists to Accounts a payment of -1000 for a request quoted at
    50000. *)
Example demo_negative_payment :
  @reachable demo_platform demo_world_negative /\
  r_initial_cost (demo_row demo_world_negative "00000002") = inject_Z 50000 /\
  accounts_rows (w_db demo_world_negative) =
    [("00000003", inject_Z (-1000), "FixIt", "Door Repair", Some [Byte.x89])].
Proof.
  split; [apply run_events_reachable, demo_filled_reachable|]. vm_compute. split; reflexivity.
Qed.
