(* ===== verification/Progress.v ===== *)
(** * Progress: when a pending request can move on

    Liveness: in a reachable world, a request pending at a status is moved
    along [route] by one rerun of any tab logged in with the role whose
    dashboard lists it (for "Pending Dept HOD", the HOD whose e-mail the
    request names), through the button of [main] (src/Facility.py, lines
    400-407) that dashboard renders for it.  The SS HOD's dashboard draws
    the invoices the Admin uploaded, which may not decode (lines 246 and
    269), so at "Pending SS HOD" the invoices listed up to the request
    must decode; past it, the invariant of Safety.v shows they do. *)

From S2P Require Import Prelude Schema Workflow Cart Auth App Safety.

(** ** Who moves a pending request on *)

(** The role whose dashboard lists a request at [st] (lines 401-407). *)
Definition role_for (st : status) : string :=
  match st with
  | PendingDeptHOD => "Dept HOD" | PendingAdmin => "Admin" | PendingSSHOD => "SS HOD"
  | PendingSAC => "SAC" | PendingED => "ED" | PendingGMD => "GMD"
  | _ => ""
  end.

(** A button of that dashboard that moves [r] on: Approve, Issue for a
    stationary request, a quote with a vendor, a positive cost and an
    invoice otherwise, and Validate keeping the quoted amount. *)
Definition advance (st : status) (r : request_row) : event :=
  match st with
  | PendingDeptHOD => EHodApprove (r_id r)
  | PendingAdmin =>
      if bool_decide (r_category r = "Stationary") then EAdminIssue (r_id r)
      else EAdminQuote (r_id r) "Vendor" 1%Q (Some [])
  | PendingSAC => ESacValidate (r_id r) (r_amount r) ""
  | _ => EApprove (r_id r)
  end.

(** The statuses whose dashboard draws the listed invoices before the
    buttons (lines 269 and 299). *)
Definition draws (st : status) : bool :=
  match st with PendingSSHOD | PendingSAC | PendingED | PendingGMD => true | _ => false end.

(** ** Lemmas *)

(** Past the SS HOD, every invoice a dashboard draws decodes. *)
Lemma listed_images_ok `{Platform} d st rid :
  db_inv d -> shown st = true -> images_ok (upto rid (listed st d)) = true.
Proof.
  intros (_ & _ & _ & _ & _ & _ & _ & _ & Himg) Hsh. unfold images_ok. apply forallb_forall.
  intros r Hr%list_elem_of_In%elem_of_upto. apply list_elem_of_omap in Hr as (k & _ & Hk).
  apply pending_with_Some in Hk as [Hk Hst].
  apply (map_Forall_lookup_1 _ _ _ _ Himg Hk). by rewrite Hst.
Qed.

Lemma update_moves st st' f d rid r :
  req_keys_ok d -> pending_with (status_name st) d rid = Some r -> r_status (f r) = status_name st' ->
  r_status <$> requests (sql_update_request (r_id r) f d) !! rid = Some (status_name st').
Proof. intros Hk Hp Hf. rewrite (pending_update_row _ _ _ _ _ Hk Hp). cbn. by rewrite Hf. Qed.

Section Advance.
Context `{Platform}.

(** One press of [advance st r] on the dashboard of [role_for st] moves
    [r] along [route]. *)
Lemma advance_moves s u rid r st :
  req_keys_ok (rs_db s) -> requests (rs_db s) !! rid = Some r -> r_status r = status_name st ->
  terminal st = false -> u_role u = role_for st ->
  (st = PendingDeptHOD -> r_approver_email r = u_email u) ->
  (draws st = true -> images_ok (upto rid (listed (status_name st) (rs_db s))) = true) ->
  exists st', route st st' /\
    r_status <$> requests (rs_db (fst (role_view u (advance st r) s))) !! rid = Some (status_name st').
Proof.
  intros Hk Hr Hst Ht Hrole Hemail Himg.
  assert (Hid : r_id r = rid) by exact (map_Forall_lookup_1 _ _ _ _ Hk Hr).
  assert (Hp : pending_with (status_name st) (rs_db s) rid = Some r) by (by apply pending_with_Some).
  unfold role_view. rewrite Hrole.
  destruct st; try discriminate Ht; cbn [role_for advance];
    repeat rewrite bool_decide_eq_false_2 by discriminate; rewrite bool_decide_eq_true_2 by done.
  all: rewrite Hid; cbn [status_name draws] in Hp, Himg.
  - unfold hod_approve. run_app.
    assert (hod_row (u_email u) (rs_db s) rid = Some r) as -> by (apply hod_row_Some; auto).
    run_app. exists PendingAdmin. split; [constructor|]. by apply (update_moves PendingDeptHOD).
  - case_bool_decide as Hc.
    + unfold admin_issue. run_app. rewrite Hp, bool_decide_eq_true_2 by done. run_app.
      exists CompletedFulfilled. split; [constructor|]. by apply (update_moves PendingAdmin).
    + unfold admin_quote. run_app. rewrite Hp, bool_decide_eq_false_2 by done.
      change (truthy "Vendor" && bool_decide (0 < 1)%Q) with true. run_app.
      exists PendingSSHOD. split; [constructor|]. by apply (update_moves PendingAdmin).
  - unfold approver_approve. run_app. render_pass (Himg eq_refl).
    rewrite Hp, bool_decide_eq_false_2 by discriminate. run_app.
    exists PendingSAC. split; [constructor|]. by apply (update_moves PendingSSHOD).
  - unfold sac_validate. run_app. render_pass (Himg eq_refl). rewrite Hp. run_app.
    exists PendingED. split; [constructor|]. by apply (update_moves PendingSAC).
  - unfold approver_approve. run_app. render_pass (Himg eq_refl).
    rewrite Hp, bool_decide_eq_false_2 by discriminate. run_app.
    exists PendingGMD. split; [constructor|]. by apply (update_moves PendingED).
  - unfold approver_approve. run_app. render_pass (Himg eq_refl).
    rewrite Hp, bool_decide_eq_true_2 by done. run_app.
    exists Approved. split; [constructor|].
    unfold st_bind, run_db. destruct (sql_insert_payment _ _) as [e|d'] eqn:Hi; cbn [fst snd rs_db st_ret];
      [|rewrite (insert_payment_requests _ _ _ Hi)]; by apply (update_moves PendingGMD).
Qed.
End Advance.

Lemma advance_not_logout st r : advance st r <> ELogout.
Proof. destruct st; cbn; try case_bool_decide; discriminate. Qed.

(** A logged-in tab whose user's flag is clear and whose [user_data] is
    set sees the view of its cached role. *)
Lemma main_role_view `{Platform} ev s cur u :
  logged_in (rs_sess s) = true -> get_user (rs_db s) (current_user_key (rs_sess s)) = Some cur ->
  u_force_reset cur <> 1%Z -> user_data (rs_sess s) = Some u -> ev <> ELogout ->
  main ev s = role_view u ev s.
Proof.
  intros Hl Hc Hf Hu Hev. unfold main. run_app. rewrite Hl. cbn [negb]. run_app.
  rewrite Hc, bool_decide_eq_false_2 by done. rewrite Hu. by destruct ev.
Qed.

(** ** Liveness and termination *)

Section Claims.
Context `{Platform}.

(** C7: in a reachable world, a request pending
    at a status can be moved along [route] by one rerun of a tab logged
    in with the role whose dashboard lists it, when the user's flag is
    clear (and, at "Pending Dept HOD", when the user is the HOD the
    request names), and, at "Pending SS HOD", when the invoices that
    dashboard lists up to the request decode.  Past the SS HOD no such
    condition is needed: the invoices there always decode. *)
Theorem pending_request_progress w sid ss u rid r st :
  reachable w -> requests (w_db w) !! rid = Some r -> r_status r = status_name st ->
  terminal st = false -> w_sessions w !! sid = Some ss -> logged_in ss = true ->
  user_data ss = Some u -> u_role u = role_for st ->
  (st = PendingDeptHOD -> r_approver_email r = u_email u) ->
  (forall cur, users (w_db w) !! current_user_key ss = Some cur -> u_force_reset cur <> 1%Z) ->
  (st = PendingSSHOD -> images_ok (upto rid (listed "Pending SS HOD" (w_db w))) = true) ->
  exists ev st', route st st' /\ status_at rid (fst (step w sid ev)) = Some (status_name st').
Proof.
  intros Hw Hr Hst Ht Hs Hl Hu Hrole Hemail Hf Hss.
  assert (Himg : draws st = true -> images_ok (upto rid (listed (status_name st) (w_db w))) = true).
  { intros Hd. destruct st; try discriminate Hd; [by apply Hss|..].
    all: apply listed_images_ok; [exact (reachable_db_inv w Hw)|reflexivity]. }
  destruct (map_Forall_lookup_1 _ _ _ _ (proj2 (reachable_inv w Hw)) Hs Hl) as (cur & _ & Hcur & _).
  assert (Hrun : rs_sess (run_of w sid) = ss) by (unfold run_of, session_of; cbn; by rewrite Hs).
  destruct (advance_moves (run_of w sid) u rid r st) as (st' & Hroute & Hmove);
    [exact (proj1 (reachable_spec w Hw))|exact Hr|exact Hst|exact Ht|exact Hrole|exact Hemail|exact Himg|].
  exists (advance st r), st'. split; [done|]. unfold status_at. rewrite step_db.
  rewrite (main_role_view _ _ cur u); [exact Hmove|by rewrite Hrun|by rewrite Hrun|by apply Hf|
    by rewrite Hrun|apply advance_not_logout].
Qed.

End Claims.

(** The GMD's tab is logged in while "00000002" is pending GMD. *)
Definition demo_world_pending_gmd : world :=
  @run_events demo_platform demo_world_filled (take 17 demo_approvals).

Lemma demo_pending_gmd_reachable : @reachable demo_platform demo_world_pending_gmd.
Proof. apply run_events_reachable, demo_filled_reachable. Qed.

Definition demo_session (w : world) (sid : nat) : session := session_of w sid.

Lemma pending_request_progress_witness :
  exists ev st', route PendingGMD st' /\
    status_at "00000002" (fst (@step demo_platform demo_world_pending_gmd 7 ev)) = Some (status_name st').
Proof.
  apply (pending_request_progress (H := demo_platform) demo_world_pending_gmd 7
           (demo_session demo_world_pending_gmd 7)
           (default (@super_row demo_platform) (user_data (demo_session demo_world_pending_gmd 7))) "00000002"
           (demo_row demo_world_pending_gmd "00000002") PendingGMD).
  all: try (vm_compute; reflexivity).
  - apply demo_pending_gmd_reachable.
  - vm_compute. intros [=].
  - intros cur. vm_compute. intros [= <-]. discriminate.
Defined.
