(* ===== verification/Types.v ===== *)
(** * Types: the values the widgets admit, kept by every rerun

    Python does not check the types of [st.session_state.cart] or of the
    [category] column.  The widgets of [view_staff_portal]
    (src/Facility.py, lines 207-214) only let a user add an item whose
    category is a key of [CATEGORY_OPTIONS], whose item is non-empty and
    offered by that category's selectbox, and whose quantity is at least
    1 for stationary and 1 otherwise ([widget_ok]).  This file shows that
    every cart of every tab of a reachable world holds only such items,
    and that every request's category is a key of [CATEGORY_OPTIONS]: the
    Admin's [cat == "Stationary"] test (line 235) and the routing of lines
    150-153 only ever see those categories. *)

From S2P Require Import Prelude Schema Workflow Cart Auth App Safety.

(** An item the Add button accepts. *)
Definition item_ok (i : cart_item) : Prop :=
  widget_ok (ci_type i) (ci_item i) (ci_qty i) = true /\ ci_item i <> "".

Definition category_ok (r : request_row) : Prop := r_category r ∈ category_keys.

(** The typing invariant of one run: the tab's cart and the requests. *)
Definition tinv (s : run_state) : Prop :=
  Forall item_ok (cart (rs_sess s)) /\ map_Forall (fun _ r => category_ok r) (requests (rs_db s)).

Definition types_ok (w : world) : Prop :=
  map_Forall (fun _ ss => Forall item_ok (cart ss)) (w_sessions w) /\
  map_Forall (fun _ r => category_ok r) (requests (w_db w)).

Create HintDb types discriminated.

Lemma item_ok_category i : item_ok i -> ci_type i ∈ category_keys.
Proof. intros [Hw _]. unfold widget_ok in Hw. apply andb_true_iff in Hw as [Hc _]. by apply bool_decide_eq_true in Hc. Qed.

Section Preserve.
Context `{Platform}.

Lemma tinv_modify_sess f :
  (forall ss, cart (f ss) = cart ss) -> preserves tinv (modify_sess f).
Proof. intros Hf s [Hc Hr]. split; [cbn; by rewrite Hf|done]. Qed.

Lemma tinv_update_request k f :
  (forall r, r_category (f r) = r_category r) -> preserves tinv (modify_db (sql_update_request k f)).
Proof.
  intros Hf s [Hc Hr]. split; [done|]. intros k' r'. cbn. rewrite lookup_alter_Some.
  intros [[_ (r0 & Hr0 & ->)]|[_ Hr']]; [|exact (Hr k' r' Hr')].
  unfold category_ok. rewrite Hf. exact (Hr k' r0 Hr0).
Qed.

Lemma tinv_insert_request r : category_ok r -> preserves tinv (run_db (sql_insert_request r)).
Proof.
  intros Hok s [Hc Hr]. unfold run_db, sql_insert_request, insert_row.
  destruct (requests (rs_db s) !! r_id r); [done|]. split; [done|]. by apply map_Forall_insert_2.
Qed.

Lemma tinv_read_db : preserves tinv read_db.
Proof. by intros s. Qed.
Lemma tinv_read_sess : preserves tinv read_sess.
Proof. by intros s. Qed.
Lemma tinv_new_id : preserves tinv new_id.
Proof. by intros s. Qed.
Lemma tinv_log_action u a det : preserves tinv (log_action u a det).
Proof. by intros s. Qed.
Lemma tinv_insert_payment p : preserves tinv (run_db (sql_insert_payment p)).
Proof. intros s Hs. unfold run_db, sql_insert_payment, insert_row. by destruct (payments _ !! _). Qed.
Lemma tinv_insert_user u : preserves tinv (run_db (sql_insert_user u)).
Proof. intros s Hs. unfold run_db, sql_insert_user, insert_row. by destruct (users _ !! _). Qed.
Lemma tinv_update_user k f : preserves tinv (modify_db (sql_update_user k f)).
Proof. by intros s. Qed.
Lemma tinv_update_payment k f : preserves tinv (modify_db (sql_update_payment k f)).
Proof. by intros s. Qed.
End Preserve.

#[export] Hint Resolve tinv_read_db tinv_read_sess tinv_new_id tinv_log_action tinv_insert_payment
  tinv_insert_user tinv_update_user tinv_update_payment : types.

Ltac types_steps :=
  preserve_steps;
  try (apply tinv_update_request; intros; reflexivity);
  try (apply tinv_modify_sess; intros; reflexivity);
  eauto with types.

Section Handlers.
Context `{Platform}.

Lemma tinv_set_cart_nil : preserves tinv (modify_sess (set_cart [])).
Proof. intros s [_ Hr]. by split. Qed.

Lemma staff_add_types cat sel qty : preserves tinv (staff_add cat sel qty).
Proof.
  intros s [Hc Hr]. unfold staff_add. destruct (widget_ok cat sel qty) eqn:Hw; [|done].
  destruct (truthy sel) eqn:Ht; [|done]. run_app. split; [|done]. cbn.
  apply Forall_app. split; [done|]. apply Forall_singleton. split; [done|by apply truthy_true].
Qed.

Lemma submit_stationary_types u l : preserves tinv (submit_stationary u l).
Proof.
  unfold submit_stationary. types_steps.
  apply tinv_insert_request. unfold category_ok. cbn. by repeat constructor.
Qed.

Lemma submit_other_types u i : ci_type i ∈ category_keys -> preserves tinv (submit_other u i).
Proof. intros Hi. unfold submit_other. types_steps. by apply tinv_insert_request. Qed.

(** The items a submission files come from the cart it read, whose
    items the Add button accepted. *)
Lemma process_cart_submission_types u : preserves tinv (process_cart_submission u).
Proof.
  intros s Hs. unfold process_cart_submission. run_app. case_bool_decide; [done|].
  refine (preserves_bind _ _ _ (submit_stationary_types _ _) _ s Hs). intros _.
  apply preserves_bind; [|intros _; apply tinv_set_cart_nil].
  apply preserves_iter. intros i Hi. apply submit_other_types, item_ok_category.
  apply list_elem_of_filter in Hi as [_ Hi]. exact (proj1 (Forall_forall _ _) (proj1 Hs) i Hi).
Qed.

Lemma role_view_types user ev : preserves tinv (role_view user ev).
Proof.
  unfold role_view, staff_submit, hod_approve, hod_decline, admin_issue, admin_resolve, admin_quote,
    approver_approve, approver_decline, sac_validate, accounts_mark_paid, create_user.
  types_steps.
  all: first [apply staff_add_types | apply process_cart_submission_types].
Qed.

Lemma main_types ev : preserves tinv (main ev).
Proof.
  unfold main, login, change_password, logout. types_steps.
  all: apply role_view_types.
Qed.
End Handlers.

(** ** Every reachable world is well typed *)

Section World.
Context `{Platform}.

Lemma types_ok_step w sid ev : types_ok w -> types_ok (fst (step w sid ev)).
Proof.
  intros [Hs Hr].
  assert (Hrun : tinv (run_of w sid)).
  { split; [|done]. unfold run_of, session_of. cbn.
    destruct (w_sessions w !! sid) as [ss|] eqn:Hss; cbn; [exact (Hs _ _ Hss)|constructor]. }
  destruct (main_types ev _ Hrun) as [Hc Hr'].
  unfold types_ok. rewrite step_db, step_sessions. split; [|done].
  by apply map_Forall_insert_2.
Qed.

Lemma types_ok_reachable w : reachable w -> types_ok w.
Proof.
  induction 1 as [|w sid ev _ IH|w _ IH].
  - split; apply map_Forall_empty.
  - by apply types_ok_step.
  - split; [apply map_Forall_empty|]. cbn. rewrite init_db_requests. apply IH.
Qed.
End World.

(** C29: in every reachable world each item in the
    cart of each tab is one the Add button accepts: its category is a
    key of [CATEGORY_OPTIONS], its item is non-empty and offered by that
    category (free text under Others), and its quantity is at least 1
    for stationary and 1 otherwise; and each request's category is a key
    of [CATEGORY_OPTIONS]. *)
Theorem reachable_well_typed `{Platform} w sid ss :
  reachable w -> w_sessions w !! sid = Some ss ->
  Forall item_ok (cart ss) /\ map_Forall (fun _ r => category_ok r) (requests (w_db w)).
Proof.
  intros Hw Hs. destruct (types_ok_reachable w Hw) as [Hc Hr]. split; [exact (Hc sid ss Hs)|exact Hr].
Qed.

Lemma reachable_well_typed_witness :
  Forall item_ok (cart (session_of demo_world_filled 1)) /\
  map_Forall (fun _ r => category_ok r) (requests (w_db demo_world_filled)).
Proof.
  apply (reachable_well_typed (H := demo_platform) demo_world_filled 1);
    [apply demo_filled_reachable|vm_compute; reflexivity].
Defined.
